(** * Scholar Reader API: citation aggregation and paper metadata fetching

    A shallow embedding of [api/src/queries.ts] (the row loop of
    [Connection.getCitationsForPaper] with [add_paper] and
    [add_bounding_box]) and of [api/src/s2-api.ts] ([getPapers],
    [getPaper]), together with the pieces of the JavaScript run time and of
    lodash that these functions call.

    Conventions.
    - A JavaScript string is represented by the [string] holding its UTF-8
      encoding.  Identifiers, titles and author names are only compared and
      concatenated; [parseInt] and the array-index test read characters.
    - A JavaScript number is an IEEE 754 binary64 value, represented by
      [spec_float] (a single NaN, signed zeros, signed infinities).
    - The [citations] object of [getCitationsForPaper] is an object
      literal used as a map from citation ids to [Citation] objects.  It is
      represented by the list of its own properties, in the order in which
      JavaScript enumerates them, and by the object that an assignment to
      [__proto__] has installed as its prototype.  A call of its method
      [hasOwnProperty] throws once an own property has that name.
    - The body of a response is a value of a JSON text; the properties that
      [getPaper] reads are read from whatever the body is, and a read or a
      conversion that throws rejects the promise.
    - The React component [Drawer] is represented by its [render] and
      [componentWillUnmount], acting on the class list of the viewer. *)

From Stdlib Require Import List String Ascii ZArith NArith Bool Lia Permutation.
From Stdlib Require Import Floats.SpecFloat.
From Stdlib Require Import DecimalString DecimalN DecimalPos Sorted.
Import ListNotations.

Local Open Scope string_scope.
Local Open Scope list_scope.
Local Open Scope bool_scope.

(* ===================================================================== *)
(** * JavaScript run time *)
(* ===================================================================== *)

Module JS.

(** ** Numbers *)

Definition number : Type := spec_float.

Definition prec : Z := 53.
Definition emax : Z := 1024.

Definition NaN : number := S754_nan.

(** The Number value for a mathematical integer: the nearest binary64 value,
    ties to even, infinite beyond the range. *)
Definition Number_of_Z (z : Z) : number := binary_normalize prec emax z 0 false.

(** [x === y] on numbers: NaN differs from everything, [+0 === -0]. *)
Definition strict_eq (x y : number) : bool := SFeqb x y.

(** ToBoolean on numbers: [+0], [-0] and NaN are falsy. *)
Definition ToBoolean (x : number) : bool :=
  match x with
  | S754_zero _ => false
  | S754_nan => false
  | _ => true
  end.

Definition is_zero (x : number) : bool :=
  match x with
  | S754_zero _ => true
  | _ => false
  end.

(** ** How a call ends *)

Inductive Exception : Type :=
| TypeError.

(** A call returns a value or throws. *)
Inductive outcome (A : Type) : Type :=
| Returned (value : A)
| Threw (reason : Exception).

Arguments Returned {A} value.
Arguments Threw {A} reason.

Definition bind {A B : Type} (c : outcome A) (k : A -> outcome B) : outcome B :=
  match c with
  | Returned value => k value
  | Threw reason => Threw reason
  end.

(** ** Arrays *)

Section Arrays.
Context {A : Type}.

(** [a.push(x)] *)
Definition push (a : list A) (x : A) : list A := a ++ [x].

(** [a.some(f)] *)
Definition some (f : A -> bool) (a : list A) : bool := existsb f a.

End Arrays.

(** [a.indexOf(x)] on an array of strings: the index of the first element
    strictly equal to [x], or [-1]. *)
Fixpoint indexOf_from (k : Z) (a : list string) (x : string) : Z :=
  match a with
  | [] => -1
  | y :: a' => if String.eqb y x then k else indexOf_from (k + 1) a' x
  end.

Definition indexOf (a : list string) (x : string) : Z := indexOf_from 0 a x.

(** [a.join(sep)] on an array of strings, as the loop of
    Array.prototype.join: the separator is added before every element but
    the first. *)
Fixpoint join_from (sep : string) (k : nat) (R : string) (a : list string) : string :=
  match a with
  | [] => R
  | x :: a' =>
      let R := if (0 <? k)%nat then (R ++ sep)%string else R in
      join_from sep (S k) (R ++ x)%string a'
  end.

Definition join (a : list string) (sep : string) : string := join_from sep 0 "" a.

(** ** Characters and digits *)

Definition code (c : ascii) : N := N_of_ascii c.

(** The value of [c] as a digit in radix 10 or 16, by its ASCII code. *)
Definition digit_value (radix : N) (c : ascii) : option N :=
  let n := code c in
  if ((48 <=? n) && (n <=? 57))%N then Some (n - 48)%N
  else if (radix =? 16)%N && ((97 <=? n) && (n <=? 102))%N then Some (n - 87)%N
  else if (radix =? 16)%N && ((65 <=? n) && (n <=? 70))%N then Some (n - 55)%N
  else None.

(** The longest prefix of [s] made of radix-[radix] digits, most significant
    digit first. *)
Fixpoint leading_digits (radix : N) (s : string) : list N :=
  match s with
  | EmptyString => []
  | String c s' =>
      match digit_value radix c with
      | Some d => d :: leading_digits radix s'
      | None => []
      end
  end.

Definition digits_value (radix : N) (ds : list N) : N :=
  fold_left (fun acc d => (acc * radix + d)%N) ds 0%N.

(** ** parseInt *)

(** Leading white space and line terminators are skipped: TAB, LF, VT, FF,
    CR, SP, and in UTF-8 U+00A0, U+1680, U+2000..U+200A, U+2028, U+2029,
    U+202F, U+205F, U+3000 and U+FEFF. *)
Definition is_space1 (c : ascii) : bool :=
  let n := code c in ((9 <=? n) && (n <=? 13))%N || (n =? 32)%N.

Definition is_space2 (c1 c2 : ascii) : bool :=
  (code c1 =? 194)%N && (code c2 =? 160)%N.

Definition is_space3 (c1 c2 c3 : ascii) : bool :=
  let '(a, b, c) := (code c1, code c2, code c3) in
  ((a =? 225) && (b =? 154) && (c =? 128))%N
  || ((a =? 226) && (b =? 128)
      && (((128 <=? c) && (c <=? 138)) || (c =? 168) || (c =? 169) || (c =? 175)))%N
  || ((a =? 226) && (b =? 129) && (c =? 159))%N
  || ((a =? 227) && (b =? 128) && (c =? 128))%N
  || ((a =? 239) && (b =? 187) && (c =? 191))%N.

Fixpoint trim_start (s : string) : string :=
  match s with
  | EmptyString => s
  | String c1 s1 =>
      if is_space1 c1 then trim_start s1
      else
        match s1 with
        | EmptyString => s
        | String c2 s2 =>
            if is_space2 c1 c2 then trim_start s2
            else
              match s2 with
              | EmptyString => s
              | String c3 s3 =>
                  if is_space3 c1 c2 c3 then trim_start s3 else s
              end
        end
  end.

(** An optional sign: [true] for [-]. *)
Definition strip_sign (s : string) : bool * string :=
  match s with
  | String c s' =>
      if (code c =? 45)%N then (true, s')
      else if (code c =? 43)%N then (false, s')
      else (false, s)
  | EmptyString => (false, s)
  end.

(** With no radix argument the radix is 10, or 16 after [0x] or [0X]. *)
Definition strip_prefix (s : string) : N * string :=
  match s with
  | String c0 (String cx s') =>
      if (code c0 =? 48)%N && ((code cx =? 120)%N || (code cx =? 88)%N)
      then (16%N, s') else (10%N, s)
  | _ => (10%N, s)
  end.

(** [parseInt(string)], without a radix.  Every digit counts in the
    integer: the latitude to replace the digits after the twentieth by
    zeros is not used. *)
Definition parseInt (string : string) : number :=
  let inputString := trim_start string in
  let '(sign, unsigned) := strip_sign inputString in
  let '(R, body) := strip_prefix unsigned in
  match leading_digits R body with
  | [] => NaN
  | digits =>
      let mathInt := Z.of_N (digits_value R digits) in
      if (mathInt =? 0)%Z then S754_zero sign
      else Number_of_Z (if sign then - mathInt else mathInt)
  end.

(** ** Own properties of an ordinary object *)

(** A property name is an array index when it is the canonical decimal
    numeral of an integer in [0, 2^32 - 2]. *)
Definition all_digits (s : string) : bool :=
  (List.length (leading_digits 10 s) =? String.length s)%nat.

Definition array_index (k : string) : option N :=
  match k with
  | EmptyString => None
  | String c rest =>
      if all_digits k && negb ((code c =? 48)%N && negb (String.length rest =? 0)%nat) then
        let n := digits_value 10 (leading_digits 10 k) in
        if (n <? 4294967295)%N then Some n else None
      else None
  end.

Section Object.
Context {V : Type}.

(** The own properties, in the order of OrdinaryOwnPropertyKeys: array
    indices in ascending numeric order, then the other names in the order in
    which they were created. *)
Definition object : Type := list (string * V).

(** [o.hasOwnProperty(k)] *)
Fixpoint hasOwnProperty (o : object) (k : string) : bool :=
  match o with
  | [] => false
  | (k', _) :: o' => String.eqb k' k || hasOwnProperty o' k
  end.

(** [o[k]] for an own property; [None] stands for [undefined]. *)
Fixpoint get (o : object) (k : string) : option V :=
  match o with
  | [] => None
  | (k', v) :: o' => if String.eqb k' k then Some v else get o' k
  end.

(** Creation of the array-index property [k] (of index [i]): it is placed
    before the first property that is not an array index or has a larger
    index. *)
Fixpoint define_index (i : N) (k : string) (v : V) (o : object) : object :=
  match o with
  | [] => [(k, v)]
  | (k', v') :: o' =>
      match array_index k' with
      | Some j => if (i <? j)%N then (k, v) :: o
                  else (k', v') :: define_index i k v o'
      | None => (k, v) :: o
      end
  end.

Definition define (k : string) (v : V) (o : object) : object :=
  match array_index k with
  | Some i => define_index i k v o
  | None => o ++ [(k, v)]
  end.

(** The value of the existing own property [k] is replaced by its image
    under [f]; the property keeps its place. *)
Fixpoint alter (f : V -> V) (k : string) (o : object) : object :=
  match o with
  | [] => []
  | (k', v) :: o' =>
      if String.eqb k' k then (k', f v) :: o' else (k', v) :: alter f k o'
  end.

(** The write of [v] to the own property [k], which is created when the
    object does not have it.  An assignment [o[k] = v] is such a write
    unless a setter is inherited for [k]. *)
Definition set (o : object) (k : string) (v : V) : object :=
  if hasOwnProperty o k then alter (fun _ => v) k o else define k v o.

(** [Object.values(o)] *)
Definition values (o : object) : list V := map snd o.

(** [Object.keys(o)] *)
Definition keys (o : object) : list string := map fst o.

End Object.

Arguments object V : clear implicits.

(** ** The values of a JSON text *)

(** A number is kept with the string that Number::toString gives for it
    (the shortest decimal that reads back as the number, of which ECMAScript
    leaves the last digit to the implementation). *)
#[warnings="-register-all"] Inductive any : Type :=
| Undefined
| Null
| Boolean (b : bool)
| Number (n : number) (digits : string)
| Str (s : string)
| Array (elements : list any)
| Object (properties : list (string * any)).

(** [v.k] for a name [k] that no prototype defines and that is neither an
    index nor [length]: a TypeError on [undefined] and [null], the own
    property of an object, [undefined] when there is none and on the other
    values. *)
Definition property (v : any) (k : string) : outcome any :=
  match v with
  | Undefined | Null => Threw TypeError
  | Object properties =>
      Returned (match get properties k with
                | Some x => x
                | None => Undefined
                end)
  | _ => Returned Undefined
  end.

Section Elements.

Variable ToString : any -> outcome string.

(** The string of an element in [join]: empty for [undefined] and
    [null]. *)
Definition element_string (element : any) : outcome string :=
  match element with
  | Undefined | Null => Returned ""
  | _ => ToString element
  end.

Fixpoint element_strings (a : list any) : outcome (list string) :=
  match a with
  | [] => Returned []
  | x :: a' =>
      bind (element_string x) (fun s =>
      bind (element_strings a') (fun strings =>
      Returned (s :: strings)))
  end.

End Elements.

(** ToString.  An array is joined with commas ([Array.prototype.toString]).
    An object of a JSON text is [[object Object]], unless it has an own
    property [toString]: that property is no function, [valueOf] gives the
    object itself, and the conversion throws. *)
Fixpoint ToString (v : any) : outcome string :=
  match v with
  | Undefined => Returned "undefined"
  | Null => Returned "null"
  | Boolean b => Returned (if b then "true" else "false")
  | Number _ digits => Returned digits
  | Str s => Returned s
  | Array elements =>
      bind (element_strings ToString elements) (fun strings =>
      Returned (join strings ","))
  | Object properties =>
      if hasOwnProperty properties "toString" then Threw TypeError
      else Returned "[object Object]"
  end.

(** [a.join(sep)] on an array of any values. *)
Definition join_any (a : list any) (sep : string) : outcome string :=
  bind (element_strings ToString a) (fun strings =>
  Returned (join strings sep)).

(** [a.map(f)] on an array. *)
Fixpoint map_array (f : any -> outcome any) (a : list any) : outcome (list any) :=
  match a with
  | [] => Returned []
  | x :: a' =>
      bind (f x) (fun y =>
      bind (map_array f a') (fun a'' =>
      Returned (y :: a'')))
  end.

(** [v.map(f)] on a value of a JSON text: a TypeError unless [v] is an
    array, since [undefined] and [null] have no property and no other value
    has a method [map]. *)
Definition call_map (v : any) (f : any -> outcome any) : outcome (list any) :=
  match v with
  | Array elements => map_array f elements
  | _ => Threw TypeError
  end.

End JS.

(* ===================================================================== *)
(** * lodash *)
(* ===================================================================== *)

Module Lodash.

(** [_.eq(value, other)] on numbers (SameValueZero):
    [value === other || (value !== value && other !== other)]. *)
Definition eq (value other : JS.number) : bool :=
  JS.strict_eq value other
  || (negb (JS.strict_eq value value) && negb (JS.strict_eq other other)).

End Lodash.

(* ===================================================================== *)
(** * queries.ts *)
(* ===================================================================== *)

Module Queries.

Record BoundingBox : Type := {
  page : JS.number;
  left : JS.number;
  top : JS.number;
  width : JS.number;
  height : JS.number
}.

Record Citation : Type := {
  bounding_boxes : list BoundingBox;
  papers : list string
}.

(** The object [citations], created by [{}]: its own properties, and its
    prototype, which is [Object.prototype] ([None]) until an assignment to
    [__proto__] replaces it by a citation object.  A citation object has
    the own properties [bounding_boxes] and [papers] and the prototype
    [Object.prototype]. *)
Record CitationsById : Type := {
  own : JS.object Citation;
  prototype : option Citation
}.

(** One row of the join selected by [getCitationsForPaper]. *)
Record Row : Type := {
  citation_id : string;
  cited_paper_id : string;
  row_page : JS.number;
  row_left : JS.number;
  row_top : JS.number;
  row_width : JS.number;
  row_height : JS.number
}.

(** [_.isEqual(b, box)] on two bounding boxes: both objects have the same
    five own properties, whose values are compared with [Lodash.eq]. *)
Definition isEqual (b box : BoundingBox) : bool :=
  Lodash.eq (page b) (page box)
  && Lodash.eq (left b) (left box)
  && Lodash.eq (top b) (top box)
  && Lodash.eq (width b) (width box)
  && Lodash.eq (height b) (height box).

Definition add_paper (citation : Citation) (s2Id : string) : Citation :=
  if (JS.indexOf (papers citation) s2Id =? -1)%Z then
    {| bounding_boxes := bounding_boxes citation;
       papers := JS.push (papers citation) s2Id |}
  else citation.

Definition add_bounding_box (citation : Citation) (box : BoundingBox) : Citation :=
  if negb (JS.some (fun b => isEqual b box) (bounding_boxes citation)) then
    {| bounding_boxes := JS.push (bounding_boxes citation) box;
       papers := papers citation |}
  else citation.

(** The bounding box built from a row (lines 74-80). *)
Definition bounding_box_of (row : Row) : BoundingBox :=
  {| page := row_page row;
     left := row_left row;
     top := row_top row;
     width := row_width row;
     height := row_height row |}.

Definition empty_citation : Citation := {| bounding_boxes := []; papers := [] |}.

Local Notation "x <- c ;; k" := (JS.bind c (fun x => k))
  (at level 61, c at next level, right associativity).

(** [citations.hasOwnProperty(key)].  The method is looked up on the object:
    an own property [hasOwnProperty] holds a citation object, which is not a
    function, and the call throws; otherwise the method of
    [Object.prototype] is found, through the prototype, and tells whether
    [key] is an own property. *)
Definition call_hasOwnProperty (citations : CitationsById) (key : string)
    : JS.outcome bool :=
  if JS.hasOwnProperty (own citations) "hasOwnProperty"
  then JS.Threw JS.TypeError
  else JS.Returned (JS.hasOwnProperty (own citations) key).

(** [citations[key] = value].  [Object.prototype] has a setter for
    [__proto__], which makes [value] the prototype of the object; for any
    other key an own property is written (the properties inherited
    otherwise are writable data properties). *)
Definition assign (citations : CitationsById) (key : string) (value : Citation)
    : CitationsById :=
  if String.eqb key "__proto__"
  then {| own := own citations; prototype := Some value |}
  else {| own := JS.set (own citations) key value;
          prototype := prototype citations |}.

(** [f(citations[key])] for [add_paper] and [add_bounding_box], which mutate
    their argument.  [citations[key]] is the own property, or for
    [__proto__] the prototype; on any other value ([undefined], an inherited
    method or array, [Object.prototype]) the property read by [f] is
    [undefined] and the call on it throws. *)
Definition update (citations : CitationsById) (key : string)
    (f : Citation -> Citation) : JS.outcome CitationsById :=
  match JS.get (own citations) key with
  | Some _ =>
      JS.Returned {| own := JS.alter f key (own citations);
                     prototype := prototype citations |}
  | None =>
      if String.eqb key "__proto__" then
        match prototype citations with
        | Some citation =>
            JS.Returned {| own := own citations; prototype := Some (f citation) |}
        | None => JS.Threw JS.TypeError
        end
      else JS.Threw JS.TypeError
  end.

(** The body of [for (const row of rows)] (lines 66-82). *)
Definition loop_body (citations : CitationsById) (row : Row)
    : JS.outcome CitationsById :=
  let key := citation_id row in
  has <- call_hasOwnProperty citations key ;;
  let citations :=
    if negb has then assign citations key empty_citation else citations in
  let s2Id := cited_paper_id row in
  let bounding_box := bounding_box_of row in
  citations <- update citations key (fun c => add_paper c s2Id) ;;
  update citations key (fun c => add_bounding_box c bounding_box).

(** The loop over [rows], from the object [citations]. *)
Fixpoint aggregate_from (citations : CitationsById) (rows : list Row)
    : JS.outcome CitationsById :=
  match rows with
  | [] => JS.Returned citations
  | row :: rows' =>
      citations' <- loop_body citations row ;;
      aggregate_from citations' rows'
  end.

(** The object [citations] when the loop ends (lines 64-83). *)
Definition aggregate (rows : list Row) : JS.outcome CitationsById :=
  aggregate_from {| own := []; prototype := None |} rows.

(** What [getCitationsForPaper] does with the rows of its query: it returns
    [Object.values(citations)], or throws. *)
Definition getCitationsForPaper (rows : list Row) : JS.outcome (list Citation) :=
  citations <- aggregate rows ;;
  JS.Returned (JS.values (own citations)).

End Queries.

(* ===================================================================== *)
(** * s2-api.ts *)
(* ===================================================================== *)

Module S2Api.

Definition SEMANTIC_SCHOLAR_API_URL : string := "http://api.semanticscholar.org/v1".

Module Author.
(** Modelled from the spec: the element type of [authors] in the missing
    [types/s2-api.ts]; an author has a display name. *)
Record t : Type := mk { name : string }.
End Author.

Module S2ApiPaper.
(** Modelled from the spec: the interface [S2ApiPaper] of the missing
    [types/s2-api.ts].  A successful response carries title (string),
    authors (sequence of {name: string}), abstract (string or null),
    url (string), venue (string or null) and year (string). *)
Record t : Type := mk {
  title : string;
  authors : list Author.t;
  abstract : option string;
  url : string;
  venue : option string;
  year : string
}.
End S2ApiPaper.

Module Paper.
(** The interface [Paper].  [title], [abstract], [url] and [venue] are
    copied from the body of the response and hold whatever value the body
    has under these names. *)
Record t : Type := mk {
  s2Id : string;
  title : JS.any;
  authors : string;
  abstract : JS.any;
  url : JS.any;
  venue : JS.any;
  year : option JS.number
}.
End Paper.

(** A response of axios.  [data] is the value of the JSON text of the body,
    or the body as a string when it is no JSON text. *)
Record AxiosResponse : Type := {
  status : Z;
  data : JS.any
}.

(** What [axios.get] rejects with: no response at all, or a response whose
    status is outside 2xx. *)
Inductive AxiosError : Type :=
| NetworkError
| StatusError (response : AxiosResponse).

(** The state in which a promise settles. *)
Inductive Promise (A : Type) : Type :=
| Fulfilled (value : A)
| Rejected (reason : JS.Exception).

Arguments Fulfilled {A} value.
Arguments Rejected {A} reason.

Definition then_ {A B : Type} (p : Promise A) (k : A -> Promise B) : Promise B :=
  match p with
  | Fulfilled value => k value
  | Rejected reason => Rejected reason
  end.

Notation "'await' x <- p ;; k" := (then_ p (fun x => k))
  (at level 61, x name, p at next level, right associativity).

(** The promise of an [async] function whose body returns or throws. *)
Definition async {A : Type} (body : JS.outcome A) : Promise A :=
  match body with
  | JS.Returned value => Fulfilled value
  | JS.Threw reason => Rejected reason
  end.

(** [Promise.all(promises)]: fulfilled with the values in the order of
    [promises] when all are fulfilled, rejected as soon as one is.  The
    reason kept is that of the first rejected promise of the list. *)
Fixpoint Promise_all {A : Type} (promises : list (Promise A)) : Promise (list A) :=
  match promises with
  | [] => Fulfilled []
  | p :: promises' =>
      await value <- p ;;
      await values <- Promise_all promises' ;;
      Fulfilled (value :: values)
  end.

(** [a.map(f)], whose callback also receives the index. *)
Fixpoint map_from {A B : Type} (f : A -> nat -> B) (k : nat) (a : list A) : list B :=
  match a with
  | [] => []
  | x :: a' => f x k :: map_from f (S k) a'
  end.

(** [results.filter(paper => paper !== undefined)] *)
Fixpoint filter_defined {A : Type} (results : list (option A)) : list A :=
  match results with
  | [] => []
  | Some paper :: results' => paper :: filter_defined results'
  | None :: results' => filter_defined results'
  end.

Local Notation "x <- c ;; k" := (JS.bind c (fun x => k))
  (at level 61, c at next level, right associativity).

(** [parseInt(year) || null], for the string [year] of the argument. *)
Definition year_of (year : string) : option JS.number :=
  let n := JS.parseInt year in
  if JS.ToBoolean n then Some n else None.

Section Fetch.

(** Modelled from the spec: the type guard [isS2ApiResponseSuccess] of the
    missing [types/s2-api.ts], which recognises the success marker of a
    response.  It is any predicate on responses, taken to return for every
    response. *)
Variable isS2ApiResponseSuccess : AxiosResponse -> bool.

(** The service: the outcome of the [k]-th request of a call, made to the
    given URL. *)
Variable axios_get : nat -> string -> AxiosError + AxiosResponse.

(** [getPaper(s2Id)], as the [k]-th request.  [None] stands for
    [undefined].  The diagnostic written by [console.error] is not part of
    the result.  The cast of line 34 does nothing at run time: the
    properties are read from whatever the body is, [parseInt] converts its
    argument to a string, and an exception of lines 33-45, which are outside
    the [try], rejects the promise. *)
Definition getPaper (k : nat) (s2Id : string) : Promise (option Paper.t) :=
  match axios_get k (SEMANTIC_SCHOLAR_API_URL ++ "/paper/" ++ s2Id)%string with
  | inl err => Fulfilled None
  | inr response =>
      if isS2ApiResponseSuccess response then
        let data := data response in
        async (
          data_year <- JS.property data "year" ;;
          year_string <- JS.ToString data_year ;;
          let year := year_of year_string in
          title <- JS.property data "title" ;;
          data_authors <- JS.property data "authors" ;;
          names <- JS.call_map data_authors (fun a => JS.property a "name") ;;
          authors <- JS.join_any names ", " ;;
          abstract <- JS.property data "abstract" ;;
          url <- JS.property data "url" ;;
          venue <- JS.property data "venue" ;;
          JS.Returned (Some {|
            Paper.s2Id := s2Id;
            Paper.title := title;
            Paper.authors := authors;
            Paper.abstract := abstract;
            Paper.url := url;
            Paper.year := year;
            Paper.venue := venue
          |}))
      else Fulfilled None
  end.

Definition getPapers (s2Ids : list string) : Promise (list Paper.t) :=
  await results <- Promise_all (map_from (fun s2Id k => getPaper k s2Id) 0 s2Ids) ;;
  let papers := filter_defined results in
  Fulfilled papers.

End Fetch.

End S2Api.

(* ===================================================================== *)
(** * Reference notions used by the statements *)
(* ===================================================================== *)

Module Spec.

Import Queries.

(** ** The map of the entries

    What the body of the loop does to the own properties of [citations] for
    a row whose id is not [__proto__], when the call of [hasOwnProperty]
    returns: the loop as it would be on a map from ids to citations. *)

Definition Entries : Type := JS.object Citation.

Definition step_entries (citations : Entries) (row : Row) : Entries :=
  let key := citation_id row in
  let citations :=
    if negb (JS.hasOwnProperty citations key)
    then JS.set citations key empty_citation
    else citations in
  let s2Id := cited_paper_id row in
  let bounding_box := bounding_box_of row in
  let citations := JS.alter (fun c => add_paper c s2Id) key citations in
  JS.alter (fun c => add_bounding_box c bounding_box) key citations.

Definition entries_from (citations : Entries) (rows : list Row) : Entries :=
  fold_left step_entries rows citations.

Definition entries_of (rows : list Row) : Entries := entries_from [] rows.

(** Two numbers are equal with no tolerance: the same value, the two zeros
    being equal numbers. *)
Definition same_number (x y : JS.number) : Prop :=
  x = y \/ (JS.is_zero x = true /\ JS.is_zero y = true).

(** Two boxes are equal when their five fields are. *)
Definition box_equal (b1 b2 : BoundingBox) : Prop :=
  same_number (page b1) (page b2)
  /\ same_number (left b1) (left b2)
  /\ same_number (top b1) (top b2)
  /\ same_number (width b1) (width b2)
  /\ same_number (height b1) (height b2).

(** The elements of a list in the order of their first occurrence. *)
Fixpoint first_occurrences (l : list string) : list string :=
  match l with
  | [] => []
  | x :: l' => x :: filter (fun y => negb (String.eqb x y)) (first_occurrences l')
  end.

(** The rows of one citation, and the papers they cite, in row order. *)
Definition rows_of (key : string) (rows : list Row) : list Row :=
  filter (fun row => String.eqb (citation_id row) key) rows.

Definition papers_of (key : string) (rows : list Row) : list string :=
  map cited_paper_id (rows_of key rows).

(** The ids that are names of the own properties of [citations] like any
    other: not [__proto__], which names the prototype, and not
    [hasOwnProperty], which names the method that the loop calls. *)
Definition ordinary_id (k : string) : bool :=
  negb (String.eqb k "__proto__") && negb (String.eqb k "hasOwnProperty").

Definition ordinary (rows : list Row) : Prop :=
  Forall (fun row => ordinary_id (citation_id row) = true) rows.

(** A row of id [hasOwnProperty] is followed by another row. *)
Fixpoint shadowed (rows : list Row) : bool :=
  match rows with
  | [] => false
  | row :: rows' =>
      (String.eqb (citation_id row) "hasOwnProperty"
       && match rows' with [] => false | _ :: _ => true end)
      || shadowed rows'
  end.

(** The rows whose id is not [__proto__]. *)
Definition named (rows : list Row) : list Row :=
  filter (fun row => negb (String.eqb (citation_id row) "__proto__")) rows.

(** The row that states one fact: a citation, one cited paper, one box. *)
Definition fact_row (citation paper : string) (box : BoundingBox) : Row :=
  {| citation_id := citation;
     cited_paper_id := paper;
     row_page := page box;
     row_left := left box;
     row_top := top box;
     row_width := width box;
     row_height := height box |}.

(** The object under a key, or the fresh object of lines 68-71. *)
Definition entry_or_empty (o : option Citation) : Citation :=
  match o with
  | Some c => c
  | None => empty_citation
  end.

(** What one row does to the citation object of its id. *)
Definition merge_row (citation : Citation) (row : Row) : Citation :=
  add_bounding_box (add_paper citation (cited_paper_id row)) (bounding_box_of row).

(** The prototype of [citations] after [rows]: every row of id [__proto__]
    installs a fresh citation object that holds its paper and its box. *)
Definition prototype_after (start : option Citation) (rows : list Row)
    : option Citation :=
  fold_left (fun p row =>
               if String.eqb (citation_id row) "__proto__"
               then Some (merge_row empty_citation row) else p)
            rows start.

(** The row adds nothing to the object: its citation has an entry, which
    holds its paper and a box equal to its box. *)
Definition absorbed (citations : Entries) (row : Row) : Prop :=
  exists citation,
    JS.get citations (citation_id row) = Some citation
    /\ In (cited_paper_id row) (papers citation)
    /\ existsb (fun b => isEqual b (bounding_box_of row)) (bounding_boxes citation) = true.

(** The box [{page: 0, left: 1, top: 2, width: 3, height: 4}]. *)
Definition box_01234 : BoundingBox :=
  {| page := JS.Number_of_Z 0;
     left := JS.Number_of_Z 1;
     top := JS.Number_of_Z 2;
     width := JS.Number_of_Z 3;
     height := JS.Number_of_Z 4 |}.

(** Two rows of citation [c1]: papers [p1] and [p2], the same box. *)
Definition two_papers_one_box : list Row :=
  [ {| citation_id := "c1"; cited_paper_id := "p1";
       row_page := JS.Number_of_Z 0; row_left := JS.Number_of_Z 1;
       row_top := JS.Number_of_Z 2; row_width := JS.Number_of_Z 3;
       row_height := JS.Number_of_Z 4 |};
    {| citation_id := "c1"; cited_paper_id := "p2";
       row_page := JS.Number_of_Z 0; row_left := JS.Number_of_Z 1;
       row_top := JS.Number_of_Z 2; row_width := JS.Number_of_Z 3;
       row_height := JS.Number_of_Z 4 |} ].

(** The box [{page: 1, left: 1, top: 2, width: 3, height: 4}], which
    differs from [box_01234] in the page only. *)
Definition box_11234 : BoundingBox :=
  {| page := JS.Number_of_Z 1;
     left := JS.Number_of_Z 1;
     top := JS.Number_of_Z 2;
     width := JS.Number_of_Z 3;
     height := JS.Number_of_Z 4 |}.

(** [box_01234] with [-0] for its page, and with NaN for its left edge. *)
Definition box_negative_zero : BoundingBox :=
  {| page := S754_zero true;
     left := JS.Number_of_Z 1;
     top := JS.Number_of_Z 2;
     width := JS.Number_of_Z 3;
     height := JS.Number_of_Z 4 |}.

Definition box_nan : BoundingBox :=
  {| page := JS.Number_of_Z 0;
     left := JS.NaN;
     top := JS.Number_of_Z 2;
     width := JS.Number_of_Z 3;
     height := JS.Number_of_Z 4 |}.

(** No two elements of a list are related, whatever their positions. *)
Inductive pairwise {A : Type} (R : A -> A -> Prop) : list A -> Prop :=
| pairwise_nil : pairwise R []
| pairwise_cons : forall x l,
    Forall (fun y => ~ R x y /\ ~ R y x) l -> pairwise R l -> pairwise R (x :: l).

(** [l'] extends [l] at its end. *)
Definition extends {A : Type} (l l' : list A) : Prop := exists added, l' = l ++ added.

(** The invariant of a citation object: no paper twice, no two equal boxes. *)
Definition deduplicated (citation : Citation) : Prop :=
  NoDup (papers citation) /\ pairwise box_equal (bounding_boxes citation).

(** A later state of a citation object: both arrays were only appended to. *)
Definition grown (citation citation' : Citation) : Prop :=
  extends (papers citation) (papers citation')
  /\ extends (bounding_boxes citation) (bounding_boxes citation').

End Spec.

Module FetchSpec.

Import S2Api.

(** The URL requested for an identifier. *)
Definition url_of (s2Id : string) : string :=
  (SEMANTIC_SCHOLAR_API_URL ++ "/paper/" ++ s2Id)%string.

(** A request resolves when a response arrives and is recognised as a
    success; it fails on a network error, on a status outside 2xx, and on a
    response without the success marker. *)
Definition resolves (isS2ApiResponseSuccess : AxiosResponse -> bool)
    (outcome : AxiosError + AxiosResponse) : bool :=
  match outcome with
  | inl _ => false
  | inr response => isS2ApiResponseSuccess response
  end.

(** ** Bodies *)

(** What a body has under a name: [undefined] when it has nothing. *)
Definition field (body : JS.any) (k : string) : JS.any :=
  match body with
  | JS.Object properties =>
      match JS.get properties k with
      | Some v => v
      | None => JS.Undefined
      end
  | _ => JS.Undefined
  end.

Definition is_nullish (v : JS.any) : bool :=
  match v with
  | JS.Undefined | JS.Null => true
  | _ => false
  end.

(** The value has a string: it is not an object with a property [toString],
    and holds none in its arrays. *)
Fixpoint stringable (v : JS.any) : bool :=
  match v with
  | JS.Array elements => forallb stringable elements
  | JS.Object properties => negb (JS.hasOwnProperty properties "toString")
  | _ => true
  end.

(** The string of a value that has one. *)
Fixpoint string_of (v : JS.any) : string :=
  match v with
  | JS.Undefined => "undefined"
  | JS.Null => "null"
  | JS.Boolean true => "true"
  | JS.Boolean false => "false"
  | JS.Number _ digits => digits
  | JS.Str s => s
  | JS.Array elements =>
      String.concat ","
        (map (fun element => if is_nullish element then "" else string_of element)
             elements)
  | JS.Object _ => "[object Object]"
  end.

(** The string that stands for a name in the authors of a paper: nothing
    for a name that is [undefined] or [null]. *)
Definition name_string (name : JS.any) : string :=
  if is_nullish name then "" else string_of name.

(** The entries of the authors of a body; none when the body has no array
    of authors. *)
Definition authors_of (body : JS.any) : list JS.any :=
  match field body "authors" with
  | JS.Array authors => authors
  | _ => []
  end.

(** The body can be made into a paper: it is not [undefined] or [null], its
    year has a string, its authors are an array without [null] entry, and
    the names of the authors have strings. *)
Definition well_formed (body : JS.any) : bool :=
  negb (is_nullish body)
  && stringable (field body "year")
  && match field body "authors" with
     | JS.Array authors =>
         forallb (fun author => negb (is_nullish author)
                                && stringable (field author "name"))
                 authors
     | _ => false
     end.

(** The paper made from a body that is well formed. *)
Definition paper_of (s2Id : string) (body : JS.any) : Paper.t :=
  {| Paper.s2Id := s2Id;
     Paper.title := field body "title";
     Paper.authors :=
       String.concat ", "
         (map (fun author => name_string (field author "name")) (authors_of body));
     Paper.abstract := field body "abstract";
     Paper.url := field body "url";
     Paper.venue := field body "venue";
     Paper.year := year_of (string_of (field body "year")) |}.

(** ** Bodies of the shape [S2ApiPaper] *)

Definition as_string (v : JS.any) : option string :=
  match v with
  | JS.Str s => Some s
  | _ => None
  end.

Definition as_nullable_string (v : JS.any) : option (option string) :=
  match v with
  | JS.Str s => Some (Some s)
  | JS.Null => Some None
  | _ => None
  end.

Definition as_author (v : JS.any) : option Author.t :=
  match v with
  | JS.Object _ => option_map Author.mk (as_string (field v "name"))
  | _ => None
  end.

Fixpoint as_authors (l : list JS.any) : option (list Author.t) :=
  match l with
  | [] => Some []
  | v :: l' =>
      match as_author v, as_authors l' with
      | Some author, Some authors => Some (author :: authors)
      | _, _ => None
      end
  end.

(** Modelled from the spec: the body read at the type [S2ApiPaper], when it
    has the required fields of a successful response: title (string),
    authors (sequence of {name: string}), abstract (string or null),
    url (string), venue (string or null), year (string).  Other fields are
    allowed. *)
Definition as_paper (body : JS.any) : option S2ApiPaper.t :=
  match as_string (field body "title"),
        field body "authors",
        as_nullable_string (field body "abstract"),
        as_string (field body "url"),
        as_nullable_string (field body "venue"),
        as_string (field body "year") with
  | Some title, JS.Array authors, Some abstract, Some url, Some venue, Some year =>
      match as_authors authors with
      | Some authors =>
          Some {| S2ApiPaper.title := title;
                  S2ApiPaper.authors := authors;
                  S2ApiPaper.abstract := abstract;
                  S2ApiPaper.url := url;
                  S2ApiPaper.venue := venue;
                  S2ApiPaper.year := year |}
      | None => None
      end
  | _, _, _, _, _, _ => None
  end.

Definition nullable (o : option string) : JS.any :=
  match o with
  | Some s => JS.Str s
  | None => JS.Null
  end.

(** The body that holds a paper and nothing else. *)
Definition PaperData (paper : S2ApiPaper.t) : JS.any :=
  JS.Object
    [("title", JS.Str (S2ApiPaper.title paper));
     ("authors",
      JS.Array (map (fun author => JS.Object [("name", JS.Str (Author.name author))])
                    (S2ApiPaper.authors paper)));
     ("abstract", nullable (S2ApiPaper.abstract paper));
     ("url", JS.Str (S2ApiPaper.url paper));
     ("venue", nullable (S2ApiPaper.venue paper));
     ("year", JS.Str (S2ApiPaper.year paper))].

(** The guard is a type guard: a response it accepts has a body of the shape
    [S2ApiPaper]. *)
Definition narrows (isS2ApiResponseSuccess : AxiosResponse -> bool) : Prop :=
  forall response,
    isS2ApiResponseSuccess response = true ->
    exists paper, as_paper (data response) = Some paper.

(** ** Batches *)

(** The identifiers with the positions of their requests, from [k] on. *)
Fixpoint requests_from (k : nat) (s2Ids : list string) : list (nat * string) :=
  match s2Ids with
  | [] => []
  | s2Id :: s2Ids' => (k, s2Id) :: requests_from (S k) s2Ids'
  end.

(** The identifiers whose request resolves, in the order of the input. *)
Definition resolved_from (isS2ApiResponseSuccess : AxiosResponse -> bool)
    (axios_get : nat -> string -> AxiosError + AxiosResponse)
    (k : nat) (s2Ids : list string) : list string :=
  map snd
    (filter (fun request =>
               resolves isS2ApiResponseSuccess
                 (axios_get (fst request) (url_of (snd request))))
            (requests_from k s2Ids)).

Definition resolved (isS2ApiResponseSuccess : AxiosResponse -> bool)
    (axios_get : nat -> string -> AxiosError + AxiosResponse)
    (s2Ids : list string) : list string :=
  resolved_from isS2ApiResponseSuccess axios_get 0 s2Ids.

(** ** Examples of guards and services *)

Definition is_2xx (response : AxiosResponse) : bool :=
  (200 <=? status response)%Z && (status response <? 300)%Z.

(** A guard that accepts the 2xx responses whose body has the shape of a
    paper. *)
Definition shaped_success (response : AxiosResponse) : bool :=
  match as_paper (data response) with
  | Some _ => is_2xx response
  | None => false
  end.

(** A guard that accepts the 2xx responses whose body has an array under
    [authors]. *)
Definition success_with_authors (response : AxiosResponse) : bool :=
  is_2xx response
  && match field (data response) "authors" with
     | JS.Array _ => true
     | _ => false
     end.

Definition sample_paper (year : string) : S2ApiPaper.t :=
  {| S2ApiPaper.title := "A paper";
     S2ApiPaper.authors := [Author.mk "Ada Lovelace"; Author.mk "Alan Turing";
                            Author.mk "Grace Hopper"];
     S2ApiPaper.abstract := None;
     S2ApiPaper.url := "http://example.org/a-paper";
     S2ApiPaper.venue := Some "A venue";
     S2ApiPaper.year := year |}.

(** The body of an error: [{error: "Paper not found"}]. *)
Definition error_body : JS.any := JS.Object [("error", JS.Str "Paper not found")].

(** A body whose list of authors has a [null] entry:
    [{title: "A paper", authors: [{name: "Ada Lovelace"}, null], year: "2019"}]. *)
Definition null_author_body : JS.any :=
  JS.Object
    [("title", JS.Str "A paper");
     ("authors", JS.Array [JS.Object [("name", JS.Str "Ada Lovelace")]; JS.Null]);
     ("year", JS.Str "2019")].

(** A body with authors and nothing else: [{authors: []}]. *)
Definition authors_only_body : JS.any := JS.Object [("authors", JS.Array [])].

(** A service that answers every request with [sample_paper year]. *)
Definition service_answering (year : string) (k : nat) (url : string)
    : AxiosError + AxiosResponse :=
  inr {| status := 200; data := PaperData (sample_paper year) |}.

(** A service that fails for the identifier [B] (a network error for the
    first two requests of a call, the status 404 later) and answers [D] with
    a body that is not a paper. *)
Definition service_failing_for_B (k : nat) (url : string)
    : AxiosError + AxiosResponse :=
  if String.eqb url (url_of "B") then
    if (k <? 2)%nat then inl NetworkError
    else inl (StatusError {| status := 404; data := error_body |})
  else if String.eqb url (url_of "D") then
    inr {| status := 200; data := error_body |}
  else inr {| status := 200; data := PaperData (sample_paper "2019") |}.

(** A service that answers [N] with a list of authors that has a [null]
    entry, and every other request with a paper. *)
Definition service_null_author (k : nat) (url : string)
    : AxiosError + AxiosResponse :=
  if String.eqb url (url_of "N") then
    inr {| status := 200; data := null_author_body |}
  else inr {| status := 200; data := PaperData (sample_paper "2019") |}.

End FetchSpec.

Module OrderSpec.

Import Queries.

(** The property name is an array index. *)
Definition is_index (k : string) : bool :=
  match JS.array_index k with
  | Some _ => true
  | None => false
  end.

(** The order in which an object enumerates its own properties: an array
    index is followed by larger array indices and by names that are not
    array indices; a name that is not an array index is followed by such
    names only. *)
Fixpoint enumeration_order (ks : list string) : Prop :=
  match ks with
  | [] => True
  | k :: ks' =>
      match JS.array_index k with
      | Some i =>
          Forall (fun k' => match JS.array_index k' with
                            | Some j => (i < j)%N
                            | None => True
                            end) ks'
      | None => Forall (fun k' => is_index k' = false) ks'
      end
      /\ enumeration_order ks'
  end.

(** The boxes of a list in the order of their first occurrence, a box being
    an occurrence of an earlier one when [_.isEqual] says so. *)
Fixpoint first_boxes (l : list BoundingBox) : list BoundingBox :=
  match l with
  | [] => []
  | x :: l' => x :: filter (fun y => negb (isEqual x y)) (first_boxes l')
  end.

(** The boxes of the rows of one citation, in row order. *)
Definition boxes_of (key : string) (rows : list Row) : list BoundingBox :=
  map bounding_box_of (Spec.rows_of key rows).

End OrderSpec.

(* ===================================================================== *)
(** * The drawer component *)
(* ===================================================================== *)

Module DOM.

(** [element.classList]: the ordered set of the class tokens of an
    element. *)
Definition DOMTokenList : Type := list string.

(** [classList.contains(token)] *)
Definition contains (classList : DOMTokenList) (token : string) : bool :=
  existsb (String.eqb token) classList.

(** [classList.add(token)], for a token that is not empty and has no white
    space: the token is appended unless the set holds it. *)
Definition add (classList : DOMTokenList) (token : string) : DOMTokenList :=
  if contains classList token then classList else classList ++ [token].

(** [classList.remove(token)], for such a token. *)
Definition remove (classList : DOMTokenList) (token : string) : DOMTokenList :=
  filter (fun t => negb (String.eqb t token)) classList.

End DOM.

Module Drawer.

Definition PDF_VIEWER_DRAWER_OPEN_CLASS : string := "drawer-open".

(** The part of the PDF viewer that the component touches:
    [pdfViewer.container.classList]. *)
Record PdfViewer : Type := {
  classList : DOM.DOMTokenList
}.

(** The fields of [ScholarReaderContext] that the component reads;
    [pdfViewer] is [None] for [null]. *)
Record Context : Type := {
  pdfViewer : option PdfViewer;
  drawerState : string
}.

(** The children of [drawer__content] that are rendered. *)
Inductive Panel : Type :=
| SearchResults (pageSize : Z)
| PaperList.

(** The element returned by [render]: the props of [MuiDrawer], the state
    that the button of the header passes to [setDrawerState], and the
    content. *)
Record Element : Type := {
  className : string;
  variant : string;
  anchor : string;
  open : bool;
  onClick : string;
  content : list Panel
}.

(** [componentWillUnmount()]: the context after the call. *)
Definition componentWillUnmount (context : Context) : Context :=
  match pdfViewer context with
  | Some viewer =>
      {| pdfViewer :=
           Some {| classList := DOM.remove (classList viewer) PDF_VIEWER_DRAWER_OPEN_CLASS |};
         drawerState := drawerState context |}
  | None => context
  end.

(** The effect of [render()] on the context (lines 28-35). *)
Definition render_effect (context : Context) : Context :=
  match pdfViewer context with
  | Some viewer =>
      if negb (String.eqb (drawerState context) "closed") then
        {| pdfViewer :=
             Some {| classList := DOM.add (classList viewer) PDF_VIEWER_DRAWER_OPEN_CLASS |};
           drawerState := drawerState context |}
      else
        {| pdfViewer :=
             Some {| classList := DOM.remove (classList viewer) PDF_VIEWER_DRAWER_OPEN_CLASS |};
           drawerState := drawerState context |}
  | None => context
  end.

(** The element built by the consumer (lines 39-60); [cond && element]
    renders nothing when [cond] is false. *)
Definition render_element (context : Context) : Element :=
  {| className := "drawer";
     variant := "persistent";
     anchor := "right";
     open := negb (String.eqb (drawerState context) "closed");
     onClick := "closed";
     content :=
       (if String.eqb (drawerState context) "show-symbols"
        then [SearchResults 4] else [])
       ++ (if String.eqb (drawerState context) "show-citations"
           then [PaperList] else []) |}.

(** [render()]: the context after the call and the element returned. *)
Definition render (context : Context) : Context * Element :=
  (render_effect context, render_element context).

(** The context when the drawer state has become [state]. *)
Definition with_state (context : Context) (state : string) : Context :=
  {| pdfViewer := pdfViewer context; drawerState := state |}.

(** The component is rendered once for each state of [states], in turn. *)
Definition rendered_through (context : Context) (states : list string) : Context :=
  fold_left (fun context state => render_effect (with_state context state))
    states context.

(** The class list of the viewer, when there is a viewer. *)
Definition viewer_classes (context : Context) : option DOM.DOMTokenList :=
  option_map classList (pdfViewer context).

End Drawer.

Module BatchSpec.

Import S2Api FetchSpec.

(** The guard accepts the response although its body is not well formed. *)
Definition accepted_unshaped (isS2ApiResponseSuccess : AxiosResponse -> bool)
    (outcome : AxiosError + AxiosResponse) : bool :=
  match outcome with
  | inl _ => false
  | inr response =>
      isS2ApiResponseSuccess response && negb (well_formed (data response))
  end.

(** The papers of the requests that resolve, in the order of the
    requests. *)
Fixpoint papers_from (isS2ApiResponseSuccess : AxiosResponse -> bool)
    (axios_get : nat -> string -> AxiosError + AxiosResponse)
    (k : nat) (s2Ids : list string) : list Paper.t :=
  match s2Ids with
  | [] => []
  | s2Id :: s2Ids' =>
      match axios_get k (url_of s2Id) with
      | inr response =>
          if isS2ApiResponseSuccess response
          then paper_of s2Id (data response)
               :: papers_from isS2ApiResponseSuccess axios_get (S k) s2Ids'
          else papers_from isS2ApiResponseSuccess axios_get (S k) s2Ids'
      | inl _ => papers_from isS2ApiResponseSuccess axios_get (S k) s2Ids'
      end
  end.

(** A service that agrees with [service_failing_for_B] on the first three
    requests and fails afterwards. *)
Definition service_down_after_three (k : nat) (url : string)
    : AxiosError + AxiosResponse :=
  if (k <? 3)%nat then service_failing_for_B k url else inl NetworkError.

(** The paper that [service_failing_for_B] gives for an identifier it
    resolves. *)
Definition paper_for (s2Id : string) : Paper.t :=
  {| Paper.s2Id := s2Id;
     Paper.title := JS.Str "A paper";
     Paper.authors := "Ada Lovelace, Alan Turing, Grace Hopper";
     Paper.abstract := JS.Null;
     Paper.url := JS.Str "http://example.org/a-paper";
     Paper.venue := JS.Str "A venue";
     Paper.year := Some (JS.Number_of_Z 2019) |}.

End BatchSpec.

Module DecimalSpec.

(** The decimal numeral of a natural number, without leading zeros. *)
Definition decimal (n : N) : string := NilEmpty.string_of_uint (N.to_uint n).

(** The digits of a decimal numeral, most significant first. *)
Fixpoint uint_digits (d : Decimal.uint) : list N :=
  match d with
  | Decimal.Nil => []
  | Decimal.D0 d' => 0%N :: uint_digits d'
  | Decimal.D1 d' => 1%N :: uint_digits d'
  | Decimal.D2 d' => 2%N :: uint_digits d'
  | Decimal.D3 d' => 3%N :: uint_digits d'
  | Decimal.D4 d' => 4%N :: uint_digits d'
  | Decimal.D5 d' => 5%N :: uint_digits d'
  | Decimal.D6 d' => 6%N :: uint_digits d'
  | Decimal.D7 d' => 7%N :: uint_digits d'
  | Decimal.D8 d' => 8%N :: uint_digits d'
  | Decimal.D9 d' => 9%N :: uint_digits d'
  end.

End DecimalSpec.

Module YearSpec.

Import S2Api FetchSpec.

(** What may follow a numeral: nothing, or a character that is neither a
    decimal digit nor the [x] of a hexadecimal prefix. *)
Definition ends_numeral (rest : string) : bool :=
  match rest with
  | EmptyString => true
  | String c _ =>
      match JS.digit_value 10 c with
      | Some _ => false
      | None => negb ((JS.code c =? 120)%N || (JS.code c =? 88)%N)
      end
  end.

(** The numbers from 1 to 9999. *)
Definition four_digit_years : list N := map N.of_nat (seq 1 (N.to_nat 9999)).

End YearSpec.

(* ===================================================================== *)
(** * Facts about the run-time model *)
(* ===================================================================== *)

Module JSFacts.

Import JS.

Lemma strict_eq_refl (x : number) : x <> NaN -> strict_eq x x = true.
Proof.
  unfold strict_eq, SFeqb, NaN.
  destruct x as [s | s | | s m e]; simpl; try congruence.
  - now destruct s.
  - intros _. rewrite Z.compare_refl.
    change (Pos.compare_cont Eq m m) with (Pos.compare m m).
    rewrite Pos.compare_refl. now destruct s.
Qed.

(** [===] holds between two numbers exactly when they are the same value
    other than NaN, or are both zeros. *)
Lemma strict_eq_true (x y : number) :
  strict_eq x y = true <->
  (x = y /\ x <> NaN) \/ (is_zero x = true /\ is_zero y = true).
Proof.
  split.
  - unfold strict_eq, SFeqb, NaN.
    destruct x as [s1 | s1 | | s1 m1 e1], y as [s2 | s2 | | s2 m2 e2]; simpl;
      try discriminate; try (destruct s1; discriminate);
      try (destruct s2; discriminate).
    + intros _. right. split; reflexivity.
    + destruct s1, s2; try discriminate; intros _; left; split; congruence.
    + destruct s1, s2; try discriminate;
        destruct (Z.compare e1 e2) eqn:He; try discriminate;
        change (Pos.compare_cont Eq m1 m2) with (Pos.compare m1 m2);
        destruct (Pos.compare m1 m2) eqn:Hm; try discriminate;
        apply Z.compare_eq_iff in He; apply Pos.compare_eq_iff in Hm;
        subst; intros _; left; split; congruence.
  - intros [[-> Hx] | [Hx Hy]].
    + now apply strict_eq_refl.
    + destruct x, y; try discriminate. reflexivity.
Qed.

Lemma indexOf_from_absent (a : list string) (x : string) (k : Z) :
  (0 <= k)%Z ->
  (indexOf_from k a x =? -1)%Z = negb (existsb (String.eqb x) a).
Proof.
  revert k. induction a as [| y a IH]; intros k Hk; simpl.
  - reflexivity.
  - rewrite (String.eqb_sym x y). destruct (String.eqb y x); simpl.
    + apply Z.eqb_neq. lia.
    + apply IH. lia.
Qed.

(** [indexOf] answers [-1] exactly when the element is absent. *)
Lemma indexOf_absent (a : list string) (x : string) :
  (indexOf a x =? -1)%Z = negb (existsb (String.eqb x) a).
Proof. apply indexOf_from_absent. lia. Qed.

Lemma existsb_eqb_In (a : list string) (x : string) :
  existsb (String.eqb x) a = true <-> In x a.
Proof.
  rewrite existsb_exists. split.
  - intros [y [Hy Heq]]. apply String.eqb_eq in Heq. now subst.
  - intros H. exists x. split; [assumption | apply String.eqb_refl].
Qed.

Lemma append_assoc (s1 s2 s3 : string) :
  ((s1 ++ s2) ++ s3 = s1 ++ (s2 ++ s3))%string.
Proof. induction s1 as [| c s1 IH]; simpl; [reflexivity | now rewrite IH]. Qed.

Lemma join_from_concat (sep : string) (a : list string) :
  forall (x R : string) (k : nat),
    join_from sep (S k) (R ++ x)%string a = (R ++ String.concat sep (x :: a))%string.
Proof.
  induction a as [| y a IH]; intros x R k.
  - reflexivity.
  - change (join_from sep (S k) (R ++ x)%string (y :: a))
      with (join_from sep (S (S k)) (((R ++ x) ++ sep) ++ y)%string a).
    rewrite IH.
    change (String.concat sep (x :: y :: a))
      with (x ++ sep ++ String.concat sep (y :: a))%string.
    now rewrite !append_assoc.
Qed.

(** The loop of [join] computes the concatenation with separators. *)
Lemma join_concat (a : list string) (sep : string) :
  join a sep = String.concat sep a.
Proof.
  destruct a as [| x a]; [reflexivity |].
  unfold join.
  change (join_from sep 0 "" (x :: a)) with (join_from sep 1 ("" ++ x)%string a).
  now rewrite join_from_concat.
Qed.

Section ObjectFacts.
Context {V : Type}.
Implicit Types (o : object V) (k : string) (v : V).

Lemma hasOwnProperty_get o k :
  hasOwnProperty o k = match get o k with Some _ => true | None => false end.
Proof.
  induction o as [| [k' v'] o IH]; simpl; [reflexivity |].
  destruct (String.eqb k' k); simpl; [reflexivity | exact IH].
Qed.

Lemma hasOwnProperty_In o k : hasOwnProperty o k = true <-> In k (keys o).
Proof.
  induction o as [| [k' v'] o IH]; simpl.
  - split; [discriminate | contradiction].
  - rewrite orb_true_iff, IH, String.eqb_eq. reflexivity.
Qed.

Lemma get_None_In o k : get o k = None <-> ~ In k (keys o).
Proof.
  rewrite <- hasOwnProperty_In, hasOwnProperty_get.
  destruct (get o k); split; congruence.
Qed.

Lemma get_Some_In o k v : get o k = Some v -> In (k, v) o.
Proof.
  induction o as [| [k' v'] o IH]; simpl; [discriminate |].
  destruct (String.eqb_spec k' k) as [-> | _].
  - intros [= ->]. now left.
  - intros H. right. now apply IH.
Qed.

Lemma In_get_NoDup o k v : NoDup (keys o) -> In (k, v) o -> get o k = Some v.
Proof.
  induction o as [| [k' v'] o IH]; simpl; [contradiction |].
  intros Hnd [[= -> ->] | Hin].
  - now rewrite String.eqb_refl.
  - inversion Hnd as [| ? ? Hk' Hnd']; subst.
    destruct (String.eqb_spec k' k) as [-> | _].
    + exfalso. apply Hk'. change k with (fst (k, v)). now apply in_map.
    + now apply IH.
Qed.

Lemma get_alter (f : V -> V) o k k' :
  get (alter f k o) k' = if String.eqb k k' then option_map f (get o k') else get o k'.
Proof.
  induction o as [| [k0 v0] o IH]; simpl.
  - now destruct (String.eqb k k').
  - destruct (String.eqb_spec k0 k) as [-> | Hk]; simpl.
    + destruct (String.eqb k k'); reflexivity.
    + destruct (String.eqb_spec k0 k') as [-> | Hk'].
      * destruct (String.eqb_spec k k'); [congruence | reflexivity].
      * exact IH.
Qed.

Lemma keys_alter (f : V -> V) o k : keys (alter f k o) = keys o.
Proof.
  induction o as [| [k0 v0] o IH]; simpl; [reflexivity |].
  destruct (String.eqb k0 k); simpl; [reflexivity | now f_equal].
Qed.

Lemma get_app o o' k :
  get (o ++ o') k = match get o k with Some v => Some v | None => get o' k end.
Proof.
  induction o as [| [k0 v0] o IH]; simpl; [reflexivity |].
  destruct (String.eqb k0 k); [reflexivity | exact IH].
Qed.

Lemma get_define_index_ne i o k v k' :
  k <> k' -> get (define_index i k v o) k' = get o k'.
Proof.
  intros Hne. apply String.eqb_neq in Hne.
  induction o as [| [k0 v0] o IH]; simpl.
  - now rewrite Hne.
  - destruct (array_index k0) as [j |]; [destruct (i <? j)%N |]; simpl;
      rewrite ?Hne; try reflexivity.
    now rewrite IH.
Qed.

Lemma get_define_index_eq i o k v :
  get o k = None -> get (define_index i k v o) k = Some v.
Proof.
  induction o as [| [k0 v0] o IH]; simpl.
  - now rewrite String.eqb_refl.
  - destruct (String.eqb k0 k) eqn:Hk; [discriminate |]. intros Hget.
    destruct (array_index k0) as [j |]; [destruct (i <? j)%N |]; simpl;
      rewrite ?String.eqb_refl, ?Hk; try reflexivity.
    now apply IH.
Qed.

Lemma get_define_ne o k v k' : k <> k' -> get (define k v o) k' = get o k'.
Proof.
  intros Hne. unfold define. destruct (array_index k).
  - now apply get_define_index_ne.
  - rewrite get_app. simpl. apply String.eqb_neq in Hne. rewrite Hne.
    now destruct (get o k').
Qed.

Lemma get_define_eq o k v : get o k = None -> get (define k v o) k = Some v.
Proof.
  intros Hget. unfold define. destruct (array_index k).
  - now apply get_define_index_eq.
  - rewrite get_app, Hget. simpl. now rewrite String.eqb_refl.
Qed.

Lemma keys_define_index i o k v :
  Permutation (keys (define_index i k v o)) (k :: keys o).
Proof.
  induction o as [| [k0 v0] o IH]; simpl; [reflexivity |].
  destruct (array_index k0) as [j |]; [destruct (i <? j)%N |]; simpl;
    try reflexivity.
  rewrite IH. apply perm_swap.
Qed.

Lemma keys_define o k v : Permutation (keys (define k v o)) (k :: keys o).
Proof.
  unfold define. destruct (array_index k).
  - apply keys_define_index.
  - unfold keys. rewrite map_app. simpl.
    symmetry. apply Permutation_cons_append.
Qed.

Lemma set_fresh o k v : hasOwnProperty o k = false -> set o k v = define k v o.
Proof. unfold set. now intros ->. Qed.

End ObjectFacts.

End JSFacts.

(* ===================================================================== *)
(** * Facts about the aggregation of citations *)
(* ===================================================================== *)

Module QueriesFacts.

Import JS JSFacts Queries Spec.

(** ** Equality of numbers and boxes *)

Lemma strict_eq_self_false (x : number) : strict_eq x x = false <-> x = NaN.
Proof.
  split.
  - intros H. destruct x as [s | s | | s m e]; try reflexivity;
      rewrite strict_eq_refl in H; discriminate.
  - now intros ->.
Qed.

Lemma eq_same_number (x y : number) :
  Lodash.eq x y = true <-> same_number x y.
Proof.
  unfold Lodash.eq, same_number. rewrite orb_true_iff, andb_true_iff.
  rewrite !negb_true_iff, !strict_eq_self_false, strict_eq_true. unfold NaN.
  split.
  - intros [[[-> _] | H] | [-> ->]]; auto.
  - intros [-> | H]; [| now left; right].
    destruct y as [s | s | | s m e]; try (left; left; split; congruence).
    now right.
Qed.

Lemma same_number_refl (x : number) : same_number x x.
Proof. now left. Qed.

Lemma same_number_sym (x y : number) : same_number x y -> same_number y x.
Proof. intros [-> | [H1 H2]]; [now left | now right]. Qed.

Lemma same_number_trans (x y z : number) :
  same_number x y -> same_number y z -> same_number x z.
Proof.
  intros [-> | [H1 H2]] [<- | [H3 H4]]; try (now left); right; tauto.
Qed.

Lemma isEqual_box_equal (b box : BoundingBox) :
  isEqual b box = true <-> box_equal b box.
Proof.
  unfold isEqual, box_equal.
  rewrite !andb_true_iff, !eq_same_number. tauto.
Qed.

Lemma box_equal_refl (b : BoundingBox) : box_equal b b.
Proof. repeat split; apply same_number_refl. Qed.

Lemma box_equal_sym (b1 b2 : BoundingBox) : box_equal b1 b2 -> box_equal b2 b1.
Proof.
  intros (H1 & H2 & H3 & H4 & H5). repeat split; now apply same_number_sym.
Qed.

Lemma box_equal_trans (b1 b2 b3 : BoundingBox) :
  box_equal b1 b2 -> box_equal b2 b3 -> box_equal b1 b3.
Proof.
  intros (H1 & H2 & H3 & H4 & H5) (G1 & G2 & G3 & G4 & G5).
  repeat split; eapply same_number_trans; eassumption.
Qed.

Lemma isEqual_refl (b : BoundingBox) : isEqual b b = true.
Proof. apply isEqual_box_equal, box_equal_refl. Qed.

Lemma some_isEqual (boxes : list BoundingBox) (box : BoundingBox) :
  some (fun b => isEqual b box) boxes = true <->
  exists b, In b boxes /\ box_equal b box.
Proof.
  unfold some. rewrite existsb_exists.
  split; intros [b [Hin H]]; exists b; split; trivial;
    now apply isEqual_box_equal.
Qed.

(** ** The two insertions *)

Lemma papers_add_paper (c : Citation) (s2Id : string) :
  papers (add_paper c s2Id)
  = if existsb (String.eqb s2Id) (papers c) then papers c else papers c ++ [s2Id].
Proof.
  unfold add_paper. rewrite indexOf_absent.
  now destruct (existsb (String.eqb s2Id) (papers c)).
Qed.

Lemma boxes_add_paper (c : Citation) (s2Id : string) :
  bounding_boxes (add_paper c s2Id) = bounding_boxes c.
Proof. unfold add_paper. now destruct (_ =? _)%Z. Qed.

Lemma boxes_add_bounding_box (c : Citation) (box : BoundingBox) :
  bounding_boxes (add_bounding_box c box)
  = if some (fun b => isEqual b box) (bounding_boxes c)
    then bounding_boxes c else bounding_boxes c ++ [box].
Proof.
  unfold add_bounding_box.
  now destruct (some (fun b => isEqual b box) (bounding_boxes c)).
Qed.

Lemma papers_add_bounding_box (c : Citation) (box : BoundingBox) :
  papers (add_bounding_box c box) = papers c.
Proof. unfold add_bounding_box. now destruct (negb _). Qed.

Lemma add_paper_present (c : Citation) (s2Id : string) :
  In s2Id (papers c) -> add_paper c s2Id = c.
Proof.
  intros Hin. unfold add_paper. rewrite indexOf_absent.
  apply existsb_eqb_In in Hin. now rewrite Hin.
Qed.

Lemma add_bounding_box_present (c : Citation) (box : BoundingBox) :
  existsb (fun b => isEqual b box) (bounding_boxes c) = true ->
  add_bounding_box c box = c.
Proof. intros H. unfold add_bounding_box, some. now rewrite H. Qed.

Lemma papers_merge_row (c : Citation) (row : Row) :
  papers (merge_row c row)
  = if existsb (String.eqb (cited_paper_id row)) (papers c)
    then papers c else papers c ++ [cited_paper_id row].
Proof. unfold merge_row. now rewrite papers_add_bounding_box, papers_add_paper. Qed.

Lemma boxes_merge_row (c : Citation) (row : Row) :
  bounding_boxes (merge_row c row)
  = if some (fun b => isEqual b (bounding_box_of row)) (bounding_boxes c)
    then bounding_boxes c else bounding_boxes c ++ [bounding_box_of row].
Proof. unfold merge_row. now rewrite boxes_add_bounding_box, boxes_add_paper. Qed.

(** ** One turn of the loop on the own properties *)

Lemma alter_alter {V : Type} (f g : V -> V) (k : string) (o : object V) :
  alter g k (alter f k o) = alter (fun v => g (f v)) k o.
Proof.
  induction o as [| [k0 v0] o IH]; simpl; [reflexivity |].
  destruct (String.eqb k0 k) eqn:Hk; simpl; rewrite Hk; [reflexivity |].
  now rewrite IH.
Qed.

Lemma alter_fixed {V : Type} (f : V -> V) (k : string) (o : object V) (v : V) :
  get o k = Some v -> f v = v -> alter f k o = o.
Proof.
  induction o as [| [k0 v0] o IH]; simpl; [reflexivity |].
  destruct (String.eqb k0 k).
  - intros [= ->] ->. reflexivity.
  - intros Hget Hf. now rewrite IH.
Qed.

(** The object once the entry of the row's citation is known to exist. *)
Lemma step_entries_unfold (citations : Entries) (row : Row) :
  step_entries citations row
  = alter (fun c => merge_row c row) (citation_id row)
      (if hasOwnProperty citations (citation_id row) then citations
       else define (citation_id row) empty_citation citations).
Proof.
  unfold step_entries, merge_row. rewrite alter_alter.
  destruct (hasOwnProperty citations (citation_id row)) eqn:Hhas; simpl.
  - reflexivity.
  - now rewrite set_fresh.
Qed.

Lemma get_step_entries (citations : Entries) (row : Row) (k : string) :
  get (step_entries citations row) k
  = if String.eqb (citation_id row) k
    then Some (merge_row (entry_or_empty (get citations k)) row)
    else get citations k.
Proof.
  rewrite step_entries_unfold, get_alter.
  rewrite (hasOwnProperty_get citations (citation_id row)).
  destruct (String.eqb_spec (citation_id row) k) as [<- | Hne].
  - destruct (get citations (citation_id row)) as [c |] eqn:Hget.
    + now rewrite Hget.
    + now rewrite get_define_eq.
  - destruct (get citations (citation_id row)); [reflexivity |].
    now apply get_define_ne.
Qed.

(** The access [citations[key]] of lines 81 and 82 finds an object. *)
Lemma step_entries_entry (citations : Entries) (row : Row) :
  exists c, get (step_entries citations row) (citation_id row) = Some c.
Proof. rewrite get_step_entries, String.eqb_refl. eauto. Qed.

Lemma keys_step_entries (citations : Entries) (row : Row) :
  if hasOwnProperty citations (citation_id row)
  then keys (step_entries citations row) = keys citations
  else Permutation (keys (step_entries citations row)) (citation_id row :: keys citations).
Proof.
  rewrite step_entries_unfold, keys_alter.
  destruct (hasOwnProperty citations (citation_id row)).
  - reflexivity.
  - apply keys_define.
Qed.

Lemma NoDup_keys_step_entries (citations : Entries) (row : Row) :
  NoDup (keys citations) -> NoDup (keys (step_entries citations row)).
Proof.
  intros Hnd. pose proof (keys_step_entries citations row) as H.
  destruct (hasOwnProperty citations (citation_id row)) eqn:Hhas.
  - now rewrite H.
  - eapply Permutation_NoDup; [symmetry; exact H |].
    constructor; [| assumption].
    rewrite <- hasOwnProperty_In. congruence.
Qed.

Lemma In_keys_step_entries (citations : Entries) (row : Row) (k : string) :
  In k (keys (step_entries citations row)) <-> k = citation_id row \/ In k (keys citations).
Proof.
  pose proof (keys_step_entries citations row) as H.
  destruct (hasOwnProperty citations (citation_id row)) eqn:Hhas.
  - rewrite H. apply hasOwnProperty_In in Hhas.
    split; [now right | now intros [-> | ?]].
  - split; intros Hin.
    + apply (Permutation_in _ H) in Hin. destruct Hin; [left | right]; congruence.
    + apply (Permutation_in _ (Permutation_sym H)).
      destruct Hin; [left | right]; congruence.
Qed.

(** ** The whole loop on the own properties *)

Lemma entries_from_app (citations : Entries) (rows1 rows2 : list Row) :
  entries_from citations (rows1 ++ rows2)
  = entries_from (entries_from citations rows1) rows2.
Proof. apply fold_left_app. Qed.

Lemma NoDup_keys_entries_from (citations : Entries) (rows : list Row) :
  NoDup (keys citations) -> NoDup (keys (entries_from citations rows)).
Proof.
  revert citations. induction rows as [| row rows IH]; intros citations Hnd.
  - assumption.
  - apply (IH (step_entries citations row)). now apply NoDup_keys_step_entries.
Qed.

Lemma In_keys_entries_from (citations : Entries) (rows : list Row) (k : string) :
  In k (keys (entries_from citations rows))
  <-> In k (keys citations) \/ In k (map citation_id rows).
Proof.
  revert citations. induction rows as [| row rows IH]; intros citations.
  - simpl. tauto.
  - change (entries_from citations (row :: rows))
      with (entries_from (step_entries citations row) rows).
    rewrite IH, In_keys_step_entries. simpl.
    split; intros H; repeat destruct H as [H | H]; subst; auto.
Qed.

(** The entry of a citation depends on the rows of that citation only. *)
Lemma get_entries_from (citations : Entries) (rows : list Row) (k : string) :
  get (entries_from citations rows) k
  = match rows_of k rows with
    | [] => get citations k
    | own => Some (fold_left merge_row own (entry_or_empty (get citations k)))
    end.
Proof.
  revert citations. induction rows as [| row rows IH]; intros citations.
  - reflexivity.
  - change (entries_from citations (row :: rows))
      with (entries_from (step_entries citations row) rows).
    rewrite IH, get_step_entries. unfold rows_of. simpl.
    destruct (String.eqb (citation_id row) k); simpl.
    + now destruct (filter _ rows).
    + reflexivity.
Qed.

(** ** First occurrences *)

Lemma filter_filter {A : Type} (f g : A -> bool) (l : list A) :
  filter f (filter g l) = filter (fun x => g x && f x) l.
Proof.
  induction l as [| x l IH]; simpl; [reflexivity |].
  destruct (g x); simpl; [destruct (f x) |]; now rewrite IH.
Qed.

Lemma In_first_occurrences (l : list string) (x : string) :
  In x (first_occurrences l) <-> In x l.
Proof.
  induction l as [| y l IH]; simpl; [reflexivity |].
  rewrite filter_In, IH, negb_true_iff, String.eqb_neq.
  destruct (string_dec y x); tauto.
Qed.

Lemma NoDup_first_occurrences (l : list string) : NoDup (first_occurrences l).
Proof.
  induction l as [| y l IH]; simpl; constructor.
  - rewrite filter_In, String.eqb_refl. now intros [_ H].
  - now apply NoDup_filter.
Qed.

Lemma first_occurrences_NoDup (l : list string) :
  NoDup l -> first_occurrences l = l.
Proof.
  induction 1 as [| x l Hx Hnd IH]; simpl; [reflexivity |].
  rewrite IH. f_equal.
  rewrite <- (filter_true l) at 2. apply filter_ext_in.
  intros y Hy. apply negb_true_iff, String.eqb_neq. congruence.
Qed.

(** Inserting the papers of [rows] one after the other appends, in the order
    of their first occurrence, those that were not stored yet. *)
Lemma papers_fold_merge_row (rows : list Row) (c : Citation) :
  papers (fold_left merge_row rows c)
  = papers c
    ++ filter (fun p => negb (existsb (String.eqb p) (papers c)))
         (first_occurrences (map cited_paper_id rows)).
Proof.
  revert c. induction rows as [| row rows IH]; intros c; simpl.
  - now rewrite app_nil_r.
  - rewrite IH, papers_merge_row, filter_filter.
    set (p := cited_paper_id row).
    destruct (existsb (String.eqb p) (papers c)) eqn:Hp; simpl.
    + f_equal. apply filter_ext. intros y.
      destruct (String.eqb_spec p y) as [<- | _]; simpl; [| reflexivity].
      now rewrite Hp.
    + rewrite <- app_assoc. simpl. do 2 f_equal. apply filter_ext. intros y.
      rewrite existsb_app. simpl. rewrite orb_false_r, negb_orb.
      rewrite (String.eqb_sym y p). apply andb_comm.
Qed.

Lemma papers_fold_merge_row_empty (rows : list Row) :
  papers (fold_left merge_row rows empty_citation)
  = first_occurrences (map cited_paper_id rows).
Proof. rewrite papers_fold_merge_row. simpl. apply filter_true. Qed.

Lemma papers_entries (rows : list Row) (k : string) :
  option_map papers (get (entries_of rows) k)
  = match rows_of k rows with
    | [] => None
    | own => Some (first_occurrences (map cited_paper_id own))
    end.
Proof.
  unfold entries_of. rewrite get_entries_from.
  destruct (rows_of k rows) as [| row own]; [reflexivity |].
  cbn [option_map get entry_or_empty]. now rewrite papers_fold_merge_row_empty.
Qed.

(** ** The invariant of a citation object *)

Lemma NoDup_snoc {A : Type} (l : list A) (x : A) :
  NoDup l -> ~ In x l -> NoDup (l ++ [x]).
Proof.
  intros Hnd Hx. apply (Permutation_NoDup (Permutation_cons_append l x)).
  now constructor.
Qed.

Lemma pairwise_snoc {A : Type} (R : A -> A -> Prop) (l : list A) (x : A) :
  pairwise R l -> Forall (fun y => ~ R y x /\ ~ R x y) l -> pairwise R (l ++ [x]).
Proof.
  induction 1 as [| y l Hy Hl IH]; intros Hx; simpl.
  - repeat constructor.
  - inversion Hx as [| ? ? Hyx Hx']; subst. constructor.
    + apply Forall_app. split; [assumption |]. constructor; [tauto | constructor].
    + now apply IH.
Qed.

Lemma deduplicated_empty : deduplicated empty_citation.
Proof. split; constructor. Qed.

Lemma deduplicated_merge_row (c : Citation) (row : Row) :
  deduplicated c -> deduplicated (merge_row c row).
Proof.
  intros [Hp Hb]. split.
  - rewrite papers_merge_row.
    destruct (existsb _ (papers c)) eqn:H; [assumption |].
    apply NoDup_snoc; [assumption |].
    rewrite <- existsb_eqb_In. congruence.
  - rewrite boxes_merge_row.
    destruct (some _ (bounding_boxes c)) eqn:H; [assumption |].
    apply pairwise_snoc; [assumption |].
    apply Forall_forall. intros b Hb'.
    assert (Hne : ~ box_equal b (bounding_box_of row)).
    { intros Heq. apply not_true_iff_false in H. apply H.
      apply some_isEqual. now exists b. }
    split; [assumption |]. intros Heq. now apply Hne, box_equal_sym.
Qed.

Lemma deduplicated_fold_merge_row (rows : list Row) (c : Citation) :
  deduplicated c -> deduplicated (fold_left merge_row rows c).
Proof.
  revert c. induction rows as [| row rows IH]; intros c Hc; simpl.
  - assumption.
  - now apply IH, deduplicated_merge_row.
Qed.

Lemma extends_refl {A : Type} (l : list A) : extends l l.
Proof. exists []. now rewrite app_nil_r. Qed.

Lemma extends_trans {A : Type} (l1 l2 l3 : list A) :
  extends l1 l2 -> extends l2 l3 -> extends l1 l3.
Proof. intros [a ->] [b ->]. exists (a ++ b). now rewrite app_assoc. Qed.

Lemma grown_refl (c : Citation) : grown c c.
Proof. split; apply extends_refl. Qed.

Lemma grown_trans (c1 c2 c3 : Citation) : grown c1 c2 -> grown c2 c3 -> grown c1 c3.
Proof. intros [H1 H2] [G1 G2]. split; eapply extends_trans; eassumption. Qed.

Lemma grown_merge_row (c : Citation) (row : Row) : grown c (merge_row c row).
Proof.
  split.
  - rewrite papers_merge_row. destruct (existsb _ _);
      [apply extends_refl | now exists [cited_paper_id row]].
  - rewrite boxes_merge_row. destruct (some _ _);
      [apply extends_refl | now exists [bounding_box_of row]].
Qed.

Lemma grown_fold_merge_row (rows : list Row) (c : Citation) :
  grown c (fold_left merge_row rows c).
Proof.
  revert c. induction rows as [| row rows IH]; intros c; simpl.
  - apply grown_refl.
  - eapply grown_trans; [apply grown_merge_row | apply IH].
Qed.

(** Every object stored by the loop satisfies the invariant. *)
Lemma deduplicated_entries (rows : list Row) (k : string) (c : Citation) :
  get (entries_of rows) k = Some c -> deduplicated c.
Proof.
  unfold entries_of. rewrite get_entries_from.
  destruct (rows_of k rows) as [| row own]; [discriminate |].
  intros [= <-].
  apply (deduplicated_fold_merge_row (row :: own)), deduplicated_empty.
Qed.

(** An entry is kept by the rest of the loop, and only grows. *)
Lemma grown_entries_from (citations : Entries) (rows : list Row)
    (k : string) (c : Citation) :
  get citations k = Some c ->
  exists c', get (entries_from citations rows) k = Some c' /\ grown c c'.
Proof.
  intros Hget. rewrite get_entries_from, Hget.
  destruct (rows_of k rows) as [| row own].
  - exists c. split; [reflexivity | apply grown_refl].
  - eexists. split; [reflexivity |]. apply (grown_fold_merge_row (row :: own)).
Qed.

(** ** Rows that add nothing *)

Lemma absorbed_step_entries_id (citations : Entries) (row : Row) :
  absorbed citations row -> step_entries citations row = citations.
Proof.
  intros (c & Hget & Hp & Hb).
  rewrite step_entries_unfold, hasOwnProperty_get, Hget.
  apply (alter_fixed _ _ _ c Hget).
  unfold merge_row. rewrite (add_paper_present _ _ Hp).
  now apply add_bounding_box_present.
Qed.

Lemma absorbed_grown (c c' : Citation) (row : Row) :
  grown c c' ->
  In (cited_paper_id row) (papers c) ->
  existsb (fun b => isEqual b (bounding_box_of row)) (bounding_boxes c) = true ->
  In (cited_paper_id row) (papers c')
  /\ existsb (fun b => isEqual b (bounding_box_of row)) (bounding_boxes c') = true.
Proof.
  intros [[ps ->] [bs ->]] Hp Hb. split.
  - apply in_or_app. now left.
  - rewrite existsb_app, Hb. reflexivity.
Qed.

Lemma absorbed_entries_from (citations : Entries) (rows : list Row) (row : Row) :
  absorbed citations row -> absorbed (entries_from citations rows) row.
Proof.
  intros (c & Hget & Hp & Hb).
  destruct (grown_entries_from citations rows _ _ Hget) as (c' & Hget' & Hgrown).
  exists c'. split; [assumption |]. now apply (absorbed_grown c c').
Qed.

Lemma absorbed_after (citations : Entries) (row : Row) :
  absorbed (step_entries citations row) row.
Proof.
  eexists. split; [rewrite get_step_entries, String.eqb_refl; reflexivity |].
  set (c := entry_or_empty _). split.
  - rewrite papers_merge_row.
    destruct (existsb _ (papers c)) eqn:H.
    + now apply existsb_eqb_In.
    + apply in_or_app. right. now left.
  - rewrite boxes_merge_row. unfold some.
    destruct (existsb _ (bounding_boxes c)) eqn:H; [assumption |].
    rewrite existsb_app. simpl. now rewrite isEqual_refl, orb_true_r.
Qed.

Lemma all_absorbed (citations : Entries) (rows : list Row) :
  Forall (absorbed (entries_from citations rows)) rows.
Proof.
  revert citations. induction rows as [| row rows IH]; intros citations.
  - constructor.
  - constructor; [| apply (IH (step_entries citations row))].
    apply (absorbed_entries_from (step_entries citations row) rows), absorbed_after.
Qed.

Lemma entries_from_absorbed (citations : Entries) (rows : list Row) :
  Forall (absorbed citations) rows -> entries_from citations rows = citations.
Proof.
  induction 1 as [| row rows Hrow _ IH]; [reflexivity |].
  change (entries_from citations (row :: rows))
    with (entries_from (step_entries citations row) rows).
  now rewrite (absorbed_step_entries_id _ _ Hrow).
Qed.

(** ** The rows of a single citation *)

Lemma step_entries_first (row : Row) :
  step_entries [] row = [(citation_id row, merge_row empty_citation row)].
Proof.
  rewrite step_entries_unfold. simpl. unfold define.
  destruct (array_index (citation_id row)); simpl; now rewrite String.eqb_refl.
Qed.

Lemma entries_from_single (rows : list Row) (key : string) (c : Citation) :
  Forall (fun row => citation_id row = key) rows ->
  entries_from [(key, c)] rows = [(key, fold_left merge_row rows c)].
Proof.
  intros H. revert c. induction H as [| row rows Hrow _ IH]; intros c.
  - reflexivity.
  - change (entries_from [(key, c)] (row :: rows))
      with (entries_from (step_entries [(key, c)] row) rows).
    rewrite step_entries_unfold, Hrow. simpl. rewrite String.eqb_refl. simpl.
    rewrite String.eqb_refl. apply IH.
Qed.

Lemma entries_single (row : Row) (rows : list Row) :
  Forall (fun row' => citation_id row' = citation_id row) rows ->
  entries_of (row :: rows)
  = [(citation_id row, fold_left merge_row (row :: rows) empty_citation)].
Proof.
  intros H. unfold entries_of.
  change (entries_from [] (row :: rows))
    with (entries_from (step_entries [] row) rows).
  rewrite step_entries_first. now rewrite entries_from_single.
Qed.

Lemma bounding_box_of_fact_row (key paper : string) (box : BoundingBox) :
  bounding_box_of (fact_row key paper box) = box.
Proof. now destruct box. Qed.

(** Rows that repeat one box leave a single box. *)
Lemma boxes_fold_same_box (rows : list Row) (box : BoundingBox) (c : Citation) :
  Forall (fun row => bounding_box_of row = box) rows ->
  existsb (fun b => isEqual b box) (bounding_boxes c) = true ->
  bounding_boxes (fold_left merge_row rows c) = bounding_boxes c.
Proof.
  intros H. revert c. induction H as [| row rows Hrow _ IH]; intros c Hc.
  - reflexivity.
  - simpl. rewrite IH; rewrite boxes_merge_row, Hrow; unfold some; now rewrite Hc.
Qed.

(** ** The object [citations]: own properties, prototype and exceptions *)

Lemma hasOwnProperty_step_entries (citations : Entries) (row : Row) (k : string) :
  hasOwnProperty (step_entries citations row) k
  = String.eqb (citation_id row) k || hasOwnProperty citations k.
Proof.
  rewrite !hasOwnProperty_get, get_step_entries.
  now destruct (String.eqb (citation_id row) k).
Qed.

Lemma loop_body_shadowed (citations : CitationsById) (row : Row) :
  hasOwnProperty (own citations) "hasOwnProperty" = true ->
  loop_body citations row = Threw TypeError.
Proof. intros H. unfold loop_body, call_hasOwnProperty. now rewrite H. Qed.

Lemma loop_body_proto (citations : CitationsById) (row : Row) :
  citation_id row = "__proto__" ->
  hasOwnProperty (own citations) "hasOwnProperty" = false ->
  get (own citations) "__proto__" = None ->
  loop_body citations row
  = Returned {| own := own citations;
                prototype := Some (merge_row empty_citation row) |}.
Proof.
  intros Hid Hshadow Hget. unfold loop_body, call_hasOwnProperty, assign, update.
  rewrite Hshadow, Hid, hasOwnProperty_get, Hget. cbn. rewrite Hget. cbn.
  rewrite Hget. reflexivity.
Qed.

Lemma loop_body_named (citations : CitationsById) (row : Row) :
  citation_id row <> "__proto__" ->
  hasOwnProperty (own citations) "hasOwnProperty" = false ->
  loop_body citations row
  = Returned {| own := step_entries (own citations) row;
                prototype := prototype citations |}.
Proof.
  intros Hid Hshadow. apply String.eqb_neq in Hid.
  unfold loop_body, call_hasOwnProperty. rewrite Hshadow. cbn [bind].
  set (citations1 := if negb _ then _ else _).
  assert (H1 : citations1
               = {| own := if negb (hasOwnProperty (own citations) (citation_id row))
                           then set (own citations) (citation_id row) empty_citation
                           else own citations;
                    prototype := prototype citations |}).
  { unfold citations1, assign. rewrite Hid.
    destruct (negb _); [reflexivity | now destruct citations]. }
  rewrite H1. clear H1 citations1.
  set (entries1 := if negb _ then _ else _).
  assert (Hget : exists c, get entries1 (citation_id row) = Some c).
  { unfold entries1. rewrite hasOwnProperty_get.
    destruct (get (own citations) (citation_id row)) as [c |] eqn:Hc; cbn [negb].
    - eauto.
    - exists empty_citation. rewrite set_fresh.
      + now apply get_define_eq.
      + now rewrite hasOwnProperty_get, Hc. }
  destruct Hget as [c Hc]. unfold update. cbn [own prototype]. rewrite Hc.
  cbn [bind own prototype]. rewrite get_alter, String.eqb_refl, Hc. cbn [option_map].
  reflexivity.
Qed.

Lemma get_step_entries_proto (citations : Entries) (row : Row) :
  citation_id row <> "__proto__" ->
  get citations "__proto__" = None ->
  get (step_entries citations row) "__proto__" = None.
Proof.
  intros Hid Hget. rewrite get_step_entries.
  apply String.eqb_neq in Hid. now rewrite Hid.
Qed.

(** What the loop does, for every sequence of rows: it throws when a row of
    id [hasOwnProperty] is followed by another row; otherwise the own
    properties are those that the rows of id other than [__proto__] give,
    and the rows of id [__proto__] only replace the prototype. *)
Lemma aggregate_from_spec (rows : list Row) (citations : CitationsById) :
  get (own citations) "__proto__" = None ->
  aggregate_from citations rows
  = if (hasOwnProperty (own citations) "hasOwnProperty"
        && match rows with [] => false | _ :: _ => true end)
       || shadowed rows
    then Threw TypeError
    else Returned {| own := entries_from (own citations) (named rows);
                     prototype := prototype_after (prototype citations) rows |}.
Proof.
  revert citations. induction rows as [| row rows IH]; intros citations Hproto.
  - cbn. rewrite andb_false_r. now destruct citations.
  - cbn [aggregate_from shadowed named filter prototype_after fold_left].
    destruct (hasOwnProperty (own citations) "hasOwnProperty") eqn:Hshadow.
    + now rewrite loop_body_shadowed.
    + cbn [andb orb].
      destruct (String.eqb_spec (citation_id row) "__proto__") as [Hid | Hid].
      * rewrite (loop_body_proto _ _ Hid Hshadow Hproto). cbn [bind].
        rewrite IH by exact Hproto. cbn [own prototype negb].
        rewrite Hshadow, Hid. cbn. reflexivity.
      * rewrite (loop_body_named _ _ Hid Hshadow). cbn [bind].
        rewrite IH by (now apply get_step_entries_proto).
        cbn [own prototype negb]. rewrite hasOwnProperty_step_entries, Hshadow.
        rewrite orb_false_r. reflexivity.
Qed.

Lemma aggregate_spec (rows : list Row) :
  aggregate rows
  = if shadowed rows then Threw TypeError
    else Returned {| own := entries_of (named rows);
                     prototype := prototype_after None rows |}.
Proof. unfold aggregate. now rewrite aggregate_from_spec. Qed.

Lemma ordinary_id_spec (k : string) :
  ordinary_id k = true <-> k <> "__proto__" /\ k <> "hasOwnProperty".
Proof.
  unfold ordinary_id. rewrite andb_true_iff, !negb_true_iff, !String.eqb_neq.
  reflexivity.
Qed.

Lemma ordinary_facts (rows : list Row) :
  ordinary rows ->
  shadowed rows = false
  /\ named rows = rows
  /\ forall start, prototype_after start rows = start.
Proof.
  induction 1 as [| row rows Hrow _ IH]; [now repeat split |].
  apply ordinary_id_spec in Hrow. destruct Hrow as [Hp Hs].
  apply String.eqb_neq in Hp, Hs. destruct IH as (IH1 & IH2 & IH3).
  split; [| split].
  - cbn [shadowed]. now rewrite Hs, IH1.
  - unfold named in *. cbn [filter]. rewrite Hp. cbn [negb]. now rewrite IH2.
  - intros start. unfold prototype_after in *. cbn [fold_left]. rewrite Hp.
    apply IH3.
Qed.

(** For ordinary ids the object is the map of the entries, and the call
    returns. *)
Lemma aggregate_ordinary (rows : list Row) :
  ordinary rows ->
  aggregate rows = Returned {| own := entries_of rows; prototype := None |}
  /\ getCitationsForPaper rows = Returned (values (entries_of rows)).
Proof.
  intros H. destruct (ordinary_facts rows H) as (H1 & H2 & H3).
  assert (E : aggregate rows = Returned {| own := entries_of rows; prototype := None |})
    by (now rewrite aggregate_spec, H1, H2, H3).
  split; [exact E |]. unfold getCitationsForPaper. now rewrite E.
Qed.

Lemma ordinary_app (rows1 rows2 : list Row) :
  ordinary (rows1 ++ rows2) <-> ordinary rows1 /\ ordinary rows2.
Proof. apply Forall_app. Qed.

End QueriesFacts.

(* ===================================================================== *)
(** * Facts about the bodies of responses *)
(* ===================================================================== *)

Module BodyFacts.

Import JS JSFacts S2Api FetchSpec.

Section Induction.

Variable P : any -> Prop.

Hypothesis P_Undefined : P Undefined.
Hypothesis P_Null : P Null.
Hypothesis P_Boolean : forall b, P (Boolean b).
Hypothesis P_Number : forall n digits, P (Number n digits).
Hypothesis P_Str : forall s, P (Str s).
Hypothesis P_Array : forall elements, Forall P elements -> P (Array elements).
Hypothesis P_Object : forall properties, P (Object properties).

(** Induction on a value, with the hypothesis for the elements of an
    array. *)
Lemma any_induction (v : any) : P v.
Proof.
  revert v. fix IH 1.
  intros [| | b | n digits | s | elements | properties].
  - exact P_Undefined.
  - exact P_Null.
  - apply P_Boolean.
  - apply P_Number.
  - apply P_Str.
  - apply P_Array. induction elements as [| x elements IHelements].
    + constructor.
    + constructor; [apply IH | exact IHelements].
  - apply P_Object.
Qed.

End Induction.

Lemma property_field (v : any) (k : string) :
  property v k = if is_nullish v then Threw TypeError else Returned (field v k).
Proof. now destruct v. Qed.

Lemma stringable_nullish (v : any) : is_nullish v = true -> stringable v = true.
Proof. now destruct v. Qed.

(** The strings of the elements of an array, when all have one. *)
Lemma element_strings_spec (a : list any) :
  Forall (fun v => ToString v = if stringable v then Returned (string_of v)
                                else Threw TypeError) a ->
  element_strings ToString a
  = if forallb stringable a
    then Returned (map (fun v => if is_nullish v then "" else string_of v) a)
    else Threw TypeError.
Proof.
  induction 1 as [| v a Hv _ IH]; [reflexivity |].
  cbn [element_strings forallb map]. rewrite IH.
  assert (Hone : element_string ToString v
                 = if stringable v
                   then Returned (if is_nullish v then "" else string_of v)
                   else Threw TypeError).
  { destruct v; try exact Hv; reflexivity. }
  rewrite Hone. destruct (stringable v); [| reflexivity].
  cbn [bind andb]. now destruct (forallb stringable a).
Qed.

(** ToString throws exactly on the values that have no string. *)
Lemma ToString_spec (v : any) :
  ToString v = if stringable v then Returned (string_of v) else Threw TypeError.
Proof.
  revert v. apply any_induction; try reflexivity.
  - intros elements IH. cbn [ToString stringable string_of].
    rewrite (element_strings_spec elements IH).
    destruct (forallb stringable elements); [| reflexivity].
    cbn [bind]. now rewrite join_concat.
  - intros properties. cbn [ToString stringable string_of].
    now destruct (hasOwnProperty properties "toString").
Qed.

Lemma join_any_spec (a : list any) (sep : string) :
  join_any a sep
  = if forallb stringable a
    then Returned (String.concat sep (map name_string a))
    else Threw TypeError.
Proof.
  unfold join_any. rewrite element_strings_spec.
  - destruct (forallb stringable a); [| reflexivity].
    cbn [bind]. now rewrite join_concat.
  - apply Forall_forall. intros v _. apply ToString_spec.
Qed.

Lemma map_array_names (a : list any) :
  map_array (fun author => property author "name") a
  = if forallb (fun author => negb (is_nullish author)) a
    then Returned (map (fun author => field author "name") a)
    else Threw TypeError.
Proof.
  induction a as [| author a IH]; [reflexivity |].
  cbn [map_array forallb map]. rewrite IH, property_field.
  destruct (is_nullish author); [reflexivity |]. cbn [bind negb andb].
  now destruct (forallb _ a).
Qed.

Lemma forallb_andb {A : Type} (p q : A -> bool) (l : list A) :
  forallb (fun x => p x && q x) l = forallb p l && forallb q l.
Proof.
  induction l as [| x l IH]; [reflexivity |].
  cbn [forallb]. rewrite IH.
  destruct (p x), (q x), (forallb p l), (forallb q l); reflexivity.
Qed.

Lemma forallb_map {A B : Type} (f : A -> B) (p : B -> bool) (l : list A) :
  forallb p (map f l) = forallb (fun x => p (f x)) l.
Proof. induction l as [| x l IH]; [reflexivity |]. cbn. now rewrite IH. Qed.

Section Requests.

Variable isS2ApiResponseSuccess : AxiosResponse -> bool.
Variable axios_get : nat -> string -> AxiosError + AxiosResponse.

Local Abbreviation getPaper := (getPaper isS2ApiResponseSuccess axios_get).

(** A failed request is turned into [undefined]. *)
Lemma getPaper_failed (k : nat) (s2Id : string) :
  resolves isS2ApiResponseSuccess (axios_get k (url_of s2Id)) = false ->
  getPaper k s2Id = Fulfilled None.
Proof.
  unfold S2Api.getPaper, FetchSpec.resolves. fold (url_of s2Id).
  destruct (axios_get k (url_of s2Id)) as [err | response]; [reflexivity |].
  now intros ->.
Qed.

(** What [getPaper] does with a response that the guard accepts. *)
Lemma getPaper_accepted (k : nat) (s2Id : string) (response : AxiosResponse) :
  axios_get k (url_of s2Id) = inr response ->
  isS2ApiResponseSuccess response = true ->
  getPaper k s2Id
  = if well_formed (data response)
    then Fulfilled (Some (paper_of s2Id (data response)))
    else Rejected TypeError.
Proof.
  intros Hget Hok. unfold S2Api.getPaper. fold (url_of s2Id).
  rewrite Hget, Hok. set (body := data response).
  unfold well_formed, paper_of, authors_of. rewrite !property_field.
  destruct (is_nullish body); [reflexivity |]. cbn [bind negb andb].
  rewrite ToString_spec.
  destruct (stringable (field body "year")); [| reflexivity]. cbn [bind andb].
  destruct (field body "authors") as [| | b | n digits | s | authors | properties];
    try reflexivity.
  cbn [call_map]. rewrite map_array_names, forallb_andb.
  destruct (forallb (fun author => negb (is_nullish author)) authors);
    [| reflexivity].
  cbn [bind andb]. rewrite join_any_spec, forallb_map.
  destruct (forallb _ authors); [| reflexivity].
  cbn [bind async]. now rewrite map_map.
Qed.

(** The three ways in which [getPaper] settles. *)
Lemma getPaper_cases (k : nat) (s2Id : string) :
  getPaper k s2Id
  = match axios_get k (url_of s2Id) with
    | inl _ => Fulfilled None
    | inr response =>
        if isS2ApiResponseSuccess response
        then if well_formed (data response)
             then Fulfilled (Some (paper_of s2Id (data response)))
             else Rejected TypeError
        else Fulfilled None
    end.
Proof.
  destruct (axios_get k (url_of s2Id)) as [err | response] eqn:Hget.
  - apply getPaper_failed. now rewrite Hget.
  - destruct (isS2ApiResponseSuccess response) eqn:Hok.
    + now apply getPaper_accepted.
    + apply getPaper_failed. now rewrite Hget.
Qed.

End Requests.

(** ** Bodies of the shape [S2ApiPaper] *)

Lemma as_authors_spec (l : list any) (authors : list Author.t) :
  as_authors l = Some authors ->
  forallb (fun author => negb (is_nullish author)
                         && stringable (field author "name")) l = true
  /\ map (fun author => name_string (field author "name")) l
     = map Author.name authors.
Proof.
  revert authors. induction l as [| v l IH]; intros authors.
  - intros [= <-]. now split.
  - cbn [as_authors]. destruct (as_author v) as [author |] eqn:Hv; [| discriminate].
    destruct (as_authors l) as [authors' |]; [| discriminate].
    intros [= <-]. destruct (IH authors' eq_refl) as [IH1 IH2].
    unfold as_author in Hv. destruct v; try discriminate Hv.
    destruct (field (Object properties) "name") as [| | | | s | |] eqn:Hname;
      try discriminate Hv.
    cbn in Hv. injection Hv as <-.
    cbn [forallb map is_nullish negb andb]. rewrite Hname, IH1, IH2.
    now split.
Qed.

(** A body of the shape [S2ApiPaper] is well formed, and the paper made from
    it holds its fields, the names of its authors joined by a comma and a
    space, and the year read from its year. *)
Lemma as_paper_spec (s2Id : string) (body : any) (paper : S2ApiPaper.t) :
  as_paper body = Some paper ->
  well_formed body = true
  /\ paper_of s2Id body
     = {| Paper.s2Id := s2Id;
          Paper.title := Str (S2ApiPaper.title paper);
          Paper.authors :=
            String.concat ", " (map Author.name (S2ApiPaper.authors paper));
          Paper.abstract := nullable (S2ApiPaper.abstract paper);
          Paper.url := Str (S2ApiPaper.url paper);
          Paper.venue := nullable (S2ApiPaper.venue paper);
          Paper.year := year_of (S2ApiPaper.year paper) |}.
Proof.
  unfold as_paper, well_formed, paper_of, authors_of.
  destruct (field body "title") as [| | | | title | |] eqn:Htitle; try discriminate.
  cbn [as_string].
  destruct (field body "authors") as [| | | | | authors |] eqn:Hauthors;
    try discriminate.
  destruct (as_nullable_string (field body "abstract")) as [abstract |] eqn:Habstract;
    [| discriminate].
  destruct (field body "url") as [| | | | url | |] eqn:Hurl; try discriminate.
  cbn [as_string].
  destruct (as_nullable_string (field body "venue")) as [venue |] eqn:Hvenue;
    [| discriminate].
  destruct (field body "year") as [| | | | year | |] eqn:Hyear; try discriminate.
  cbn [as_string].
  destruct (as_authors authors) as [names |] eqn:Hnames; [| discriminate].
  intros [= <-]. destruct (as_authors_spec authors names Hnames) as [H1 H2].
  assert (Hbody : is_nullish body = false).
  { destruct body; try reflexivity; discriminate Htitle. }
  rewrite Hbody, H1, H2. split; [reflexivity |].
  cbn [S2ApiPaper.title S2ApiPaper.authors S2ApiPaper.abstract S2ApiPaper.url
       S2ApiPaper.venue S2ApiPaper.year stringable string_of].
  f_equal.
  - destruct (field body "abstract"); try discriminate Habstract;
      cbn in Habstract; now injection Habstract as <-.
  - destruct (field body "venue"); try discriminate Hvenue;
      cbn in Hvenue; now injection Hvenue as <-.
Qed.

Lemma as_authors_PaperData (authors : list Author.t) :
  as_authors (map (fun author => Object [("name", Str (Author.name author))]) authors)
  = Some authors.
Proof.
  induction authors as [| [name] authors IH]; [reflexivity |].
  cbn [map as_authors]. rewrite IH. reflexivity.
Qed.

(** The body that holds a paper has the shape [S2ApiPaper]. *)
Lemma as_paper_PaperData (paper : S2ApiPaper.t) :
  as_paper (PaperData paper) = Some paper.
Proof.
  destruct paper as [title authors abstract url venue year].
  unfold as_paper, PaperData. cbn [field get String.eqb]. cbn.
  rewrite as_authors_PaperData. now destruct abstract, venue.
Qed.

Lemma shaped_success_narrows : narrows shaped_success.
Proof.
  intros response. unfold shaped_success.
  destruct (as_paper (data response)) as [paper |]; [eauto | discriminate].
Qed.

End BodyFacts.

(* ===================================================================== *)
(** * The aggregation of citations: specification *)
(* ===================================================================== *)

Module Aggregation.

Import JS JSFacts Queries Spec QueriesFacts.

(** The map of the entries has one entry per distinct id. *)
Lemma entries_one_per_id (rows : list Row) :
  NoDup (keys (entries_of rows))
  /\ Permutation (keys (entries_of rows)) (first_occurrences (map citation_id rows))
  /\ List.length (values (entries_of rows))
     = List.length (first_occurrences (map citation_id rows)).
Proof.
  assert (Hnd : NoDup (keys (entries_of rows)))
    by (apply NoDup_keys_entries_from; constructor).
  assert (Hperm : Permutation (keys (entries_of rows))
                    (first_occurrences (map citation_id rows))).
  { apply NoDup_Permutation; [assumption | apply NoDup_first_occurrences |].
    intros k. unfold entries_of.
    rewrite In_keys_entries_from, In_first_occurrences. simpl. tauto. }
  repeat split; try assumption.
  unfold values. rewrite length_map.
  rewrite <- (Permutation_length Hperm). unfold keys. now rewrite length_map.
Qed.

(** C1, as the specification has it, does not hold: the value returned is
    the array of the citation objects, and a citation object does not hold
    its id.  The rows of citation [c1] and the same rows under citation [c2]
    give the same value. *)
Lemma getCitationsForPaper_forgets_ids :
  getCitationsForPaper [fact_row "c1" "p1" box_01234]
  = Returned [{| bounding_boxes := [box_01234]; papers := ["p1"] |}]
  /\ getCitationsForPaper [fact_row "c2" "p1" box_01234]
     = Returned [{| bounding_boxes := [box_01234]; papers := ["p1"] |}]
  /\ "c1" <> "c2"
  /\ ~ (exists id_of : Citation -> string,
          forall rows citations citation,
            getCitationsForPaper rows = Returned citations ->
            In citation citations ->
            In (id_of citation) (map citation_id rows)).
Proof.
  set (c := {| bounding_boxes := [box_01234]; papers := ["p1"] |}).
  assert (E1 : getCitationsForPaper [fact_row "c1" "p1" box_01234] = Returned [c])
    by reflexivity.
  assert (E2 : getCitationsForPaper [fact_row "c2" "p1" box_01234] = Returned [c])
    by reflexivity.
  split; [exact E1 | split; [exact E2 | split; [discriminate |]]].
  intros [id_of H].
  destruct (H _ _ c E1 (or_introl eq_refl)) as [G1 | []].
  destruct (H _ _ c E2 (or_introl eq_refl)) as [G2 | []].
  cbn in G1, G2. rewrite <- G2 in G1. discriminate G1.
Qed.

(** C1 (amended): for every finite row sequence whose citation ids are
    neither [__proto__] nor [hasOwnProperty], the loop builds a
    CitationsById object with unique keys and exactly one entry per distinct
    [citation_id] of the rows, and [getCitationsForPaper] returns the values
    of that object, one Citation (papers and bounding boxes, without the id)
    per distinct [citation_id]. *)
Theorem one_citation_per_distinct_id (rows : list Row) :
  ordinary rows ->
  exists citations,
    aggregate rows = Returned citations
    /\ getCitationsForPaper rows = Returned (values (own citations))
    /\ NoDup (keys (own citations))
    /\ Permutation (keys (own citations)) (first_occurrences (map citation_id rows))
    /\ List.length (values (own citations))
       = List.length (first_occurrences (map citation_id rows)).
Proof.
  intros Hrows. destruct (aggregate_ordinary rows Hrows) as [Hagg Hget].
  eexists. split; [exact Hagg |]. cbn [own].
  split; [exact Hget |]. apply entries_one_per_id.
Qed.

Lemma one_citation_per_distinct_id_witness :
  exists citations,
    aggregate [fact_row "c2" "p1" box_01234; fact_row "17" "p2" box_01234;
               fact_row "c2" "p3" box_11234]
    = Returned citations
    /\ getCitationsForPaper [fact_row "c2" "p1" box_01234; fact_row "17" "p2" box_01234;
                             fact_row "c2" "p3" box_11234]
       = Returned (values (own citations))
    /\ NoDup (keys (own citations))
    /\ Permutation (keys (own citations)) (first_occurrences ["c2"; "17"; "c2"])
    /\ List.length (values (own citations))
       = List.length (first_occurrences ["c2"; "17"; "c2"]).
Proof.
  apply (one_citation_per_distinct_id
           [fact_row "c2" "p1" box_01234; fact_row "17" "p2" box_01234;
            fact_row "c2" "p3" box_11234]).
  repeat constructor.
Defined.

(** C3 fails for two ids.  On the two rows of citation [c1] the code gives
    the single citation with papers [p1; p2] and one box, as claimed.  The
    same two rows under the id [__proto__] give no citation at all, since the
    assignment of line 68 sets the prototype of [citations] instead of a
    property; under the id [hasOwnProperty] the second row throws, since the
    entry of the first row has replaced the method called at line 67. *)
Theorem one_box_except_for_two_ids :
  aggregate two_papers_one_box
  = Returned {| own := [("c1", {| bounding_boxes := [box_01234];
                                  papers := ["p1"; "p2"] |})];
                prototype := None |}
  /\ getCitationsForPaper two_papers_one_box
     = Returned [{| bounding_boxes := [box_01234]; papers := ["p1"; "p2"] |}]
  /\ getCitationsForPaper [fact_row "__proto__" "p1" box_01234;
                           fact_row "__proto__" "p2" box_01234]
     = Returned []
  /\ getCitationsForPaper [fact_row "hasOwnProperty" "p1" box_01234;
                           fact_row "hasOwnProperty" "p2" box_01234]
     = Threw TypeError.
Proof. repeat split. Qed.

(** C4: bounding boxes are deduplicated by exact equality of their five
    fields (page, left, top, width, height), with no tolerance: a box is
    dropped exactly when a stored box has the same five numbers, and is
    appended otherwise; two boxes inserted one after the other collapse to
    one entry if and only if all five fields are equal, and are both kept as
    soon as one field differs.  Equality of fields is equality of numbers:
    the same value (NaN being one value), the zeros [+0] and [-0] being
    equal. *)
Theorem boxes_deduplicated_by_field_equality (b1 b2 : BoundingBox) :
  (isEqual b1 b2 = true <-> box_equal b1 b2)
  /\ (bounding_boxes (add_bounding_box (add_bounding_box empty_citation b1) b2) = [b1]
      <-> box_equal b1 b2)
  /\ (~ same_number (page b1) (page b2)
      \/ ~ same_number (left b1) (left b2)
      \/ ~ same_number (top b1) (top b2)
      \/ ~ same_number (width b1) (width b2)
      \/ ~ same_number (height b1) (height b2) ->
      bounding_boxes (add_bounding_box (add_bounding_box empty_citation b1) b2)
      = [b1; b2])
  /\ (forall c : Citation,
        (exists b, In b (bounding_boxes c) /\ box_equal b b2) ->
        add_bounding_box c b2 = c)
  /\ (forall c : Citation,
        (forall b, In b (bounding_boxes c) -> ~ box_equal b b2) ->
        bounding_boxes (add_bounding_box c b2) = bounding_boxes c ++ [b2]).
Proof.
  assert (Htwo : bounding_boxes (add_bounding_box (add_bounding_box empty_citation b1) b2)
                 = if isEqual b1 b2 then [b1] else [b1; b2]).
  { rewrite !boxes_add_bounding_box. simpl. now destruct (isEqual b1 b2). }
  split; [apply isEqual_box_equal |].
  split; [| split; [| split]].
  - rewrite Htwo, <- isEqual_box_equal.
    destruct (isEqual b1 b2); split; congruence.
  - intros Hdiff. rewrite Htwo.
    destruct (isEqual b1 b2) eqn:Heq; [| reflexivity].
    apply isEqual_box_equal in Heq. unfold box_equal in Heq. tauto.
  - intros c Hex. apply add_bounding_box_present.
    now apply some_isEqual.
  - intros c Hall. rewrite boxes_add_bounding_box.
    destruct (some _ (bounding_boxes c)) eqn:Hsome; [| reflexivity].
    apply some_isEqual in Hsome. destruct Hsome as [b [Hin Heq]].
    now destruct (Hall b Hin).
Qed.

Lemma boxes_deduplicated_by_field_equality_witness :
  bounding_boxes (add_bounding_box (add_bounding_box empty_citation box_01234) box_11234)
  = [box_01234; box_11234]
  /\ add_bounding_box {| bounding_boxes := [box_11234; box_01234]; papers := ["p1"] |}
       box_01234
     = {| bounding_boxes := [box_11234; box_01234]; papers := ["p1"] |}
  /\ bounding_boxes
       (add_bounding_box {| bounding_boxes := [box_11234]; papers := ["p1"] |} box_01234)
     = [box_11234] ++ [box_01234].
Proof.
  pose proof (boxes_deduplicated_by_field_equality box_01234 box_11234)
    as (_ & _ & Hkept & _ & _).
  pose proof (boxes_deduplicated_by_field_equality box_11234 box_01234)
    as (_ & _ & _ & Hdrop & Hadd).
  split; [| split].
  - apply Hkept. left. intros [H | [_ H]]; discriminate H.
  - apply Hdrop. exists box_01234. split.
    + right. left. reflexivity.
    + repeat split; left; reflexivity.
  - apply (Hadd {| bounding_boxes := [box_11234]; papers := ["p1"] |}).
    intros b [<- | []] (Hpage & _).
    destruct Hpage as [H | [H _]]; discriminate H.
Defined.

(** At the edges of the numbers: [-0] is equal to [+0], and a box with a
    NaN field is equal to itself. *)
Example signed_zeros_collapse :
  bounding_boxes (add_bounding_box (add_bounding_box empty_citation box_01234)
                    box_negative_zero)
  = [box_01234].
Proof. reflexivity. Qed.

Example nan_boxes_collapse :
  bounding_boxes (add_bounding_box (add_bounding_box empty_citation box_nan) box_nan)
  = [box_nan].
Proof. reflexivity. Qed.

(** C5 fails for two ids.  Rows that cite P1, P2, P1, P3 give the papers
    [P1; P2; P3] for the citation [c1], as claimed; for the citation
    [__proto__] no citation is returned, and for the citation
    [hasOwnProperty] the second row throws (the defect of C3). *)
Theorem papers_order_except_for_two_ids :
  getCitationsForPaper [fact_row "c1" "P1" box_01234; fact_row "c1" "P2" box_11234;
                        fact_row "c1" "P1" box_11234; fact_row "c1" "P3" box_01234]
  = Returned [{| bounding_boxes := [box_01234; box_11234];
                 papers := ["P1"; "P2"; "P3"] |}]
  /\ getCitationsForPaper
       [fact_row "__proto__" "P1" box_01234; fact_row "__proto__" "P2" box_11234;
        fact_row "__proto__" "P1" box_11234; fact_row "__proto__" "P3" box_01234]
     = Returned []
  /\ getCitationsForPaper
       [fact_row "hasOwnProperty" "P1" box_01234; fact_row "hasOwnProperty" "P2" box_11234;
        fact_row "hasOwnProperty" "P1" box_11234; fact_row "hasOwnProperty" "P3" box_01234]
     = Threw TypeError.
Proof. repeat split. Qed.

(** C6 fails for two ids.  The pair (c1, p1) fed three times leaves one
    paper, as claimed; the pair (hasOwnProperty, p1) fed once gives one
    citation and fed twice throws, and the pair (__proto__, p1) leaves no
    citation however often it is fed (the defect of C3). *)
Theorem repeated_pair_except_for_two_ids :
  getCitationsForPaper [fact_row "c1" "p1" box_01234; fact_row "c1" "p1" box_01234;
                        fact_row "c1" "p1" box_01234]
  = Returned [{| bounding_boxes := [box_01234]; papers := ["p1"] |}]
  /\ getCitationsForPaper [fact_row "hasOwnProperty" "p1" box_01234]
     = Returned [{| bounding_boxes := [box_01234]; papers := ["p1"] |}]
  /\ getCitationsForPaper [fact_row "hasOwnProperty" "p1" box_01234;
                           fact_row "hasOwnProperty" "p1" box_01234]
     = Threw TypeError
  /\ getCitationsForPaper [fact_row "__proto__" "p1" box_01234;
                           fact_row "__proto__" "p1" box_01234;
                           fact_row "__proto__" "p1" box_01234]
     = Returned [].
Proof. repeat split. Qed.


End Aggregation.

(* ===================================================================== *)
(** * Fetching paper metadata: facts and specification *)
(* ===================================================================== *)

Module Fetch.

Import JS JSFacts S2Api FetchSpec BatchSpec BodyFacts.

Section Requests.

Variable isS2ApiResponseSuccess : AxiosResponse -> bool.
Variable axios_get : nat -> string -> AxiosError + AxiosResponse.

Local Abbreviation getPaper := (getPaper isS2ApiResponseSuccess axios_get).
Local Abbreviation getPapers := (getPapers isS2ApiResponseSuccess axios_get).
Local Abbreviation resolves_at :=
  (fun request : nat * string =>
     resolves isS2ApiResponseSuccess (axios_get (fst request) (url_of (snd request)))).
Local Abbreviation poisoned_at :=
  (fun request : nat * string =>
     accepted_unshaped isS2ApiResponseSuccess
       (axios_get (fst request) (url_of (snd request)))).
Local Abbreviation papers_from := (papers_from isS2ApiResponseSuccess axios_get).

Lemma map_s2Id_papers_from (k : nat) (s2Ids : list string) :
  map Paper.s2Id (papers_from k s2Ids)
  = resolved_from isS2ApiResponseSuccess axios_get k s2Ids.
Proof.
  revert k. induction s2Ids as [| s2Id s2Ids IH]; intros k; [reflexivity |].
  unfold resolved_from in *.
  cbn [BatchSpec.papers_from requests_from filter fst snd].
  destruct (axios_get k (url_of s2Id)) as [err | response]; cbn [resolves];
    [apply IH |].
  destruct (isS2ApiResponseSuccess response); [| apply IH].
  cbn [map Paper.s2Id paper_of snd]. now rewrite IH.
Qed.

(** The batch of the promises of [getPaper]: rejected when some response is
    accepted with a body that is not well formed, fulfilled otherwise. *)
Lemma Promise_all_cases (s2Ids : list string) (k : nat) :
  if existsb poisoned_at (requests_from k s2Ids)
  then Promise_all (map_from (fun s2Id k => getPaper k s2Id) k s2Ids) = Rejected TypeError
  else exists results,
      Promise_all (map_from (fun s2Id k => getPaper k s2Id) k s2Ids) = Fulfilled results
      /\ filter_defined results = papers_from k s2Ids.
Proof.
  revert k. induction s2Ids as [| s2Id s2Ids IH]; intros k.
  - exists []. split; reflexivity.
  - cbn [requests_from existsb map_from Promise_all BatchSpec.papers_from fst snd].
    rewrite getPaper_cases. specialize (IH (S k)).
    set (rest := existsb poisoned_at (requests_from (S k) s2Ids)) in *.
    unfold accepted_unshaped.
    destruct (axios_get k (url_of s2Id)) as [err | response]; cbn [orb then_].
    + destruct rest.
      * now rewrite IH.
      * destruct IH as (results & -> & Hpapers). cbn [then_].
        exists (None :: results). split; [reflexivity | exact Hpapers].
    + destruct (isS2ApiResponseSuccess response); cbn [andb orb then_].
      * destruct (well_formed (data response)); cbn [negb orb then_];
          [| reflexivity].
        destruct rest.
        -- now rewrite IH.
        -- destruct IH as (results & -> & Hpapers). cbn [then_].
           eexists. split; [reflexivity |]. cbn [filter_defined].
           now rewrite Hpapers.
      * destruct rest.
        -- now rewrite IH.
        -- destruct IH as (results & -> & Hpapers). cbn [then_].
           exists (None :: results). split; [reflexivity | exact Hpapers].
Qed.

(** How a batch settles. *)
Lemma getPapers_cases (s2Ids : list string) :
  getPapers s2Ids
  = if existsb poisoned_at (requests_from 0 s2Ids)
    then Rejected TypeError
    else Fulfilled (papers_from 0 s2Ids).
Proof.
  pose proof (Promise_all_cases s2Ids 0) as H. unfold S2Api.getPapers.
  destruct (existsb poisoned_at (requests_from 0 s2Ids)).
  - now rewrite H.
  - destruct H as (results & -> & Hpapers). cbn [then_]. now rewrite Hpapers.
Qed.

Lemma getPapers_Fulfilled (s2Ids : list string) (papers : list Paper.t) :
  getPapers s2Ids = Fulfilled papers ->
  papers = papers_from 0 s2Ids
  /\ map Paper.s2Id papers = resolved isS2ApiResponseSuccess axios_get s2Ids.
Proof.
  rewrite getPapers_cases.
  destruct (existsb poisoned_at (requests_from 0 s2Ids)); [discriminate |].
  intros [= <-]. split; [reflexivity | apply map_s2Id_papers_from].
Qed.

(** C2 (amended): a request that fails by a network error, by a status
    outside 2xx or by a response that the guard [isS2ApiResponseSuccess]
    does not accept is turned into [undefined] and never rejects the batch.
    When no response is accepted with a body that is not well formed,
    [getPapers] is fulfilled, whatever requests fail, with exactly the
    papers made from the responses of the identifiers that resolved, one for
    each, in the order of the input.  A response that the guard accepts is
    mapped outside the [try]: accepted with a body that is not well formed,
    it rejects the whole batch. *)
Theorem getPapers_tolerates_failures (s2Ids : list string) :
  (forall k s2Id,
      axios_get k (url_of s2Id) = inl NetworkError ->
      getPaper k s2Id = Fulfilled None)
  /\ (forall k s2Id response,
        axios_get k (url_of s2Id) = inl (StatusError response) ->
        getPaper k s2Id = Fulfilled None)
  /\ (forall k s2Id response,
        axios_get k (url_of s2Id) = inr response ->
        isS2ApiResponseSuccess response = false ->
        getPaper k s2Id = Fulfilled None)
  /\ (existsb poisoned_at (requests_from 0 s2Ids) = false ->
      getPapers s2Ids = Fulfilled (papers_from 0 s2Ids)
      /\ map Paper.s2Id (papers_from 0 s2Ids)
         = resolved isS2ApiResponseSuccess axios_get s2Ids)
  /\ (existsb poisoned_at (requests_from 0 s2Ids) = true ->
      getPapers s2Ids = Rejected TypeError).
Proof.
  split; [| split; [| split; [| split]]].
  - intros k s2Id H. apply getPaper_failed. now rewrite H.
  - intros k s2Id response H. apply getPaper_failed. now rewrite H.
  - intros k s2Id response H Hno. apply getPaper_failed. now rewrite H.
  - intros H. rewrite getPapers_cases, H.
    split; [reflexivity | apply map_s2Id_papers_from].
  - intros H. now rewrite getPapers_cases, H.
Qed.

(** C9: for every response that the guard accepts and that has the shape of
    a successful response, [getPaper] is fulfilled with a paper record whose
    [authors] are the display names of the authors, in the order of the
    response, joined into one string with a comma and a space between
    them. *)
Theorem authors_joined_with_comma_space
    (k : nat) (s2Id : string) (response : AxiosResponse) (data : S2ApiPaper.t) :
  axios_get k (url_of s2Id) = inr response ->
  isS2ApiResponseSuccess response = true ->
  as_paper (S2Api.data response) = Some data ->
  exists paper,
    getPaper k s2Id = Fulfilled (Some paper)
    /\ Paper.s2Id paper = s2Id
    /\ Paper.authors paper
       = String.concat ", " (map Author.name (S2ApiPaper.authors data)).
Proof.
  intros Hget Hok Hdata.
  destruct (as_paper_spec s2Id _ _ Hdata) as [Hwf Hpaper].
  rewrite (getPaper_accepted _ _ k s2Id response Hget Hok), Hwf, Hpaper.
  eexists. split; [reflexivity |]. split; reflexivity.
Qed.

Hypothesis guard_narrows : narrows isS2ApiResponseSuccess.

(** With a guard that narrows, no request is accepted with a body that is
    not well formed. *)
Lemma narrows_not_poisoned (k : nat) (s2Ids : list string) :
  existsb poisoned_at (requests_from k s2Ids) = false.
Proof.
  destruct (existsb poisoned_at (requests_from k s2Ids)) eqn:H; [| reflexivity].
  apply existsb_exists in H. destruct H as ([i s2Id] & _ & H).
  unfold accepted_unshaped in H. cbn [fst snd] in H.
  destruct (axios_get i (url_of s2Id)) as [err | response]; [discriminate |].
  apply andb_true_iff in H. destruct H as [Hok Hwf].
  destruct (guard_narrows response Hok) as [paper Hpaper].
  destruct (as_paper_spec s2Id _ _ Hpaper) as [Hwf' _].
  rewrite Hwf' in Hwf. discriminate Hwf.
Qed.

Lemma getPapers_fulfilled (s2Ids : list string) :
  exists papers,
    getPapers s2Ids = Fulfilled papers
    /\ map Paper.s2Id papers = resolved isS2ApiResponseSuccess axios_get s2Ids.
Proof.
  exists (papers_from 0 s2Ids).
  rewrite getPapers_cases, narrows_not_poisoned.
  split; [reflexivity | apply map_s2Id_papers_from].
Qed.


End Requests.

(** The scenario of identifiers A, B, C where the service fails for B. *)
Example getPapers_A_B_C :
  getPapers shaped_success service_failing_for_B ["A"; "B"; "C"]
  = Fulfilled
      [ {| Paper.s2Id := "A"; Paper.title := Str "A paper";
           Paper.authors := "Ada Lovelace, Alan Turing, Grace Hopper";
           Paper.abstract := Null; Paper.url := Str "http://example.org/a-paper";
           Paper.venue := Str "A venue";
           Paper.year := Some (Number_of_Z 2019) |};
        {| Paper.s2Id := "C"; Paper.title := Str "A paper";
           Paper.authors := "Ada Lovelace, Alan Turing, Grace Hopper";
           Paper.abstract := Null; Paper.url := Str "http://example.org/a-paper";
           Paper.venue := Str "A venue";
           Paper.year := Some (Number_of_Z 2019) |} ].
Proof. reflexivity. Qed.

(** C2, as the specification has it, does not hold: a malformed response
    that the guard accepts rejects the whole batch, the papers of the other
    identifiers included.  The exception is thrown at line 39, outside the
    [try]: for a guard that looks for an array of authors, by a [null]
    entry of that array; for a guard that looks at the status, by a body
    without authors. *)
Lemma getPapers_rejected_by_malformed_response :
  getPapers success_with_authors service_null_author ["A"; "N"; "C"]
  = Rejected TypeError
  /\ getPaper success_with_authors service_null_author 0 "A"
     = Fulfilled (Some (BatchSpec.paper_for "A"))
  /\ getPapers is_2xx service_failing_for_B ["A"; "D"; "C"] = Rejected TypeError
  /\ ~ (forall (guard : AxiosResponse -> bool)
               (service : nat -> string -> AxiosError + AxiosResponse)
               (s2Ids : list string),
           exists papers, getPapers guard service s2Ids = Fulfilled papers).
Proof.
  split; [reflexivity |]. split; [reflexivity |]. split; [reflexivity |].
  intros H.
  destruct (H success_with_authors service_null_author ["A"; "N"; "C"])
    as [papers Hpapers].
  discriminate Hpapers.
Qed.

Lemma getPapers_tolerates_failures_witness :
  getPaper shaped_success service_failing_for_B 1 "B" = Fulfilled None
  /\ getPaper shaped_success service_failing_for_B 3 "B" = Fulfilled None
  /\ getPaper shaped_success service_failing_for_B 4 "D" = Fulfilled None
  /\ (getPapers shaped_success service_failing_for_B ["A"; "B"; "C"; "B"; "D"]
      = Fulfilled (papers_from shaped_success service_failing_for_B 0
                     ["A"; "B"; "C"; "B"; "D"])
      /\ map Paper.s2Id (papers_from shaped_success service_failing_for_B 0
                           ["A"; "B"; "C"; "B"; "D"])
         = resolved shaped_success service_failing_for_B ["A"; "B"; "C"; "B"; "D"])
  /\ getPapers success_with_authors service_null_author ["A"; "N"; "C"]
     = Rejected TypeError.
Proof.
  pose proof (getPapers_tolerates_failures shaped_success service_failing_for_B
                ["A"; "B"; "C"; "B"; "D"])
    as (Hnetwork & Hstatus & Hmarker & Hall & _).
  pose proof (getPapers_tolerates_failures success_with_authors service_null_author
                ["A"; "N"; "C"])
    as (_ & _ & _ & _ & Hrejected).
  split; [| split; [| split; [| split]]].
  - apply Hnetwork. reflexivity.
  - apply (Hstatus 3%nat "B" {| status := 404; data := error_body |}). reflexivity.
  - apply (Hmarker 4%nat "D" {| status := 200; data := error_body |}); reflexivity.
  - apply Hall. reflexivity.
  - apply Hrejected. reflexivity.
Defined.

Lemma authors_joined_with_comma_space_witness :
  exists paper,
    getPaper shaped_success (service_answering "2019") 0 "A" = Fulfilled (Some paper)
    /\ Paper.s2Id paper = "A"
    /\ Paper.authors paper
       = String.concat ", " ["Ada Lovelace"; "Alan Turing"; "Grace Hopper"].
Proof.
  apply (authors_joined_with_comma_space shaped_success (service_answering "2019")
           0 "A" {| status := 200; data := PaperData (sample_paper "2019") |}
           (sample_paper "2019")); reflexivity.
Defined.


Example resolved_in_input_order :
  resolved shaped_success service_failing_for_B ["C"; "B"; "A"; "B"; "D"; "C"]
  = ["C"; "A"; "C"].
Proof. reflexivity. Qed.

(** An author without a name, or with the name [null], leaves an empty
    string between the separators. *)
Example authors_without_name :
  getPaper is_2xx
    (fun _ _ =>
       inr {| status := 200;
              data := Object [("authors",
                               Array [Object [("name", Str "Ada Lovelace")];
                                      Object [];
                                      Object [("name", Null)];
                                      Object [("name", Str "Alan Turing")]])] |})
    0 "A"
  = Fulfilled (Some {| Paper.s2Id := "A"; Paper.title := Undefined;
                       Paper.authors := "Ada Lovelace, , , Alan Turing";
                       Paper.abstract := Undefined; Paper.url := Undefined;
                       Paper.venue := Undefined; Paper.year := None |}).
Proof. reflexivity. Qed.

(** ** The year *)

Lemma year_of_None (year : string) :
  year_of year = None <->
  parseInt year = NaN \/ is_zero (parseInt year) = true.
Proof.
  unfold year_of, NaN.
  destruct (parseInt year) as [s | s | | s m e]; simpl; split;
    try intros [H | H]; try discriminate; auto.
Qed.

Example year_abc : year_of "abc" = None.
Proof. reflexivity. Qed.

Example year_2019 : year_of "2019" = Some (Number_of_Z 2019).
Proof. reflexivity. Qed.

(** C8 fails on the year ["0"]: [parseInt] succeeds and answers the integer
    0, which is falsy, so that [parseInt(data.year) || null] is [null]
    although the parsing did not fail. *)
Theorem year_zero_becomes_null :
  parseInt "0" = Number_of_Z 0
  /\ parseInt "0" <> NaN
  /\ year_of "0" = None
  /\ exists paper,
       getPaper shaped_success (service_answering "0") 0 "A" = Fulfilled (Some paper)
       /\ Paper.year paper = None.
Proof.
  split; [reflexivity |]. split; [discriminate |]. split; [reflexivity |].
  eexists. split; reflexivity.
Qed.

End Fetch.

(* ===================================================================== *)
(** * Decimal numerals *)
(* ===================================================================== *)

Module DecimalFacts.

Import JS DecimalSpec.

Lemma leading_digits_uint (d : Decimal.uint) (rest : string) :
  leading_digits 10 (NilEmpty.string_of_uint d ++ rest)%string
  = uint_digits d ++ leading_digits 10 rest.
Proof. induction d; simpl; try rewrite IHd; reflexivity. Qed.

Lemma leading_digits_uint_all (d : Decimal.uint) :
  leading_digits 10 (NilEmpty.string_of_uint d) = uint_digits d.
Proof. induction d; simpl; try rewrite IHd; reflexivity. Qed.

Lemma fold_digits_acc (d : Decimal.uint) (acc : positive) :
  fold_left (fun a x => (a * 10 + x)%N) (uint_digits d) (Npos acc)
  = Npos (Pos.of_uint_acc d acc).
Proof.
  revert acc.
  induction d; intros acc; cbn [uint_digits fold_left Pos.of_uint_acc];
    try reflexivity; rewrite <- IHd; f_equal; lia.
Qed.

Lemma digits_value_uint (d : Decimal.uint) :
  digits_value 10 (uint_digits d) = N.of_uint d.
Proof.
  unfold digits_value, N.of_uint.
  induction d; cbn [uint_digits fold_left Pos.of_uint];
    try reflexivity; try exact IHd;
    rewrite <- fold_digits_acc; reflexivity.
Qed.

Lemma length_uint_digits (d : Decimal.uint) :
  List.length (uint_digits d) = String.length (NilEmpty.string_of_uint d).
Proof. induction d; simpl; congruence. Qed.

Lemma all_digits_uint (d : Decimal.uint) :
  all_digits (NilEmpty.string_of_uint d) = true.
Proof.
  unfold all_digits. rewrite leading_digits_uint_all, length_uint_digits.
  apply Nat.eqb_refl.
Qed.

Lemma digit_char (c : ascii) (v : N) (d : Decimal.uint) :
  digit_value 10 c = Some v -> exists d', uint_of_char c (Some d) = Some d'.
Proof.
  destruct c as [[|] [|] [|] [|] [|] [|] [|] [|]]; intros H;
    vm_compute in H; try discriminate H; eexists; reflexivity.
Qed.

(** A string of decimal digits is the text of a numeral. *)
Lemma all_digits_numeral (s : string) :
  all_digits s = true -> exists d, s = NilEmpty.string_of_uint d.
Proof.
  intros H.
  assert (Hd : exists d, NilEmpty.uint_of_string s = Some d).
  { unfold all_digits in H. induction s as [| c s IH]; simpl in *.
    - now exists Decimal.Nil.
    - destruct (digit_value 10 c) as [v |] eqn:Hc; [| discriminate].
      destruct (IH H) as [d ->]. exact (digit_char c v d Hc). }
  destruct Hd as [d Hd]. exists d. symmetry. now apply NilEmpty.sus.
Qed.

Lemma nzhead_not_D0 (d d' : Decimal.uint) : Decimal.nzhead d <> Decimal.D0 d'.
Proof. induction d; simpl; try discriminate; assumption. Qed.

Lemma unorm_canonical (d : Decimal.uint) :
  d <> Decimal.Nil ->
  (forall d', d = Decimal.D0 d' -> d' = Decimal.Nil) ->
  Decimal.unorm d = d.
Proof.
  intros Hnil H0. destruct d; try reflexivity.
  - congruence.
  - now rewrite (H0 d eq_refl).
Qed.

Lemma to_uint_canonical (n : N) :
  N.to_uint n <> Decimal.Nil
  /\ forall d', N.to_uint n = Decimal.D0 d' -> d' = Decimal.Nil.
Proof.
  assert (H : N.to_uint n = Decimal.unorm (N.to_uint n)).
  { rewrite <- DecimalN.Unsigned.to_of. now rewrite DecimalN.Unsigned.of_to. }
  unfold Decimal.unorm in H. split.
  - destruct (Decimal.nzhead (N.to_uint n)); rewrite H; discriminate.
  - intros d' Hd. destruct (Decimal.nzhead (N.to_uint n)) eqn:Hnz;
      try (rewrite H in Hd; discriminate Hd).
    + rewrite H in Hd. now injection Hd as <-.
    + exfalso. apply (nzhead_not_D0 (N.to_uint n) u). exact Hnz.
Qed.

(** An array index is the decimal numeral of its value. *)
Lemma array_index_decimal (k : string) (n : N) :
  array_index k = Some n -> k = decimal n.
Proof.
  unfold array_index. destruct k as [| c rest]; [discriminate |].
  destruct (all_digits (String c rest)) eqn:Hall; [| discriminate].
  destruct (negb _) eqn:Hcanon; [| discriminate]. cbn [andb].
  destruct (_ <? _)%N; [| discriminate]. intros [= <-].
  destruct (all_digits_numeral _ Hall) as [d Hd].
  change (match digit_value 10 c with
          | Some d0 => d0 :: leading_digits 10 rest
          | None => []
          end) with (leading_digits 10 (String c rest)).
  rewrite Hd, leading_digits_uint_all, digits_value_uint.
  unfold decimal. rewrite DecimalN.Unsigned.to_of. f_equal.
  symmetry. apply unorm_canonical.
  - intros ->. discriminate Hd.
  - intros d' ->. simpl in Hd. injection Hd as -> ->.
    simpl in Hcanon. destruct d'; [reflexivity | discriminate Hcanon ..].
Qed.

Lemma array_index_inj (k1 k2 : string) (n : N) :
  array_index k1 = Some n -> array_index k2 = Some n -> k1 = k2.
Proof.
  intros H1 H2. apply array_index_decimal in H1, H2. congruence.
Qed.

(** The numeral of a number below [2^32 - 1] is the array index of that
    number. *)
Lemma array_index_of_decimal (n : N) :
  (n < 4294967295)%N -> array_index (decimal n) = Some n.
Proof.
  intros Hn. unfold array_index, decimal.
  destruct (to_uint_canonical n) as [Hnil H0].
  destruct (NilEmpty.string_of_uint (N.to_uint n)) as [| c rest] eqn:Hs.
  - destruct (N.to_uint n); discriminate || congruence.
  - rewrite <- Hs, all_digits_uint, leading_digits_uint_all, digits_value_uint.
    rewrite DecimalN.Unsigned.of_to.
    apply N.ltb_lt in Hn. rewrite Hn.
    assert (Hc : negb ((code c =? 48)%N && negb (String.length rest =? 0)%nat) = true).
    { destruct (N.to_uint n) as [| d' | | | | | | | | |] eqn:Hd;
        simpl in Hs; try discriminate Hs; injection Hs as <- <-;
        try reflexivity.
      now rewrite (H0 d' eq_refl). }
    now rewrite Hc.
Qed.

End DecimalFacts.

(* ===================================================================== *)
(** * The order of the citations returned *)
(* ===================================================================== *)

Module EnumerationOrder.

Import JS JSFacts Queries Spec QueriesFacts OrderSpec DecimalFacts.

Local Abbreviation after i :=
  (fun k' => match array_index k' with Some j => (i < j)%N | None => True end).

Lemma is_index_false (k : string) : is_index k = false <-> array_index k = None.
Proof. unfold is_index. destruct (array_index k); split; congruence. Qed.

Lemma enumeration_order_snoc (ks : list string) (k : string) :
  array_index k = None ->
  enumeration_order ks -> enumeration_order (ks ++ [k]).
Proof.
  intros Hk. induction ks as [| k0 ks IH]; simpl.
  - rewrite Hk. auto.
  - intros [Hhead Htail]. split; [| now apply IH].
    destruct (array_index k0); apply Forall_app; split; trivial;
      constructor; trivial.
    + now rewrite Hk.
    + now apply is_index_false.
Qed.

Lemma enumeration_order_define_index {V : Type} (o : object V) (i : N) (k : string) (v : V) :
  array_index k = Some i ->
  get o k = None ->
  enumeration_order (keys o) ->
  enumeration_order (keys (define_index i k v o)).
Proof.
  intros Hk. induction o as [| [k0 v0] o IH]; simpl.
  - intros _ _. rewrite Hk. auto.
  - destruct (String.eqb_spec k0 k) as [-> | Hne]; [discriminate |].
    intros Hfresh [Hhead Htail].
    destruct (array_index k0) as [j |] eqn:Hk0.
    + destruct (i <? j)%N eqn:Hij; simpl.
      * rewrite Hk, Hk0. apply N.ltb_lt in Hij. repeat split; trivial.
        constructor; [now rewrite Hk0 |].
        eapply Forall_impl; [| exact Hhead]. intros k'. simpl.
        destruct (array_index k'); [lia | trivial].
      * rewrite Hk0. split; [| now apply IH].
        apply (Permutation_Forall (Permutation_sym (keys_define_index i o k v))).
        constructor; [| exact Hhead]. rewrite Hk.
        apply N.ltb_ge in Hij.
        assert (i <> j) by (intros ->; apply Hne; eapply array_index_inj; eassumption).
        lia.
    + simpl. rewrite Hk, Hk0. repeat split; trivial.
      constructor; [now rewrite Hk0 |].
      eapply Forall_impl; [| exact Hhead]. intros k' Hk'.
      apply is_index_false in Hk'. now rewrite Hk'.
Qed.

Lemma enumeration_order_define {V : Type} (o : object V) (k : string) (v : V) :
  get o k = None ->
  enumeration_order (keys o) ->
  enumeration_order (keys (define k v o)).
Proof.
  intros Hfresh Hord. unfold define. destruct (array_index k) as [i |] eqn:Hk.
  - now apply enumeration_order_define_index.
  - unfold keys. rewrite map_app. now apply enumeration_order_snoc.
Qed.

Lemma enumeration_order_step_entries (citations : Entries) (row : Row) :
  enumeration_order (keys citations) ->
  enumeration_order (keys (step_entries citations row)).
Proof.
  intros Hord. rewrite step_entries_unfold, keys_alter, hasOwnProperty_get.
  destruct (get citations (citation_id row)) eqn:Hget; [assumption |].
  now apply enumeration_order_define.
Qed.

Lemma enumeration_order_entries_from (citations : Entries) (rows : list Row) :
  enumeration_order (keys citations) ->
  enumeration_order (keys (entries_from citations rows)).
Proof.
  revert citations. induction rows as [| row rows IH]; intros citations Hord.
  - assumption.
  - apply (IH (step_entries citations row)). now apply enumeration_order_step_entries.
Qed.

(** The names that are not array indices keep the order of their creation. *)
Lemma names_define {V : Type} (o : object V) (k : string) (v : V) :
  filter (fun k' => negb (is_index k')) (keys (define k v o))
  = filter (fun k' => negb (is_index k')) (keys o)
    ++ (if is_index k then [] else [k]).
Proof.
  unfold define. destruct (array_index k) as [i |] eqn:Hk.
  - assert (Hik : is_index k = true) by (unfold is_index; now rewrite Hk).
    rewrite Hik, app_nil_r. induction o as [| [k0 v0] o IH]; simpl.
    + now rewrite Hik.
    + destruct (array_index k0) as [j |] eqn:Hk0.
      * assert (Hik0 : is_index k0 = true) by (unfold is_index; now rewrite Hk0).
        destruct (i <? j)%N; simpl; rewrite ?Hik, ?Hik0; simpl;
          rewrite ?Hik0; simpl; [reflexivity | exact IH].
      * simpl. rewrite Hik. reflexivity.
  - assert (Hik : is_index k = false) by (unfold is_index; now rewrite Hk).
    unfold keys. rewrite map_app, filter_app. simpl. now rewrite Hik.
Qed.

Lemma names_entries_from (citations : Entries) (rows : list Row) :
  filter (fun k => negb (is_index k)) (keys (entries_from citations rows))
  = filter (fun k => negb (is_index k)) (keys citations)
    ++ filter (fun k => negb (is_index k) && negb (hasOwnProperty citations k))
         (first_occurrences (map citation_id rows)).
Proof.
  revert citations. induction rows as [| row rows IH]; intros citations.
  - simpl. now rewrite app_nil_r.
  - change (entries_from citations (row :: rows))
      with (entries_from (step_entries citations row) rows).
    rewrite IH. clear IH. set (id := citation_id row).
    assert (Hhas : forall k, hasOwnProperty (step_entries citations row) k
                             = String.eqb id k || hasOwnProperty citations k).
    { intros k. rewrite !hasOwnProperty_get, get_step_entries. fold id.
      now destruct (String.eqb id k). }
    rewrite (filter_ext _ _ (fun k => f_equal (fun b => negb (is_index k) && negb b) (Hhas k))).
    cbn [map first_occurrences filter]. fold id.
    rewrite filter_filter.
    rewrite step_entries_unfold, keys_alter. fold id.
    assert (Hbool : forall k,
               negb (is_index k) && negb (String.eqb id k || hasOwnProperty citations k)
               = negb (String.eqb id k)
                 && (negb (is_index k) && negb (hasOwnProperty citations k))).
    { intros k. now destruct (is_index k), (String.eqb id k), (hasOwnProperty citations k). }
    rewrite (filter_ext _ _ Hbool).
    destruct (hasOwnProperty citations id) eqn:Hid.
    + now rewrite andb_false_r.
    + rewrite names_define, andb_true_r, <- app_assoc.
      now destruct (is_index id).
Qed.

Lemma Forall2_entries {V : Type} (o : object V) (P : string -> V -> Prop) :
  (forall k v, In (k, v) o -> P k v) -> Forall2 P (keys o) (values o).
Proof.
  induction o as [| [k v] o IH]; intros H; simpl; constructor.
  - apply H. now left.
  - apply IH. intros k' v' Hin. apply H. now right.
Qed.

(** The entries are in the order in which an object enumerates its keys. *)
Lemma entries_in_enumeration_order (rows : list Row) :
  enumeration_order (keys (entries_of rows))
  /\ filter (fun k => negb (is_index k)) (keys (entries_of rows))
     = filter (fun k => negb (is_index k)) (first_occurrences (map citation_id rows))
  /\ Forall2 (fun k c => get (entries_of rows) k = Some c)
       (keys (entries_of rows)) (values (entries_of rows))
  /\ (Forall (fun row => is_index (citation_id row) = false) rows ->
      keys (entries_of rows) = first_occurrences (map citation_id rows)).
Proof.
  assert (Hnames : filter (fun k => negb (is_index k)) (keys (entries_of rows))
                   = filter (fun k => negb (is_index k))
                       (first_occurrences (map citation_id rows))).
  { unfold entries_of. rewrite names_entries_from. simpl.
    apply filter_ext. intros k. apply andb_true_r. }
  split; [| split; [exact Hnames | split]].
  - apply enumeration_order_entries_from. exact I.
  - apply Forall2_entries. intros k c Hin. apply In_get_NoDup; [| assumption].
    apply NoDup_keys_entries_from. constructor.
  - intros Hall.
    assert (Hids : forall k, In k (map citation_id rows) -> negb (is_index k) = true).
    { intros k Hk. apply in_map_iff in Hk. destruct Hk as (row & <- & Hrow).
      rewrite Forall_forall in Hall. now rewrite (Hall row Hrow). }
    rewrite <- (filter_true (keys (entries_of rows))).
    rewrite <- (filter_true (first_occurrences _)).
    rewrite (filter_ext_in _ (fun k => negb (is_index k)) (keys (entries_of rows))).
    + rewrite Hnames. apply filter_ext_in. intros k Hk.
      apply Hids. now apply In_first_occurrences.
    + intros k Hk. symmetry. apply Hids.
      unfold entries_of in Hk. apply In_keys_entries_from in Hk.
      now destruct Hk as [[] | Hk].
Qed.

(** X1: for rows whose citation ids are neither [__proto__] nor
    [hasOwnProperty], [getCitationsForPaper] returns the citations in the
    order in which the object enumerates its keys: the ids that are array
    indices come first, in ascending numeric order, then the other ids in
    the order of their first row; when no id is an array index the citations
    are in the order of their first row. *)
Theorem citations_in_enumeration_order (rows : list Row) :
  ordinary rows ->
  exists citations returned,
    aggregate rows = Returned citations
    /\ getCitationsForPaper rows = Returned returned
    /\ enumeration_order (keys (own citations))
    /\ filter (fun k => negb (is_index k)) (keys (own citations))
       = filter (fun k => negb (is_index k)) (first_occurrences (map citation_id rows))
    /\ Forall2 (fun k c => get (own citations) k = Some c)
         (keys (own citations)) returned
    /\ (Forall (fun row => is_index (citation_id row) = false) rows ->
        keys (own citations) = first_occurrences (map citation_id rows)).
Proof.
  intros Hrows. destruct (aggregate_ordinary rows Hrows) as [Hagg Hget].
  eexists. eexists. split; [exact Hagg |]. split; [exact Hget |]. cbn [own].
  apply entries_in_enumeration_order.
Qed.

Lemma citations_in_enumeration_order_witness :
  exists citations returned,
    aggregate [fact_row "c2" "p1" box_01234; fact_row "c1" "p2" box_01234;
               fact_row "c2" "p3" box_11234]
    = Returned citations
    /\ getCitationsForPaper [fact_row "c2" "p1" box_01234; fact_row "c1" "p2" box_01234;
                             fact_row "c2" "p3" box_11234]
       = Returned returned
    /\ enumeration_order (keys (own citations))
    /\ filter (fun k => negb (is_index k)) (keys (own citations))
       = filter (fun k => negb (is_index k)) (first_occurrences ["c2"; "c1"; "c2"])
    /\ Forall2 (fun k c => get (own citations) k = Some c)
         (keys (own citations)) returned
    /\ keys (own citations) = first_occurrences ["c2"; "c1"; "c2"].
Proof.
  destruct (citations_in_enumeration_order
              [fact_row "c2" "p1" box_01234; fact_row "c1" "p2" box_01234;
               fact_row "c2" "p3" box_11234])
    as (citations & returned & H1 & H2 & H3 & H4 & H5 & H6).
  - repeat constructor.
  - exists citations, returned. repeat (split; [assumption |]).
    apply H6. repeat constructor.
Defined.

Lemma array_index_bound (k : string) (n : N) :
  array_index k = Some n -> (n < 4294967295)%N.
Proof.
  unfold array_index. destruct k as [| c rest]; [discriminate |].
  destruct (_ && _); [| discriminate].
  destruct (_ <? _)%N eqn:H; [| discriminate].
  intros [= <-]. now apply N.ltb_lt.
Qed.

Lemma sorted_numerals (ks : list string) :
  enumeration_order ks ->
  Forall (fun k => is_index k = true) ks ->
  exists ms,
    ks = map DecimalSpec.decimal ms
    /\ StronglySorted N.lt ms
    /\ Forall (fun m => (m < 4294967295)%N) ms.
Proof.
  induction ks as [| k ks IH]; intros Hord Hidx.
  - exists []. repeat constructor.
  - inversion Hidx as [| ? ? Hk Hidx']; subst. destruct Hord as [Hhead Htail].
    destruct (IH Htail Hidx') as (ms & -> & Hsorted & Hbound).
    unfold is_index in Hk. destruct (array_index k) as [i |] eqn:Hi; [| discriminate].
    exists (i :: ms). split; [| split].
    + simpl. f_equal. now apply array_index_decimal.
    + constructor; [assumption |].
      rewrite Forall_forall in *. intros m Hm.
      specialize (Hhead (DecimalSpec.decimal m) (in_map _ _ _ Hm)). simpl in Hhead.
      now rewrite (array_index_of_decimal m (Hbound m Hm)) in Hhead.
    + constructor; [| assumption]. now apply (array_index_bound k).
Qed.

(** A numeral is neither [__proto__] nor [hasOwnProperty]. *)
Lemma numeral_ordinary (n : N) :
  (n < 4294967295)%N -> ordinary_id (DecimalSpec.decimal n) = true.
Proof.
  intros Hn. apply ordinary_id_spec.
  pose proof (array_index_of_decimal n Hn) as Hidx.
  split; intros E; rewrite E in Hidx; discriminate Hidx.
Qed.

Lemma entries_numeric_sorted (rows : list Row) :
  Forall (fun row => exists n, (n < 4294967295)%N
                               /\ citation_id row = DecimalSpec.decimal n) rows ->
  exists ids,
    keys (entries_of rows) = map DecimalSpec.decimal ids
    /\ StronglySorted N.lt ids
    /\ (forall n, In n ids <-> In (DecimalSpec.decimal n) (map citation_id rows)).
Proof.
  intros Hrows.
  assert (Hidx : Forall (fun k => is_index k = true) (keys (entries_of rows))).
  { apply Forall_forall. intros k Hk. unfold entries_of in Hk.
    apply In_keys_entries_from in Hk. destruct Hk as [[] | Hk].
    apply in_map_iff in Hk. destruct Hk as (row & <- & Hrow).
    rewrite Forall_forall in Hrows. destruct (Hrows row Hrow) as (n & Hn & ->).
    unfold is_index. now rewrite array_index_of_decimal. }
  destruct (sorted_numerals _ (enumeration_order_entries_from [] rows I) Hidx)
    as (ids & Hkeys & Hsorted & Hbound).
  exists ids. split; [exact Hkeys | split; [exact Hsorted |]].
  intros n.
  assert (Hin : In (DecimalSpec.decimal n) (keys (entries_of rows))
                <-> In (DecimalSpec.decimal n) (map citation_id rows)).
  { unfold entries_of. rewrite In_keys_entries_from. simpl. tauto. }
  rewrite <- Hin. unfold entries_of. rewrite Hkeys. split.
  - apply in_map.
  - intros H. apply in_map_iff in H. destruct H as (m & Hm & Hin').
    assert (m = n); [| now subst].
    rewrite Forall_forall in Hbound. pose proof (Hbound m Hin') as Hb.
    assert (Hidxn : array_index (DecimalSpec.decimal n) = Some m)
      by (rewrite <- Hm; now apply array_index_of_decimal).
    apply array_index_decimal in Hidxn.
    unfold DecimalSpec.decimal in Hidxn, Hm.
    apply DecimalN.Unsigned.to_uint_inj.
    assert (Hu : forall d d', NilEmpty.string_of_uint d = NilEmpty.string_of_uint d' -> d = d').
    { intros d d' H. apply (f_equal NilEmpty.uint_of_string) in H.
      rewrite !NilEmpty.usu in H. now injection H. }
    now apply Hu.
Qed.

(** X19: when the citation ids are the decimal numerals of integers below
    [2^32 - 1] (the ids of a table with integer keys), the pass returns
    without an exception and the citations are returned in ascending order
    of their ids, whatever the order of the rows. *)
Theorem numeric_ids_are_sorted (rows : list Row) :
  Forall (fun row => exists n, (n < 4294967295)%N
                               /\ citation_id row = DecimalSpec.decimal n) rows ->
  exists ids citations,
    aggregate rows = Returned citations
    /\ getCitationsForPaper rows = Returned (values (own citations))
    /\ prototype citations = None
    /\ keys (own citations) = map DecimalSpec.decimal ids
    /\ StronglySorted N.lt ids
    /\ (forall n, In n ids <-> In (DecimalSpec.decimal n) (map citation_id rows)).
Proof.
  intros Hrows.
  assert (Hord : ordinary rows).
  { unfold ordinary. rewrite Forall_forall in *. intros row Hrow.
    destruct (Hrows row Hrow) as (n & Hn & ->). now apply numeral_ordinary. }
  destruct (aggregate_ordinary rows Hord) as [Hagg Hget].
  destruct (entries_numeric_sorted rows Hrows) as (ids & H1 & H2 & H3).
  exists ids. eexists. split; [exact Hagg |]. cbn [own prototype].
  repeat split; try assumption; now apply H3.
Qed.

Lemma numeric_ids_are_sorted_witness :
  exists ids citations,
    aggregate [fact_row (DecimalSpec.decimal 10) "p1" box_01234;
               fact_row (DecimalSpec.decimal 9) "p2" box_01234;
               fact_row (DecimalSpec.decimal 10) "p3" box_11234]
    = Returned citations
    /\ getCitationsForPaper [fact_row (DecimalSpec.decimal 10) "p1" box_01234;
                             fact_row (DecimalSpec.decimal 9) "p2" box_01234;
                             fact_row (DecimalSpec.decimal 10) "p3" box_11234]
       = Returned (values (own citations))
    /\ prototype citations = None
    /\ keys (own citations) = map DecimalSpec.decimal ids
    /\ StronglySorted N.lt ids
    /\ (forall n, In n ids <->
                  In (DecimalSpec.decimal n)
                     (map citation_id
                        [fact_row (DecimalSpec.decimal 10) "p1" box_01234;
                         fact_row (DecimalSpec.decimal 9) "p2" box_01234;
                         fact_row (DecimalSpec.decimal 10) "p3" box_11234])).
Proof.
  apply numeric_ids_are_sorted.
  repeat constructor; [exists 10%N | exists 9%N | exists 10%N];
    (split; [reflexivity | reflexivity]).
Defined.

(** Ids that are numerals are enumerated by value, before the other ids. *)
Example numeric_ids_first :
  option_map (fun citations => keys (own citations))
    (match aggregate [fact_row "c1" "p1" box_01234; fact_row "10" "p2" box_01234;
                      fact_row "9" "p3" box_01234; fact_row "007" "p4" box_01234]
     with Returned citations => Some citations | Threw _ => None end)
  = Some ["9"; "10"; "c1"; "007"].
Proof. reflexivity. Qed.

End EnumerationOrder.

(* ===================================================================== *)
(** * More on the aggregation of citations *)
(* ===================================================================== *)

Module AggregationMore.

Import JS JSFacts Queries Spec QueriesFacts OrderSpec.

Lemma isEqual_trans (b1 b2 b3 : BoundingBox) :
  isEqual b1 b2 = true -> isEqual b2 b3 = true -> isEqual b1 b3 = true.
Proof. rewrite !isEqual_box_equal. apply box_equal_trans. Qed.

Lemma In_first_boxes (l : list BoundingBox) (b : BoundingBox) :
  In b (first_boxes l) -> In b l.
Proof.
  induction l as [| x l IH]; simpl; [trivial |].
  intros [-> | Hin]; [now left |]. right. apply IH.
  now apply filter_In in Hin.
Qed.

Lemma length_first_boxes (l : list BoundingBox) :
  List.length (first_boxes l) <= List.length l.
Proof.
  induction l as [| x l IH]; simpl; [lia |].
  pose proof (filter_length_le (fun y => negb (isEqual x y)) (first_boxes l)). lia.
Qed.

Lemma length_first_occurrences (l : list string) :
  List.length (first_occurrences l) <= List.length l.
Proof.
  induction l as [| x l IH]; simpl; [lia |].
  pose proof (filter_length_le (fun y => negb (String.eqb x y)) (first_occurrences l)).
  lia.
Qed.

(** Inserting the boxes of [rows] one after the other appends, in the order
    of their first occurrence, those that no stored box is equal to. *)
Lemma boxes_fold_merge_row (rows : list Row) (c : Citation) :
  bounding_boxes (fold_left merge_row rows c)
  = bounding_boxes c
    ++ filter (fun y => negb (existsb (fun b => isEqual b y) (bounding_boxes c)))
         (first_boxes (map bounding_box_of rows)).
Proof.
  revert c. induction rows as [| row rows IH]; intros c; simpl.
  - now rewrite app_nil_r.
  - rewrite IH, boxes_merge_row, filter_filter. unfold some.
    set (box := bounding_box_of row).
    destruct (existsb (fun b => isEqual b box) (bounding_boxes c)) eqn:Hbox; simpl.
    + f_equal. apply filter_ext. intros y.
      destruct (isEqual box y) eqn:Hy; simpl; [| reflexivity].
      apply existsb_exists in Hbox. destruct Hbox as (b0 & Hin & Hb0).
      assert (Hy' : existsb (fun b => isEqual b y) (bounding_boxes c) = true).
      { apply existsb_exists. exists b0. split; trivial.
        now apply (isEqual_trans b0 box y). }
      now rewrite Hy'.
    + rewrite <- app_assoc. simpl. do 2 f_equal. apply filter_ext. intros y.
      rewrite existsb_app. simpl. rewrite orb_false_r, negb_orb.
      apply andb_comm.
Qed.

Lemma boxes_entries (rows : list Row) (k : string) (c : Citation) :
  get (entries_of rows) k = Some c ->
  bounding_boxes c = first_boxes (boxes_of k rows)
  /\ papers c = first_occurrences (papers_of k rows)
  /\ rows_of k rows <> [].
Proof.
  unfold entries_of, boxes_of, papers_of. rewrite get_entries_from.
  destruct (rows_of k rows) as [| row own]; [discriminate |].
  intros H.
  assert (E : c = fold_left merge_row (row :: own) empty_citation)
    by (now injection H).
  clear H. subst c. repeat split; [| | discriminate].
  - rewrite boxes_fold_merge_row. cbn [bounding_boxes empty_citation app].
    apply filter_true.
  - apply papers_fold_merge_row_empty.
Qed.

Lemma entry_get (rows : list Row) (k : string) (c : Citation) :
  In (k, c) (entries_of rows) -> get (entries_of rows) k = Some c.
Proof.
  apply In_get_NoDup, NoDup_keys_entries_from. constructor.
Qed.


Lemma ordinary_rows_of (key : string) (rows : list Row) :
  ordinary rows -> ordinary (rows_of key rows).
Proof.
  unfold ordinary, rows_of. rewrite !Forall_forall. intros H row Hrow.
  apply filter_In in Hrow. now apply H.
Qed.

Lemma get_entries_own (rows : list Row) (k : string) :
  get (entries_of rows) k
  = match rows_of k rows with
    | [] => None
    | own => Some (fold_left merge_row own empty_citation)
    end.
Proof. unfold entries_of. now rewrite get_entries_from. Qed.

Lemma get_entries_absent (rows : list Row) (k : string) :
  Forall (fun row => citation_id row <> k) rows -> get (entries_of rows) k = None.
Proof.
  intros H. rewrite get_entries_own.
  assert (E : rows_of k rows = []); [| now rewrite E].
  unfold rows_of. induction H as [| row rows Hrow _ IH]; [reflexivity |].
  cbn [filter]. apply String.eqb_neq in Hrow. now rewrite Hrow.
Qed.

Lemma ordinary_absent (rows : list Row) :
  ordinary rows ->
  get (entries_of rows) "__proto__" = None
  /\ hasOwnProperty (entries_of rows) "hasOwnProperty" = false.
Proof.
  intros H. rewrite hasOwnProperty_get.
  rewrite !get_entries_absent; [now split | |];
    eapply Forall_impl; [| exact H | | exact H]; intros row Hrow;
    apply ordinary_id_spec in Hrow; tauto.
Qed.

(** A second pass over rows of ordinary ids, from the object of the first. *)
Lemma aggregate_from_ordinary (rows1 rows2 : list Row) :
  ordinary rows1 -> ordinary rows2 ->
  aggregate_from {| own := entries_of rows1; prototype := None |} rows2
  = Returned {| own := entries_from (entries_of rows1) rows2; prototype := None |}.
Proof.
  intros H1 H2. destruct (ordinary_absent rows1 H1) as [Hp Hs].
  destruct (ordinary_facts rows2 H2) as (E1 & E2 & E3).
  rewrite aggregate_from_spec by exact Hp. cbn [own prototype].
  now rewrite Hs, E1, E2, E3.
Qed.

Lemma shadowed_named (rows : list Row) :
  shadowed rows = false -> shadowed (named rows) = false.
Proof.
  induction rows as [| row rows IH]; [reflexivity |].
  cbn [shadowed]. intros H. apply orb_false_iff in H. destruct H as [H1 H2].
  specialize (IH H2). unfold named in *. cbn [filter].
  destruct (negb (String.eqb (citation_id row) "__proto__")); [| exact IH].
  cbn [shadowed]. rewrite IH, orb_false_r.
  destruct (String.eqb (citation_id row) "hasOwnProperty"); [| reflexivity].
  cbn [andb] in *. destruct rows; [reflexivity | discriminate H1].
Qed.

Lemma named_named (rows : list Row) : named (named rows) = named rows.
Proof.
  unfold named. rewrite filter_filter. apply filter_ext. intros row.
  apply andb_diag.
Qed.

Lemma shadowed_split (rows : list Row) :
  shadowed rows = true
  <-> exists rows1 row next rows2,
        rows = rows1 ++ row :: next :: rows2
        /\ citation_id row = "hasOwnProperty".
Proof.
  split.
  - induction rows as [| row rows IH]; [discriminate |].
    cbn [shadowed]. intros H. apply orb_true_iff in H. destruct H as [H | H].
    + apply andb_true_iff in H. destruct H as [Hid Hnext].
      destruct rows as [| next rows2]; [discriminate |].
      exists [], row, next, rows2. split; [reflexivity | now apply String.eqb_eq].
    + destruct (IH H) as (rows1 & row' & next & rows2 & -> & Hid).
      now exists (row :: rows1), row', next, rows2.
  - intros (rows1 & row & next & rows2 & -> & Hid).
    induction rows1 as [| r rows1 IH].
    + cbn [app shadowed]. rewrite Hid. reflexivity.
    + cbn [app shadowed]. cbn [app] in IH. rewrite IH. apply orb_true_r.
Qed.

Lemma getCitationsForPaper_spec (rows : list Row) :
  getCitationsForPaper rows
  = if shadowed rows then Threw TypeError
    else Returned (values (entries_of (named rows))).
Proof.
  unfold getCitationsForPaper. rewrite aggregate_spec.
  now destruct (shadowed rows).
Qed.

Lemma length_entries (rows : list Row) :
  List.length (values (entries_of rows))
  = List.length (first_occurrences (map citation_id rows)).
Proof.
  unfold values. rewrite length_map.
  rewrite <- (length_map fst). apply Permutation_length.
  apply NoDup_Permutation.
  - apply NoDup_keys_entries_from. constructor.
  - apply NoDup_first_occurrences.
  - intros k. unfold entries_of. fold (keys (entries_from [] rows)).
    rewrite In_keys_entries_from, In_first_occurrences. simpl. tauto.
Qed.

(** X2: for rows whose citation ids are neither [__proto__] nor
    [hasOwnProperty], the pass returns and the bounding boxes of every
    citation are in the order of their first appearance in the rows of that
    citation, a box being appended only when no earlier box of the citation
    is equal to it. *)
Theorem boxes_in_order_of_first_appearance (rows : list Row) :
  ordinary rows ->
  exists citations,
    aggregate rows = Returned citations
    /\ Forall (fun entry => bounding_boxes (snd entry)
                            = first_boxes (boxes_of (fst entry) rows))
              (own citations).
Proof.
  intros Hrows. destruct (aggregate_ordinary rows Hrows) as [Hagg _].
  eexists. split; [exact Hagg |]. cbn [own].
  apply Forall_forall. intros [k c] Hin.
  now apply (boxes_entries rows k c), entry_get.
Qed.

Lemma boxes_in_order_of_first_appearance_witness :
  exists citations,
    aggregate [fact_row "c1" "p1" box_11234; fact_row "c2" "p1" box_01234;
               fact_row "c1" "p2" box_01234; fact_row "c1" "p3" box_11234]
    = Returned citations
    /\ Forall (fun entry =>
                 bounding_boxes (snd entry)
                 = first_boxes
                     (boxes_of (fst entry)
                        [fact_row "c1" "p1" box_11234; fact_row "c2" "p1" box_01234;
                         fact_row "c1" "p2" box_01234; fact_row "c1" "p3" box_11234]))
              (own citations).
Proof.
  apply (boxes_in_order_of_first_appearance
           [fact_row "c1" "p1" box_11234; fact_row "c2" "p1" box_01234;
            fact_row "c1" "p2" box_01234; fact_row "c1" "p3" box_11234]).
  repeat constructor.
Defined.

(** X3: for rows whose citation ids are neither [__proto__] nor
    [hasOwnProperty], no fact is lost: for every row, the object has an
    entry for the citation of the row, which is in the array returned and
    holds the paper of the row and a box equal to the box of the row. *)
Theorem every_row_is_represented (rows : list Row) :
  ordinary rows ->
  exists citations returned,
    aggregate rows = Returned citations
    /\ getCitationsForPaper rows = Returned returned
    /\ Forall (fun row =>
                 exists c,
                   get (own citations) (citation_id row) = Some c
                   /\ In c returned
                   /\ In (cited_paper_id row) (papers c)
                   /\ exists b, In b (bounding_boxes c)
                                /\ box_equal b (bounding_box_of row))
              rows.
Proof.
  intros Hrows. destruct (aggregate_ordinary rows Hrows) as [Hagg Hget].
  eexists. eexists. split; [exact Hagg |]. split; [exact Hget |]. cbn [own].
  pose proof (all_absorbed [] rows) as H.
  eapply Forall_impl; [| exact H].
  intros row (c & Hc & Hp & Hb). exists c. repeat split; trivial.
  - unfold values.
    change c with (snd (citation_id row, c)). apply in_map.
    now apply get_Some_In.
  - apply existsb_exists in Hb. destruct Hb as (b & Hin & Heq).
    exists b. split; [assumption | now apply isEqual_box_equal].
Qed.

Lemma every_row_is_represented_witness :
  exists citations returned,
    aggregate [fact_row "c1" "p1" box_01234; fact_row "c2" "p1" box_negative_zero;
               fact_row "c1" "p2" box_01234]
    = Returned citations
    /\ getCitationsForPaper [fact_row "c1" "p1" box_01234;
                             fact_row "c2" "p1" box_negative_zero;
                             fact_row "c1" "p2" box_01234]
       = Returned returned
    /\ Forall (fun row =>
                 exists c,
                   get (own citations) (citation_id row) = Some c
                   /\ In c returned
                   /\ In (cited_paper_id row) (papers c)
                   /\ exists b, In b (bounding_boxes c)
                                /\ box_equal b (bounding_box_of row))
              [fact_row "c1" "p1" box_01234; fact_row "c2" "p1" box_negative_zero;
               fact_row "c1" "p2" box_01234].
Proof.
  apply (every_row_is_represented
           [fact_row "c1" "p1" box_01234; fact_row "c2" "p1" box_negative_zero;
            fact_row "c1" "p2" box_01234]).
  repeat constructor.
Defined.

(** X4: for rows whose citation ids are neither [__proto__] nor
    [hasOwnProperty], nothing is invented: every paper and every box stored
    for a citation is the paper, respectively the box, of a row of that
    citation. *)
Theorem every_fact_comes_from_a_row (rows : list Row) :
  ordinary rows ->
  exists citations,
    aggregate rows = Returned citations
    /\ getCitationsForPaper rows = Returned (values (own citations))
    /\ Forall (fun entry =>
                 Forall (fun paper =>
                           exists row, In row rows
                                       /\ citation_id row = fst entry
                                       /\ cited_paper_id row = paper)
                        (papers (snd entry))
                 /\ Forall (fun box =>
                              exists row, In row rows
                                          /\ citation_id row = fst entry
                                          /\ bounding_box_of row = box)
                           (bounding_boxes (snd entry)))
              (own citations).
Proof.
  intros Hrows. destruct (aggregate_ordinary rows Hrows) as [Hagg Hget].
  eexists. split; [exact Hagg |]. split; [exact Hget |]. cbn [own].
  apply Forall_forall. intros [k c] Hin. simpl.
  destruct (boxes_entries rows k c (entry_get _ _ _ Hin)) as (Hb & Hp & _).
  assert (Hrow : forall row, In row (rows_of k rows) ->
                             In row rows /\ citation_id row = k).
  { intros row Hrow. apply filter_In in Hrow. destruct Hrow as [H1 H2].
    split; [assumption | now apply String.eqb_eq]. }
  split; apply Forall_forall.
  - intros paper Hpaper. rewrite Hp in Hpaper.
    apply In_first_occurrences, in_map_iff in Hpaper.
    destruct Hpaper as (row & <- & Hin'). exists row.
    destruct (Hrow row Hin'). auto.
  - intros box Hbox. rewrite Hb in Hbox.
    apply In_first_boxes, in_map_iff in Hbox.
    destruct Hbox as (row & <- & Hin'). exists row.
    destruct (Hrow row Hin'). auto.
Qed.

Lemma every_fact_comes_from_a_row_witness :
  exists citations,
    aggregate [fact_row "c1" "p1" box_01234; fact_row "c2" "p1" box_11234;
               fact_row "c1" "p2" box_01234]
    = Returned citations
    /\ getCitationsForPaper [fact_row "c1" "p1" box_01234; fact_row "c2" "p1" box_11234;
                             fact_row "c1" "p2" box_01234]
       = Returned (values (own citations))
    /\ Forall (fun entry =>
                 Forall (fun paper =>
                           exists row,
                             In row [fact_row "c1" "p1" box_01234;
                                     fact_row "c2" "p1" box_11234;
                                     fact_row "c1" "p2" box_01234]
                             /\ citation_id row = fst entry
                             /\ cited_paper_id row = paper)
                        (papers (snd entry))
                 /\ Forall (fun box =>
                              exists row,
                                In row [fact_row "c1" "p1" box_01234;
                                        fact_row "c2" "p1" box_11234;
                                        fact_row "c1" "p2" box_01234]
                                /\ citation_id row = fst entry
                                /\ bounding_box_of row = box)
                           (bounding_boxes (snd entry)))
              (own citations).
Proof.
  apply (every_fact_comes_from_a_row
           [fact_row "c1" "p1" box_01234; fact_row "c2" "p1" box_11234;
            fact_row "c1" "p2" box_01234]).
  repeat constructor.
Defined.

Lemma rows_of_idem (k : string) (rows : list Row) :
  rows_of k (rows_of k rows) = rows_of k rows.
Proof.
  unfold rows_of. rewrite filter_filter. apply filter_ext. intros row.
  apply andb_diag.
Qed.

(** X5: for rows whose citation ids are neither [__proto__] nor
    [hasOwnProperty], the entry of a citation depends on the rows of that
    citation only, taken in their order: it is the entry obtained from these
    rows alone, and two row sequences that agree on the rows of a citation
    give it the same entry, however the rows of the other citations are
    interleaved. *)
Theorem entry_depends_on_own_rows (key : string) :
  (forall rows,
      ordinary rows ->
      exists citations citations',
        aggregate rows = Returned citations
        /\ aggregate (rows_of key rows) = Returned citations'
        /\ get (own citations) key = get (own citations') key)
  /\ (forall rows1 rows2,
        ordinary rows1 -> ordinary rows2 ->
        rows_of key rows1 = rows_of key rows2 ->
        exists citations1 citations2,
          aggregate rows1 = Returned citations1
          /\ aggregate rows2 = Returned citations2
          /\ get (own citations1) key = get (own citations2) key).
Proof.
  split.
  - intros rows Hrows.
    destruct (aggregate_ordinary rows Hrows) as [Hagg _].
    destruct (aggregate_ordinary _ (ordinary_rows_of key rows Hrows)) as [Hagg' _].
    eexists. eexists. split; [exact Hagg |]. split; [exact Hagg' |]. cbn [own].
    now rewrite !get_entries_own, rows_of_idem.
  - intros rows1 rows2 H1 H2 H.
    destruct (aggregate_ordinary rows1 H1) as [Hagg1 _].
    destruct (aggregate_ordinary rows2 H2) as [Hagg2 _].
    eexists. eexists. split; [exact Hagg1 |]. split; [exact Hagg2 |]. cbn [own].
    now rewrite !get_entries_own, H.
Qed.

Lemma entry_depends_on_own_rows_witness :
  (exists citations citations',
      aggregate [fact_row "c1" "p1" box_01234; fact_row "c2" "p9" box_11234;
                 fact_row "c1" "p2" box_11234]
      = Returned citations
      /\ aggregate (rows_of "c1" [fact_row "c1" "p1" box_01234;
                                  fact_row "c2" "p9" box_11234;
                                  fact_row "c1" "p2" box_11234])
         = Returned citations'
      /\ get (own citations) "c1" = get (own citations') "c1")
  /\ (exists citations1 citations2,
        aggregate [fact_row "c1" "p1" box_01234; fact_row "c2" "p9" box_11234;
                   fact_row "c1" "p2" box_11234]
        = Returned citations1
        /\ aggregate [fact_row "c3" "p7" box_nan; fact_row "c1" "p1" box_01234;
                      fact_row "c1" "p2" box_11234; fact_row "c2" "p9" box_11234]
           = Returned citations2
        /\ get (own citations1) "c1" = get (own citations2) "c1").
Proof.
  split.
  - apply (proj1 (entry_depends_on_own_rows "c1")). repeat constructor.
  - apply (proj2 (entry_depends_on_own_rows "c1")).
    + repeat constructor.
    + repeat constructor.
    + reflexivity.
Defined.

(** X6: for rows whose citation ids are neither [__proto__] nor
    [hasOwnProperty], every citation returned has at least one paper and one
    box, and at most as many of each as it has rows; there are at most as
    many citations as rows, and none exactly when there is no row. *)
Theorem citations_are_nonempty_and_bounded (rows : list Row) :
  ordinary rows ->
  exists citations returned,
    aggregate rows = Returned citations
    /\ getCitationsForPaper rows = Returned returned
    /\ returned = values (own citations)
    /\ Forall (fun entry =>
                 papers (snd entry) <> []
                 /\ bounding_boxes (snd entry) <> []
                 /\ List.length (papers (snd entry))
                    <= List.length (rows_of (fst entry) rows)
                 /\ List.length (bounding_boxes (snd entry))
                    <= List.length (rows_of (fst entry) rows))
              (own citations)
    /\ List.length returned <= List.length rows
    /\ (returned = [] <-> rows = []).
Proof.
  intros Hrows. destruct (aggregate_ordinary rows Hrows) as [Hagg Hget].
  eexists. eexists. split; [exact Hagg |]. split; [exact Hget |]. cbn [own].
  split; [reflexivity |]. split; [| split].
  - apply Forall_forall. intros [k c] Hin. simpl.
    destruct (boxes_entries rows k c (entry_get _ _ _ Hin)) as (Hb & Hp & Hne).
    rewrite Hb, Hp. unfold boxes_of, papers_of.
    destruct (rows_of k rows) as [| row own]; [congruence |].
    repeat split; try discriminate.
    + rewrite <- (length_map cited_paper_id (row :: own)).
      apply length_first_occurrences.
    + rewrite <- (length_map bounding_box_of (row :: own)).
      apply length_first_boxes.
  - rewrite length_entries, <- (length_map citation_id rows).
    apply length_first_occurrences.
  - split.
    + intros H. apply (f_equal (@List.length _)) in H.
      rewrite length_entries in H.
      destruct rows; [reflexivity | discriminate H].
    + now intros ->.
Qed.

Lemma citations_are_nonempty_and_bounded_witness :
  exists citations returned,
    aggregate [fact_row "c1" "p1" box_01234; fact_row "c2" "p1" box_11234;
               fact_row "c1" "p2" box_01234]
    = Returned citations
    /\ getCitationsForPaper [fact_row "c1" "p1" box_01234; fact_row "c2" "p1" box_11234;
                             fact_row "c1" "p2" box_01234]
       = Returned returned
    /\ returned = values (own citations)
    /\ Forall (fun entry =>
                 papers (snd entry) <> []
                 /\ bounding_boxes (snd entry) <> []
                 /\ List.length (papers (snd entry))
                    <= List.length
                         (rows_of (fst entry)
                            [fact_row "c1" "p1" box_01234; fact_row "c2" "p1" box_11234;
                             fact_row "c1" "p2" box_01234])
                 /\ List.length (bounding_boxes (snd entry))
                    <= List.length
                         (rows_of (fst entry)
                            [fact_row "c1" "p1" box_01234; fact_row "c2" "p1" box_11234;
                             fact_row "c1" "p2" box_01234]))
              (own citations)
    /\ List.length returned <= 3
    /\ (returned = []
        <-> [fact_row "c1" "p1" box_01234; fact_row "c2" "p1" box_11234;
             fact_row "c1" "p2" box_01234] = []).
Proof.
  apply (citations_are_nonempty_and_bounded
           [fact_row "c1" "p1" box_01234; fact_row "c2" "p1" box_11234;
            fact_row "c1" "p2" box_01234]).
  repeat constructor.
Defined.

(** X7: for rows whose citation ids are neither [__proto__] nor
    [hasOwnProperty], a row that occurred before adds nothing: removing a
    later copy of a row changes neither the object nor the array
    returned. *)
Theorem repeated_row_adds_nothing (rows1 rows2 : list Row) (row : Row) :
  ordinary (rows1 ++ rows2) ->
  In row rows1 ->
  exists citations,
    aggregate (rows1 ++ row :: rows2) = Returned citations
    /\ aggregate (rows1 ++ rows2) = Returned citations
    /\ getCitationsForPaper (rows1 ++ row :: rows2) = Returned (values (own citations))
    /\ getCitationsForPaper (rows1 ++ rows2) = Returned (values (own citations)).
Proof.
  intros Hrows Hin.
  assert (Hrows' : ordinary (rows1 ++ row :: rows2)).
  { apply ordinary_app in Hrows. destruct Hrows as [H1 H2].
    apply ordinary_app. split; [exact H1 |]. constructor; [| exact H2].
    unfold ordinary in H1. rewrite Forall_forall in H1. now apply H1. }
  assert (H : entries_of (rows1 ++ row :: rows2) = entries_of (rows1 ++ rows2)).
  { unfold entries_of. rewrite !entries_from_app.
    change (entries_from (entries_from [] rows1) (row :: rows2))
      with (entries_from (step_entries (entries_from [] rows1) row) rows2).
    rewrite absorbed_step_entries_id; [reflexivity |].
    pose proof (all_absorbed [] rows1) as Hall.
    rewrite Forall_forall in Hall. now apply Hall. }
  destruct (aggregate_ordinary _ Hrows) as [Hagg Hget].
  destruct (aggregate_ordinary _ Hrows') as [Hagg' Hget'].
  rewrite H in Hagg', Hget'.
  eexists. split; [exact Hagg' |]. split; [exact Hagg |]. cbn [own].
  split; assumption.
Qed.

Lemma repeated_row_adds_nothing_witness :
  exists citations,
    aggregate ([fact_row "c1" "p1" box_01234; fact_row "c2" "p1" box_11234]
               ++ fact_row "c1" "p1" box_01234 :: [fact_row "c1" "p2" box_nan])
    = Returned citations
    /\ aggregate ([fact_row "c1" "p1" box_01234; fact_row "c2" "p1" box_11234]
                  ++ [fact_row "c1" "p2" box_nan])
       = Returned citations
    /\ getCitationsForPaper
         ([fact_row "c1" "p1" box_01234; fact_row "c2" "p1" box_11234]
          ++ fact_row "c1" "p1" box_01234 :: [fact_row "c1" "p2" box_nan])
       = Returned (values (own citations))
    /\ getCitationsForPaper
         ([fact_row "c1" "p1" box_01234; fact_row "c2" "p1" box_11234]
          ++ [fact_row "c1" "p2" box_nan])
       = Returned (values (own citations)).
Proof.
  apply (repeated_row_adds_nothing
           [fact_row "c1" "p1" box_01234; fact_row "c2" "p1" box_11234]
           [fact_row "c1" "p2" box_nan] (fact_row "c1" "p1" box_01234)).
  - repeat constructor.
  - left. reflexivity.
Defined.

(** X8: the two insertions are idempotent and commute with each other:
    [add_paper] reads and writes the papers only, [add_bounding_box] the
    boxes only. *)
Theorem insertions_idempotent_and_commute (c : Citation) (s2Id : string) (box : BoundingBox) :
  add_paper (add_paper c s2Id) s2Id = add_paper c s2Id
  /\ add_bounding_box (add_bounding_box c box) box = add_bounding_box c box
  /\ add_bounding_box (add_paper c s2Id) box = add_paper (add_bounding_box c box) s2Id
  /\ bounding_boxes (add_paper c s2Id) = bounding_boxes c
  /\ papers (add_bounding_box c box) = papers c.
Proof.
  split; [| split; [| split; [| split]]].
  - apply add_paper_present. rewrite papers_add_paper.
    destruct (existsb _ (papers c)) eqn:H.
    + now apply existsb_eqb_In.
    + apply in_or_app. right. now left.
  - apply add_bounding_box_present. rewrite boxes_add_bounding_box. unfold some.
    destruct (existsb _ (bounding_boxes c)) eqn:H; [assumption |].
    rewrite existsb_app. simpl. now rewrite isEqual_refl, orb_true_r.
  - unfold add_bounding_box, add_paper.
    destruct (indexOf (papers c) s2Id =? -1)%Z eqn:Hp,
             (negb (some (fun b => isEqual b box) (bounding_boxes c))) eqn:Hb;
      cbn [papers bounding_boxes]; rewrite ?Hp, ?Hb; reflexivity.
  - apply boxes_add_paper.
  - apply papers_add_bounding_box.
Qed.



(** X20: the rows of one citation, of an id other than [__proto__] and
    [hasOwnProperty], that differ in the paper only and repeat one box give
    one citation with that single box and the papers in the order of their
    first occurrence. *)
Theorem one_box_for_repeated_box
    (key : string) (box : BoundingBox) (paper : string) (others : list string) :
  ordinary_id key = true ->
  getCitationsForPaper (map (fun p => fact_row key p box) (paper :: others))
  = Returned [{| bounding_boxes := [box];
                 papers := first_occurrences (paper :: others) |}].
Proof.
  intros Hkey.
  set (rows := map (fun p => fact_row key p box) others).
  change (map (fun p => fact_row key p box) (paper :: others))
    with (fact_row key paper box :: rows).
  assert (Hid : Forall (fun row => citation_id row = key) rows).
  { apply Forall_forall. intros row Hrow. apply in_map_iff in Hrow.
    now destruct Hrow as [p [<- _]]. }
  assert (Hbox : Forall (fun row => bounding_box_of row = box) rows).
  { apply Forall_forall. intros row Hrow. apply in_map_iff in Hrow.
    destruct Hrow as [p [<- _]]. apply bounding_box_of_fact_row. }
  assert (Hord : ordinary (fact_row key paper box :: rows)).
  { constructor; [exact Hkey |]. eapply Forall_impl; [| exact Hid].
    now intros row ->. }
  destruct (aggregate_ordinary _ Hord) as [_ ->]. f_equal.
  rewrite entries_single by exact Hid.
  cbn [citation_id fact_row values map snd]. f_equal.
  set (c := fold_left merge_row (fact_row key paper box :: rows) empty_citation).
  assert (Hp : papers c = first_occurrences (paper :: others)).
  { unfold c. rewrite papers_fold_merge_row_empty. cbn [map cited_paper_id fact_row].
    unfold rows. rewrite map_map. cbn [cited_paper_id fact_row]. now rewrite map_id. }
  assert (Hb : bounding_boxes c = [box]).
  { unfold c. cbn [fold_left].
    assert (H1 : bounding_boxes (merge_row empty_citation (fact_row key paper box)) = [box]).
    { rewrite boxes_merge_row. cbn [some existsb bounding_boxes empty_citation].
      now rewrite bounding_box_of_fact_row. }
    rewrite (boxes_fold_same_box rows box); [exact H1 | exact Hbox |].
    rewrite H1. simpl. now rewrite isEqual_refl. }
  destruct c as [bs ps]. simpl in Hp, Hb. now subst.
Qed.

Lemma one_box_for_repeated_box_witness :
  getCitationsForPaper (map (fun p => fact_row "c1" p box_01234) ["p1"; "p2"; "p1"])
  = Returned [{| bounding_boxes := [box_01234];
                 papers := first_occurrences ["p1"; "p2"; "p1"] |}].
Proof.
  apply (one_box_for_repeated_box "c1" box_01234 "p1" ["p2"; "p1"]). reflexivity.
Defined.

(** X21: for rows whose citation ids are neither [__proto__] nor
    [hasOwnProperty], the papers of every citation are in the order of their
    first appearance in the rows of that citation, each paper being appended
    on its first occurrence only; rows of one such citation that cite the
    distinct papers P1, P2, P1, P3 in that order give exactly
    [P1; P2; P3]. *)
Theorem papers_in_order_of_first_appearance :
  (forall rows : list Row,
      ordinary rows ->
      exists citations,
        aggregate rows = Returned citations
        /\ getCitationsForPaper rows = Returned (values (own citations))
        /\ Forall (fun entry => papers (snd entry)
                                = first_occurrences (papers_of (fst entry) rows))
                  (own citations))
  /\ (forall (key P1 P2 P3 : string) (b1 b2 b3 b4 : BoundingBox),
        ordinary_id key = true ->
        P1 <> P2 -> P1 <> P3 -> P2 <> P3 ->
        exists citation,
          getCitationsForPaper [fact_row key P1 b1; fact_row key P2 b2;
                                fact_row key P1 b3; fact_row key P3 b4]
          = Returned [citation]
          /\ papers citation = [P1; P2; P3]).
Proof.
  split.
  - intros rows Hrows. destruct (aggregate_ordinary rows Hrows) as [Hagg Hget].
    eexists. split; [exact Hagg |]. split; [exact Hget |]. cbn [own].
    apply Forall_forall. intros [k c] Hin. simpl.
    now destruct (boxes_entries rows k c (entry_get _ _ _ Hin)) as (_ & Hp & _).
  - intros key P1 P2 P3 b1 b2 b3 b4 Hkey H12 H13 H23.
    set (rows := [fact_row key P1 b1; fact_row key P2 b2;
                  fact_row key P1 b3; fact_row key P3 b4]).
    assert (Hord : ordinary rows) by (repeat constructor; exact Hkey).
    destruct (aggregate_ordinary rows Hord) as [_ ->].
    unfold rows. rewrite entries_single by (repeat constructor).
    cbn [values map snd]. eexists. split; [reflexivity |].
    rewrite papers_fold_merge_row_empty.
    cbn [map cited_paper_id fact_row].
    apply String.eqb_neq in H12, H13, H23.
    pose proof (String.eqb_sym P2 P1) as H21. rewrite H12 in H21.
    pose proof (String.eqb_sym P3 P1) as H31. rewrite H13 in H31.
    pose proof (String.eqb_sym P3 P2) as H32. rewrite H23 in H32.
    repeat (cbn [first_occurrences filter negb];
            rewrite ?String.eqb_refl, ?H12, ?H13, ?H23, ?H21, ?H31, ?H32).
    reflexivity.
Qed.

Lemma papers_in_order_of_first_appearance_witness :
  (exists citations,
      aggregate [fact_row "c1" "P1" box_01234; fact_row "c2" "P2" box_11234;
                 fact_row "c1" "P3" box_11234]
      = Returned citations
      /\ getCitationsForPaper [fact_row "c1" "P1" box_01234; fact_row "c2" "P2" box_11234;
                               fact_row "c1" "P3" box_11234]
         = Returned (values (own citations))
      /\ Forall (fun entry =>
                   papers (snd entry)
                   = first_occurrences
                       (papers_of (fst entry)
                          [fact_row "c1" "P1" box_01234; fact_row "c2" "P2" box_11234;
                           fact_row "c1" "P3" box_11234]))
                (own citations))
  /\ (exists citation,
        getCitationsForPaper [fact_row "c1" "P1" box_01234; fact_row "c1" "P2" box_11234;
                              fact_row "c1" "P1" box_11234; fact_row "c1" "P3" box_01234]
        = Returned [citation]
        /\ papers citation = ["P1"; "P2"; "P3"]).
Proof.
  split.
  - apply (proj1 papers_in_order_of_first_appearance). repeat constructor.
  - apply (proj2 papers_in_order_of_first_appearance);
      [reflexivity | discriminate | discriminate | discriminate].
Defined.

(** X22: for rows whose citation ids are neither [__proto__] nor
    [hasOwnProperty], the pass returns, running the loop again on the same
    rows from the object it produced changes nothing, and the same
    (citation, paper) pair fed any number of times leaves exactly one entry
    in the papers of that citation. *)
Theorem second_pass_changes_nothing :
  (forall rows : list Row,
      ordinary rows ->
      exists citations,
        aggregate rows = Returned citations
        /\ aggregate_from citations rows = Returned citations)
  /\ (forall (key paper : string) (box : BoundingBox) (boxes : list BoundingBox),
        ordinary_id key = true ->
        exists citations citation,
          aggregate (map (fact_row key paper) (box :: boxes)) = Returned citations
          /\ get (own citations) key = Some citation
          /\ papers citation = [paper]).
Proof.
  split.
  - intros rows Hrows. destruct (aggregate_ordinary rows Hrows) as [Hagg _].
    eexists. split; [exact Hagg |].
    rewrite (aggregate_from_ordinary rows rows Hrows Hrows).
    now rewrite entries_from_absorbed by apply all_absorbed.
  - intros key paper box boxes Hkey.
    set (rows := map (fact_row key paper) (box :: boxes)).
    assert (Hown : rows_of key rows = rows).
    { unfold rows_of. rewrite <- (filter_true rows) at 2.
      apply filter_ext_in. intros row Hrow. apply in_map_iff in Hrow.
      destruct Hrow as [b [<- _]]. apply String.eqb_refl. }
    assert (Hord : ordinary rows).
    { apply Forall_forall. intros row Hrow. apply in_map_iff in Hrow.
      now destruct Hrow as [b [<- _]]. }
    destruct (aggregate_ordinary rows Hord) as [Hagg _].
    pose proof (papers_entries rows key) as Hp. rewrite Hown in Hp.
    destruct (get (entries_of rows) key) as [c |] eqn:Hc; [| discriminate Hp].
    eexists. exists c. split; [exact Hagg |]. cbn [own]. split; [exact Hc |].
    unfold rows in Hp. cbn [map option_map] in Hp.
    assert (E : papers c
                = first_occurrences
                    (map cited_paper_id (fact_row key paper box
                                         :: map (fact_row key paper) boxes)))
      by (now injection Hp).
    rewrite E. clear. cbn [map cited_paper_id fact_row first_occurrences]. f_equal.
    induction boxes as [| b boxes IH]; [reflexivity |].
    cbn [map first_occurrences filter cited_paper_id fact_row].
    rewrite String.eqb_refl. cbn [negb]. now rewrite IH.
Qed.

Lemma second_pass_changes_nothing_witness :
  (exists citations,
      aggregate two_papers_one_box = Returned citations
      /\ aggregate_from citations two_papers_one_box = Returned citations)
  /\ (exists citations citation,
        aggregate (map (fact_row "c1" "p1") [box_01234; box_11234; box_01234])
        = Returned citations
        /\ get (own citations) "c1" = Some citation
        /\ papers citation = ["p1"]).
Proof.
  split.
  - apply (proj1 second_pass_changes_nothing). repeat constructor.
  - apply (proj2 second_pass_changes_nothing "c1" "p1" box_01234 [box_11234; box_01234]).
    reflexivity.
Defined.

(** X23: for rows whose citation ids are neither [__proto__] nor
    [hasOwnProperty], at every step of the pass (after any prefix [rows1] of
    the rows) the keys of the object are unique and every stored citation
    has no paper twice and no two boxes equal on all fields; an entry, once
    created, is in the object at every later step (after [rows1 ++ rows2]),
    with arrays that have only been appended to. *)
Theorem invariant_at_every_step (rows1 rows2 : list Row) :
  ordinary (rows1 ++ rows2) ->
  exists citations1 citations2,
    aggregate rows1 = Returned citations1
    /\ aggregate_from citations1 rows2 = Returned citations2
    /\ aggregate (rows1 ++ rows2) = Returned citations2
    /\ NoDup (keys (own citations1))
    /\ Forall (fun entry => deduplicated (snd entry)) (own citations1)
    /\ Forall (fun entry =>
                 exists later,
                   get (own citations2) (fst entry) = Some later
                   /\ grown (snd entry) later)
              (own citations1).
Proof.
  intros Hrows. pose proof Hrows as Hboth.
  apply ordinary_app in Hboth. destruct Hboth as [H1 H2].
  destruct (aggregate_ordinary rows1 H1) as [Hagg1 _].
  destruct (aggregate_ordinary _ Hrows) as [Hagg2 _].
  assert (E : entries_of (rows1 ++ rows2) = entries_from (entries_of rows1) rows2)
    by (unfold entries_of; now rewrite entries_from_app).
  eexists. eexists. split; [exact Hagg1 |].
  split; [rewrite (aggregate_from_ordinary rows1 rows2 H1 H2), <- E; reflexivity |].
  split; [exact Hagg2 |]. cbn [own].
  assert (Hnd : NoDup (keys (entries_of rows1)))
    by (apply NoDup_keys_entries_from; constructor).
  split; [assumption |].
  split; apply Forall_forall; intros [k c] Hin; simpl;
    apply (In_get_NoDup _ _ _ Hnd) in Hin.
  - now apply (deduplicated_entries rows1 k).
  - rewrite E. now apply grown_entries_from.
Qed.

Lemma invariant_at_every_step_witness :
  exists citations1 citations2,
    aggregate [fact_row "c1" "p1" box_01234; fact_row "c2" "p1" box_11234]
    = Returned citations1
    /\ aggregate_from citations1 [fact_row "c1" "p2" box_nan; fact_row "c3" "p1" box_01234]
       = Returned citations2
    /\ aggregate ([fact_row "c1" "p1" box_01234; fact_row "c2" "p1" box_11234]
                  ++ [fact_row "c1" "p2" box_nan; fact_row "c3" "p1" box_01234])
       = Returned citations2
    /\ NoDup (keys (own citations1))
    /\ Forall (fun entry => deduplicated (snd entry)) (own citations1)
    /\ Forall (fun entry =>
                 exists later,
                   get (own citations2) (fst entry) = Some later
                   /\ grown (snd entry) later)
              (own citations1).
Proof.
  apply (invariant_at_every_step
           [fact_row "c1" "p1" box_01234; fact_row "c2" "p1" box_11234]
           [fact_row "c1" "p2" box_nan; fact_row "c3" "p1" box_01234]).
  repeat constructor.
Defined.

(** X24: what [getCitationsForPaper] does on every sequence of rows.  It
    throws a TypeError exactly when a row of citation id [hasOwnProperty] is
    followed by another row.  Otherwise it returns, the rows of citation id
    [__proto__] contribute nothing to the array returned, and there is one
    citation per distinct id among the other rows. *)
Theorem aggregation_on_every_input (rows : list Row) :
  (getCitationsForPaper rows = Threw TypeError
   <-> exists rows1 row next rows2,
         rows = rows1 ++ row :: next :: rows2
         /\ citation_id row = "hasOwnProperty")
  /\ (getCitationsForPaper rows <> Threw TypeError ->
      exists returned,
        getCitationsForPaper rows = Returned returned
        /\ getCitationsForPaper (named rows) = Returned returned
        /\ List.length returned
           = List.length (first_occurrences (map citation_id (named rows)))).
Proof.
  rewrite <- shadowed_split, !getCitationsForPaper_spec.
  destruct (shadowed rows) eqn:Hs.
  - split; [tauto | contradiction].
  - split; [split; discriminate |]. intros _.
    rewrite (shadowed_named rows Hs), named_named.
    eexists. split; [reflexivity |]. split; [reflexivity |].
    apply length_entries.
Qed.

Lemma aggregation_on_every_input_witness :
  getCitationsForPaper [fact_row "c1" "p1" box_01234;
                        fact_row "hasOwnProperty" "p2" box_01234;
                        fact_row "c2" "p3" box_01234]
  = Threw TypeError
  /\ exists returned,
       getCitationsForPaper [fact_row "__proto__" "p1" box_01234;
                             fact_row "c1" "p2" box_01234;
                             fact_row "hasOwnProperty" "p3" box_01234]
       = Returned returned
       /\ getCitationsForPaper (named [fact_row "__proto__" "p1" box_01234;
                                       fact_row "c1" "p2" box_01234;
                                       fact_row "hasOwnProperty" "p3" box_01234])
          = Returned returned
       /\ List.length returned
          = List.length (first_occurrences
                           (map citation_id
                              (named [fact_row "__proto__" "p1" box_01234;
                                      fact_row "c1" "p2" box_01234;
                                      fact_row "hasOwnProperty" "p3" box_01234]))).
Proof.
  split.
  - apply (proj1 (aggregation_on_every_input
                    [fact_row "c1" "p1" box_01234;
                     fact_row "hasOwnProperty" "p2" box_01234;
                     fact_row "c2" "p3" box_01234])).
    exists [fact_row "c1" "p1" box_01234], (fact_row "hasOwnProperty" "p2" box_01234),
           (fact_row "c2" "p3" box_01234), [].
    split; reflexivity.
  - apply (proj2 (aggregation_on_every_input
                    [fact_row "__proto__" "p1" box_01234;
                     fact_row "c1" "p2" box_01234;
                     fact_row "hasOwnProperty" "p3" box_01234])).
    discriminate.
Defined.

End AggregationMore.
(* ===================================================================== *)
(** * More on fetching paper metadata *)
(* ===================================================================== *)

Module FetchMore.

Import JS JSFacts S2Api FetchSpec BatchSpec BodyFacts.

Section Batch.

Variable isS2ApiResponseSuccess : AxiosResponse -> bool.
Variable axios_get : nat -> string -> AxiosError + AxiosResponse.

Local Abbreviation getPaper := (getPaper isS2ApiResponseSuccess axios_get).
Local Abbreviation getPapers := (getPapers isS2ApiResponseSuccess axios_get).
Local Abbreviation resolves_at :=
  (fun request : nat * string =>
     resolves isS2ApiResponseSuccess (axios_get (fst request) (url_of (snd request)))).

(** X9: the batch is rejected, with a TypeError, exactly when for some
    identifier the guard accepts a response whose body is not well formed: a
    body that is [undefined] or [null], whose year has no string, that has
    no array under [authors], or whose authors have a [null] entry or a name
    without a string.  In every other case the batch is fulfilled, whatever
    requests fail, with the papers of the identifiers that resolved. *)
Theorem getPapers_rejected_iff (s2Ids : list string) :
  (getPapers s2Ids = Rejected TypeError
   <-> exists k s2Id response,
         nth_error s2Ids k = Some s2Id
         /\ axios_get k (url_of s2Id) = inr response
         /\ isS2ApiResponseSuccess response = true
         /\ well_formed (data response) = false)
  /\ ((exists papers, getPapers s2Ids = Fulfilled papers
                      /\ map Paper.s2Id papers
                         = resolved isS2ApiResponseSuccess axios_get s2Ids)
      <-> forall k s2Id response,
            nth_error s2Ids k = Some s2Id ->
            axios_get k (url_of s2Id) = inr response ->
            isS2ApiResponseSuccess response = true ->
            well_formed (data response) = true).
Proof.
  assert (Hin : forall k s2Id, In (k, s2Id) (requests_from 0 s2Ids)
                               <-> nth_error s2Ids k = Some s2Id).
  { intros k s2Id.
    assert (H : forall start, In (k, s2Id) (requests_from start s2Ids)
                              <-> exists i, k = start + i
                                            /\ nth_error s2Ids i = Some s2Id).
    { induction s2Ids as [| id ids IH]; intros start; cbn [requests_from In].
      - split; [intros [] | intros (i & _ & Hi); now destruct i].
      - rewrite IH. split.
        + intros [[= <- <-] | (i & -> & Hi)].
          * exists 0. split; [lia | reflexivity].
          * exists (S i). split; [lia | exact Hi].
        + intros ([| i] & -> & Hi).
          * left. cbn in Hi. injection Hi as ->. f_equal. lia.
          * right. exists i. split; [lia | exact Hi]. }
    rewrite H. split.
    - now intros (i & -> & Hi).
    - intros Hk. now exists k. }
  set (poisoned := fun request : nat * string =>
                     accepted_unshaped isS2ApiResponseSuccess
                       (axios_get (fst request) (url_of (snd request)))).
  assert (Hpoisoned :
            existsb poisoned (requests_from 0 s2Ids) = true
            <-> exists k s2Id response,
                  nth_error s2Ids k = Some s2Id
                  /\ axios_get k (url_of s2Id) = inr response
                  /\ isS2ApiResponseSuccess response = true
                  /\ well_formed (data response) = false).
  { rewrite existsb_exists. split.
    - intros ([k s2Id] & Hreq & H). apply Hin in Hreq.
      unfold poisoned, accepted_unshaped in H. cbn [fst snd] in H.
      destruct (axios_get k (url_of s2Id)) as [err | response] eqn:Hget;
        [discriminate |].
      apply andb_true_iff in H. destruct H as [Hok Hwf].
      apply negb_true_iff in Hwf. now exists k, s2Id, response.
    - intros (k & s2Id & response & Hk & Hget & Hok & Hwf).
      exists (k, s2Id). split; [now apply Hin |].
      unfold poisoned, accepted_unshaped. cbn [fst snd].
      now rewrite Hget, Hok, Hwf. }
  rewrite (Fetch.getPapers_cases isS2ApiResponseSuccess axios_get s2Ids).
  fold poisoned. destruct (existsb poisoned (requests_from 0 s2Ids)) eqn:Hp.
  - split.
    + split; [intros _; now apply Hpoisoned | reflexivity].
    + split.
      * intros (papers & H & _). discriminate H.
      * intros Hall. destruct (proj1 Hpoisoned eq_refl)
          as (k & s2Id & response & Hk & Hget & Hok & Hwf).
        rewrite (Hall k s2Id response Hk Hget Hok) in Hwf. discriminate Hwf.
  - split.
    + split; [discriminate |]. intros H. apply Hpoisoned in H. discriminate H.
    + split.
      * intros _ k s2Id response Hk Hget Hok.
        destruct (well_formed (data response)) eqn:Hwf; [reflexivity |].
        assert (H : false = true); [| discriminate H].
        apply Hpoisoned. now exists k, s2Id, response.
      * intros _. eexists. split; [reflexivity |].
        apply Fetch.map_s2Id_papers_from.
Qed.

Lemma map_snd_requests_from (k : nat) (s2Ids : list string) :
  map snd (requests_from k s2Ids) = s2Ids.
Proof.
  revert k. induction s2Ids as [| s2Id s2Ids IH]; intros k; simpl;
    [reflexivity | now rewrite IH].
Qed.


Lemma In_filter_defined {A : Type} (results : list (option A)) (x : A) :
  In x (filter_defined results) <-> In (Some x) results.
Proof.
  induction results as [| [y |] results IH]; simpl.
  - reflexivity.
  - rewrite IH. split; intros [H | H]; auto; left; congruence.
  - rewrite IH. split; [auto | intros [H | H]; [discriminate | assumption]].
Qed.

Lemma fulfilled_sources (s2Ids : list string) (k : nat) (results : list (option Paper.t)) :
  Promise_all (map_from (fun s2Id k => getPaper k s2Id) k s2Ids) = Fulfilled results ->
  forall paper, In (Some paper) results ->
    exists i s2Id,
      nth_error s2Ids i = Some s2Id
      /\ getPaper (k + i) s2Id = Fulfilled (Some paper).
Proof.
  revert k results. induction s2Ids as [| s2Id s2Ids IH]; intros k results.
  - intros [= <-] paper [].
  - cbn [map_from Promise_all].
    destruct (getPaper k s2Id) as [result |] eqn:Hone; [| discriminate].
    cbn [then_].
    destruct (Promise_all _) as [results' |] eqn:Hall; [| discriminate].
    cbn [then_]. intros [= <-] paper [-> | Hin].
    + exists 0, s2Id. split; [reflexivity |]. now rewrite Nat.add_0_r.
    + destruct (IH (S k) results' Hall paper Hin) as (i & id & Hnth & Hget).
      exists (S i), id. split; [exact Hnth |].
      now rewrite Nat.add_succ_r.
Qed.

(** X11: every paper of a fulfilled batch is built from the response to the
    request made for its own identifier, which the guard accepted: the
    title, abstract, url and venue are what the body of that response has
    under these names, the authors are the strings of the names of its
    authors joined by a comma and a space, and the year is computed from the
    string of its year.  When the body has the shape of a successful
    response, these are its title, abstract, url and venue, the names of its
    authors, and the year read from its year. *)
Theorem papers_come_from_their_responses (s2Ids : list string) (papers : list Paper.t) :
  getPapers s2Ids = Fulfilled papers ->
  Forall (fun paper =>
            exists i response,
              nth_error s2Ids i = Some (Paper.s2Id paper)
              /\ axios_get i (url_of (Paper.s2Id paper)) = inr response
              /\ isS2ApiResponseSuccess response = true
              /\ Paper.title paper = field (data response) "title"
              /\ Paper.authors paper
                 = String.concat ", "
                     (map (fun author => name_string (field author "name"))
                          (authors_of (data response)))
              /\ Paper.abstract paper = field (data response) "abstract"
              /\ Paper.url paper = field (data response) "url"
              /\ Paper.venue paper = field (data response) "venue"
              /\ Paper.year paper
                 = year_of (string_of (field (data response) "year"))
              /\ forall data,
                   as_paper (S2Api.data response) = Some data ->
                   Paper.title paper = Str (S2ApiPaper.title data)
                   /\ Paper.authors paper
                      = String.concat ", " (map Author.name (S2ApiPaper.authors data))
                   /\ Paper.abstract paper = nullable (S2ApiPaper.abstract data)
                   /\ Paper.url paper = Str (S2ApiPaper.url data)
                   /\ Paper.venue paper = nullable (S2ApiPaper.venue data)
                   /\ Paper.year paper = year_of (S2ApiPaper.year data))
         papers.
Proof.
  unfold S2Api.getPapers.
  destruct (Promise_all _) as [results |] eqn:Hall; [| discriminate].
  cbn [then_]. intros [= <-]. apply Forall_forall. intros paper Hin.
  apply In_filter_defined in Hin.
  destruct (fulfilled_sources s2Ids 0 results Hall paper Hin) as (i & s2Id & Hnth & Hget).
  cbn [Nat.add] in Hget. rewrite getPaper_cases in Hget.
  destruct (axios_get i (url_of s2Id)) as [err | response] eqn:Hnet; [discriminate |].
  destruct (isS2ApiResponseSuccess response) eqn:Hok; [| discriminate].
  destruct (well_formed (data response)); [| discriminate].
  assert (E : paper = paper_of s2Id (data response)) by (now injection Hget).
  subst paper. cbn [paper_of Paper.s2Id Paper.title Paper.authors Paper.abstract
                    Paper.url Paper.venue Paper.year].
  exists i, response. rewrite Hnet. repeat (split; [trivial; reflexivity |]).
  intros data Hdata. destruct (as_paper_spec s2Id _ _ Hdata) as [_ Hpaper].
  unfold paper_of in Hpaper. injection Hpaper as H1 H2 H3 H4 H5 H6.
  repeat split; assumption.
Qed.

End Batch.

Lemma getPaper_ext (guard : AxiosResponse -> bool)
    (service1 service2 : nat -> string -> AxiosError + AxiosResponse)
    (k : nat) (s2Id : string) :
  service1 k (url_of s2Id) = service2 k (url_of s2Id) ->
  getPaper guard service1 k s2Id = getPaper guard service2 k s2Id.
Proof. unfold getPaper. fold (url_of s2Id). now intros ->. Qed.


(** A list of authors with a [null] entry rejects the batch although the
    body has an array of authors; a body with an empty array of authors and
    no other field gives a paper. *)
Example null_author_rejects_the_batch :
  well_formed null_author_body = false
  /\ getPaper is_2xx (fun _ _ => inr {| status := 200; data := null_author_body |}) 0 "N"
     = Rejected TypeError
  /\ well_formed authors_only_body = true
  /\ getPaper is_2xx (fun _ _ => inr {| status := 200; data := authors_only_body |}) 0 "E"
     = Fulfilled (Some {| Paper.s2Id := "E"; Paper.title := Undefined;
                          Paper.authors := ""; Paper.abstract := Undefined;
                          Paper.url := Undefined; Paper.venue := Undefined;
                          Paper.year := None |}).
Proof. repeat split. Qed.

Lemma getPapers_rejected_iff_witness :
  getPapers success_with_authors service_null_author ["A"; "N"; "C"] = Rejected TypeError
  /\ exists papers,
       getPapers shaped_success service_failing_for_B ["A"; "B"; "D"; "C"]
       = Fulfilled papers
       /\ map Paper.s2Id papers
          = resolved shaped_success service_failing_for_B ["A"; "B"; "D"; "C"].
Proof.
  split.
  - apply (proj1 (getPapers_rejected_iff success_with_authors service_null_author
                    ["A"; "N"; "C"])).
    exists 1, "N", {| status := 200; data := null_author_body |}.
    repeat split.
  - apply (proj2 (getPapers_rejected_iff shaped_success service_failing_for_B
                    ["A"; "B"; "D"; "C"])).
    intros k s2Id response Hk Hget Hok.
    do 4 (destruct k as [| k];
          [cbn in Hk; injection Hk as <-; cbn in Hget;
           first [discriminate Hget
                 | injection Hget as <-; first [discriminate Hok | reflexivity]] |]).
    destruct k; discriminate Hk.
Defined.


Lemma papers_come_from_their_responses_witness :
  Forall (fun paper =>
            exists i response,
              nth_error ["A"; "B"; "C"] i = Some (Paper.s2Id paper)
              /\ service_failing_for_B i (url_of (Paper.s2Id paper)) = inr response
              /\ shaped_success response = true
              /\ Paper.title paper = field (data response) "title"
              /\ Paper.authors paper
                 = String.concat ", "
                     (map (fun author => name_string (field author "name"))
                          (authors_of (data response)))
              /\ Paper.abstract paper = field (data response) "abstract"
              /\ Paper.url paper = field (data response) "url"
              /\ Paper.venue paper = field (data response) "venue"
              /\ Paper.year paper
                 = year_of (string_of (field (data response) "year"))
              /\ forall data,
                   as_paper (S2Api.data response) = Some data ->
                   Paper.title paper = Str (S2ApiPaper.title data)
                   /\ Paper.authors paper
                      = String.concat ", " (map Author.name (S2ApiPaper.authors data))
                   /\ Paper.abstract paper = nullable (S2ApiPaper.abstract data)
                   /\ Paper.url paper = Str (S2ApiPaper.url data)
                   /\ Paper.venue paper = nullable (S2ApiPaper.venue data)
                   /\ Paper.year paper = year_of (S2ApiPaper.year data))
         [paper_for "A"; paper_for "C"].
Proof.
  apply (papers_come_from_their_responses shaped_success service_failing_for_B
           ["A"; "B"; "C"]).
  reflexivity.
Defined.


End FetchMore.

(* ===================================================================== *)
(** * The drawer and the class of the PDF viewer *)
(* ===================================================================== *)

Module DrawerFacts.

Import JSFacts DOM Drawer.

Lemma contains_In (l : DOMTokenList) (t : string) : contains l t = true <-> In t l.
Proof. apply existsb_eqb_In. Qed.

Lemma contains_add (l : DOMTokenList) (t : string) : contains (add l t) t = true.
Proof.
  unfold add. destruct (contains l t) eqn:H; [assumption |].
  apply contains_In, in_or_app. right. now left.
Qed.

Lemma contains_remove (l : DOMTokenList) (t : string) : contains (remove l t) t = false.
Proof.
  apply not_true_iff_false. rewrite contains_In. unfold remove.
  rewrite filter_In, String.eqb_refl. now intros [_ H].
Qed.

Lemma remove_add (l : DOMTokenList) (t : string) : remove (add l t) t = remove l t.
Proof.
  unfold add. destruct (contains l t); [reflexivity |].
  unfold remove. rewrite filter_app. simpl.
  now rewrite String.eqb_refl, app_nil_r.
Qed.

Lemma remove_remove (l : DOMTokenList) (t : string) : remove (remove l t) t = remove l t.
Proof.
  unfold remove. rewrite QueriesFacts.filter_filter.
  apply filter_ext. intros x. apply andb_diag.
Qed.

Lemma remove_absent (l : DOMTokenList) (t : string) :
  contains l t = false -> remove l t = l.
Proof.
  intros H. unfold remove. rewrite <- (filter_true l) at 2.
  apply filter_ext_in. intros x Hx. apply negb_true_iff, String.eqb_neq.
  intros ->. apply contains_In in Hx. congruence.
Qed.

Lemma add_add (l : DOMTokenList) (t : string) : add (add l t) t = add l t.
Proof. unfold add at 1. now rewrite contains_add. Qed.

Lemma NoDup_add (l : DOMTokenList) (t : string) : NoDup l -> NoDup (add l t).
Proof.
  intros H. unfold add. destruct (contains l t) eqn:Hc; [assumption |].
  apply QueriesFacts.NoDup_snoc; [assumption |].
  rewrite <- contains_In. congruence.
Qed.

Lemma NoDup_remove (l : DOMTokenList) (t : string) : NoDup l -> NoDup (remove l t).
Proof. apply NoDup_filter. Qed.

(** X15: when there is a viewer, [render] leaves the class [drawer-open] on
    its container exactly when the drawer is not closed, which is also the
    [open] prop of the drawer it returns; the other classes keep their
    order, no class is duplicated, and the drawer state is not changed. *)
Theorem render_marks_the_viewer (context : Context) (viewer : PdfViewer) :
  pdfViewer context = Some viewer ->
  exists viewer',
    pdfViewer (fst (render context)) = Some viewer'
    /\ contains (classList viewer') PDF_VIEWER_DRAWER_OPEN_CLASS
       = open (snd (render context))
    /\ open (snd (render context)) = negb (String.eqb (drawerState context) "closed")
    /\ remove (classList viewer') PDF_VIEWER_DRAWER_OPEN_CLASS
       = remove (classList viewer) PDF_VIEWER_DRAWER_OPEN_CLASS
    /\ (NoDup (classList viewer) -> NoDup (classList viewer'))
    /\ drawerState (fst (render context)) = drawerState context.
Proof.
  intros Hv. unfold render, render_effect, render_element. cbn [fst snd open].
  rewrite Hv. destruct (String.eqb (drawerState context) "closed"); cbn [negb];
    eexists; (split; [reflexivity |]); cbn [classList drawerState].
  - repeat split; [apply contains_remove | apply remove_remove | apply NoDup_remove].
  - repeat split; [apply contains_add | apply remove_add | apply NoDup_add].
Qed.

Lemma render_marks_the_viewer_witness :
  exists viewer',
    pdfViewer (fst (render {| pdfViewer := Some {| classList := ["pdfViewer"; "scrolling"] |};
                              drawerState := "show-citations" |}))
    = Some viewer'
    /\ contains (classList viewer') PDF_VIEWER_DRAWER_OPEN_CLASS = true.
Proof.
  destruct (render_marks_the_viewer
              {| pdfViewer := Some {| classList := ["pdfViewer"; "scrolling"] |};
                 drawerState := "show-citations" |}
              {| classList := ["pdfViewer"; "scrolling"] |} eq_refl)
    as (viewer' & Hv & Hc & _).
  exists viewer'. split; [exact Hv | exact Hc].
Defined.

Lemma render_effect_idem (context : Context) :
  render_effect (render_effect context) = render_effect context.
Proof.
  unfold render_effect. destruct (pdfViewer context) as [viewer |] eqn:Hv.
  - destruct (String.eqb (drawerState context) "closed") eqn:Hs;
      cbn [negb pdfViewer drawerState classList]; rewrite Hs; cbn [negb].
    + now rewrite remove_remove.
    + now rewrite add_add.
  - now rewrite Hv.
Qed.

(** X16: rendering again without a change of state changes nothing, and
    without a viewer [render] has no effect at all; the element returned
    does not depend on the viewer. *)
Theorem render_is_idempotent (context : Context) :
  fst (render (fst (render context))) = fst (render context)
  /\ snd (render (fst (render context))) = snd (render context)
  /\ (pdfViewer context = None -> fst (render context) = context).
Proof.
  unfold render. cbn [fst snd]. split; [apply render_effect_idem | split].
  - assert (Hs : drawerState (render_effect context) = drawerState context).
    { unfold render_effect. destruct (pdfViewer context); [| reflexivity].
      now destruct (negb _). }
    unfold render_element. now rewrite Hs.
  - intros H. unfold render_effect. now rewrite H.
Qed.

Lemma render_is_idempotent_witness :
  fst (render {| pdfViewer := None; drawerState := "show-symbols" |})
  = {| pdfViewer := None; drawerState := "show-symbols" |}.
Proof.
  apply (proj2 (proj2 (render_is_idempotent
           {| pdfViewer := None; drawerState := "show-symbols" |}))).
  reflexivity.
Defined.

Lemma classes_rendered_through (states : list string) (context : Context) :
  option_map (fun l => remove l PDF_VIEWER_DRAWER_OPEN_CLASS)
    (viewer_classes (rendered_through context states))
  = option_map (fun l => remove l PDF_VIEWER_DRAWER_OPEN_CLASS)
      (viewer_classes context).
Proof.
  revert context. induction states as [| state states IH]; intros context.
  - reflexivity.
  - unfold rendered_through. cbn [fold_left].
    fold (rendered_through (render_effect (with_state context state)) states).
    rewrite IH. unfold render_effect, with_state, viewer_classes.
    cbn [pdfViewer drawerState].
    destruct (pdfViewer context) as [viewer |]; [| reflexivity].
    destruct (negb _); cbn [option_map pdfViewer classList];
      now rewrite ?remove_add, ?remove_remove.
Qed.

(** X17: [componentWillUnmount] undoes the renders: whatever states the
    drawer was rendered in, after the unmount the container has no class
    [drawer-open] and its other classes are those it had at first, in the
    same order; a container that did not have the class at first has its
    class list back. *)
Theorem unmount_restores_the_classes (context : Context) (states : list string) :
  viewer_classes (componentWillUnmount (rendered_through context states))
  = option_map (fun l => remove l PDF_VIEWER_DRAWER_OPEN_CLASS) (viewer_classes context)
  /\ (forall viewer,
        pdfViewer context = Some viewer ->
        contains (classList viewer) PDF_VIEWER_DRAWER_OPEN_CLASS = false ->
        viewer_classes (componentWillUnmount (rendered_through context states))
        = Some (classList viewer)).
Proof.
  assert (H : viewer_classes (componentWillUnmount (rendered_through context states))
              = option_map (fun l => remove l PDF_VIEWER_DRAWER_OPEN_CLASS)
                  (viewer_classes context)).
  { rewrite <- (classes_rendered_through states context).
    unfold componentWillUnmount, viewer_classes.
    destruct (pdfViewer (rendered_through context states)) eqn:E;
      cbn [pdfViewer classList option_map]; rewrite ?E; reflexivity. }
  split; [exact H |].
  intros viewer Hv Hc. rewrite H. unfold viewer_classes. rewrite Hv.
  cbn [option_map]. now rewrite remove_absent.
Qed.

Lemma unmount_restores_the_classes_witness :
  viewer_classes
    (componentWillUnmount
       (rendered_through
          {| pdfViewer := Some {| classList := ["pdfViewer"; "scrolling"] |};
             drawerState := "closed" |}
          ["show-symbols"; "closed"; "show-citations"]))
  = Some ["pdfViewer"; "scrolling"].
Proof.
  apply (proj2 (unmount_restores_the_classes
           {| pdfViewer := Some {| classList := ["pdfViewer"; "scrolling"] |};
              drawerState := "closed" |}
           ["show-symbols"; "closed"; "show-citations"])
           {| classList := ["pdfViewer"; "scrolling"] |});
    reflexivity.
Defined.

Ltac panel_cases :=
  cbn; repeat split; intros;
  repeat match goal with
         | H : _ \/ _ |- _ => destruct H
         | H : _ /\ _ |- _ => destruct H
         | H : False |- _ => contradiction
         | H : SearchResults _ = SearchResults _ |- _ => injection H as H
         end;
  subst; try lia; try discriminate; try congruence; auto.

(** X18: the drawer shows at most one panel: the search results, four to a
    page, exactly in the state [show-symbols], and the paper list exactly in
    the state [show-citations]; closed, it is not open and shows nothing;
    the button of its header asks for the state [closed]. *)
Theorem drawer_content (context : Context) :
  List.length (content (snd (render context))) <= 1
  /\ (forall pageSize,
        In (SearchResults pageSize) (content (snd (render context)))
        <-> drawerState context = "show-symbols" /\ pageSize = 4%Z)
  /\ (In PaperList (content (snd (render context)))
      <-> drawerState context = "show-citations")
  /\ (open (snd (render context)) = false <-> drawerState context = "closed")
  /\ (open (snd (render context)) = false -> content (snd (render context)) = [])
  /\ open (snd (render (with_state context (onClick (snd (render context)))))) = false.
Proof.
  unfold render, render_element. cbn [snd content open onClick with_state drawerState].
  destruct (String.eqb_spec (drawerState context) "show-symbols") as [Hs | Hs].
  { rewrite Hs. panel_cases. }
  destruct (String.eqb_spec (drawerState context) "show-citations") as [Hc | Hc].
  { rewrite Hc. panel_cases. }
  destruct (String.eqb_spec (drawerState context) "closed") as [Hx | Hx].
  { rewrite Hx. panel_cases. }
  panel_cases.
Qed.

Lemma drawer_content_witness :
  content (snd (render {| pdfViewer := None; drawerState := "closed" |})) = [].
Proof.
  apply (proj1 (proj2 (proj2 (proj2 (proj2 (drawer_content
           {| pdfViewer := None; drawerState := "closed" |})))))).
  reflexivity.
Defined.

End DrawerFacts.

(* ===================================================================== *)
(** * The year of a paper *)
(* ===================================================================== *)

Module YearFacts.

Import JS JSFacts S2Api FetchSpec DecimalSpec DecimalFacts YearSpec.

(** A decimal digit is no white space, no sign and no [x]. *)
Lemma digit_facts (c : ascii) (v : N) :
  digit_value 10 c = Some v ->
  is_space1 c = false
  /\ (forall c2, is_space2 c c2 = false)
  /\ (forall c2 c3, is_space3 c c2 c3 = false)
  /\ (code c =? 45)%N = false
  /\ (code c =? 43)%N = false
  /\ (code c =? 120)%N = false
  /\ (code c =? 88)%N = false.
Proof.
  destruct c as [[|] [|] [|] [|] [|] [|] [|] [|]]; intros H;
    vm_compute in H; try discriminate H; repeat split; intros; reflexivity.
Qed.

Lemma trim_start_digit (c : ascii) (s : string) (v : N) :
  digit_value 10 c = Some v -> trim_start (String c s) = String c s.
Proof.
  intros H. destruct (digit_facts c v H) as (H1 & H2 & H3 & _).
  cbn [trim_start]. rewrite H1.
  destruct s as [| c2 [| c3 s3]]; rewrite ?H2, ?H3; reflexivity.
Qed.

Lemma strip_sign_digit (c : ascii) (s : string) (v : N) :
  digit_value 10 c = Some v -> strip_sign (String c s) = (false, String c s).
Proof.
  intros H. destruct (digit_facts c v H) as (_ & _ & _ & H4 & H5 & _).
  unfold strip_sign. now rewrite H4, H5.
Qed.

Lemma first_digit (d : Decimal.uint) (rest : string) :
  d <> Decimal.Nil ->
  exists c s v,
    (NilEmpty.string_of_uint d ++ rest)%string = String c s
    /\ digit_value 10 c = Some v.
Proof.
  intros Hd. destruct d; [congruence | ..]; simpl;
    do 3 eexists; (split; [reflexivity |]); reflexivity.
Qed.

Lemma strip_prefix_numeral (d : Decimal.uint) (rest : string) :
  d <> Decimal.Nil ->
  ends_numeral rest = true ->
  strip_prefix (NilEmpty.string_of_uint d ++ rest)%string
  = (10%N, (NilEmpty.string_of_uint d ++ rest)%string).
Proof.
  intros Hd Hrest.
  assert (Hx : match rest with
               | String cx _ => (code cx =? 120)%N || (code cx =? 88)%N = false
               | EmptyString => True
               end).
  { destruct rest as [| cx s']; simpl in *; [trivial |].
    destruct (digit_value 10 cx); [discriminate |].
    now apply negb_true_iff. }
  assert (Htail : forall d', match (NilEmpty.string_of_uint d' ++ rest)%string with
                             | String cx _ => (code cx =? 120)%N || (code cx =? 88)%N = false
                             | EmptyString => True
                             end).
  { intros d'. destruct d'; simpl; try reflexivity. exact Hx. }
  destruct d; [congruence | ..]; simpl;
    specialize (Htail d);
    destruct (NilEmpty.string_of_uint d ++ rest)%string; try reflexivity;
    cbn; try rewrite Htail; reflexivity.
Qed.

Lemma leading_digits_numeral (d : Decimal.uint) (rest : string) :
  ends_numeral rest = true ->
  leading_digits 10 (NilEmpty.string_of_uint d ++ rest)%string = uint_digits d.
Proof.
  intros Hrest. rewrite leading_digits_uint.
  destruct rest as [| c s]; simpl in *; [apply app_nil_r |].
  destruct (digit_value 10 c); [discriminate | apply app_nil_r].
Qed.

(** [parseInt] on a numeral followed by something that is not part of it. *)
Lemma parseInt_numeral (d : Decimal.uint) (rest : string) :
  d <> Decimal.Nil ->
  ends_numeral rest = true ->
  parseInt (NilEmpty.string_of_uint d ++ rest)%string
  = if (N.of_uint d =? 0)%N then S754_zero false
    else Number_of_Z (Z.of_N (N.of_uint d)).
Proof.
  intros Hd Hrest. unfold parseInt.
  destruct (first_digit d rest Hd) as (c & s & v & Hs & Hc).
  rewrite Hs, (trim_start_digit c s v Hc), (strip_sign_digit c s v Hc), <- Hs.
  rewrite (strip_prefix_numeral d rest Hd Hrest).
  rewrite (leading_digits_numeral d rest Hrest).
  pose proof (digits_value_uint d) as Hv.
  destruct (uint_digits d) as [| x l] eqn:Hdigits.
  - destruct d; discriminate || congruence.
  - rewrite Hv.
    destruct (N.of_uint d) as [| p]; reflexivity.
Qed.

Lemma to_uint_nonnil (n : N) : N.to_uint n <> Decimal.Nil.
Proof. apply to_uint_canonical. Qed.

Lemma string_append_empty (s : string) : (s ++ "")%string = s.
Proof. induction s as [| c s IH]; simpl; [reflexivity | now rewrite IH]. Qed.

Lemma parseInt_decimal_followed (n : N) (rest : string) :
  ends_numeral rest = true ->
  parseInt (decimal n ++ rest)%string
  = if (n =? 0)%N then S754_zero false else Number_of_Z (Z.of_N n).
Proof.
  intros Hrest. unfold decimal.
  rewrite (parseInt_numeral _ _ (to_uint_nonnil n) Hrest).
  now rewrite DecimalN.Unsigned.of_to.
Qed.

Lemma parseInt_decimal_alone (n : N) :
  parseInt (decimal n)
  = if (n =? 0)%N then S754_zero false else Number_of_Z (Z.of_N n).
Proof.
  rewrite <- (string_append_empty (decimal n)).
  now apply parseInt_decimal_followed.
Qed.

(** X13: [parseInt] reads the decimal numeral of a number back as that
    number, whatever follows the numeral that is neither a digit nor an
    [x]: it answers [+0] for 0 and the Number value of [n] otherwise. *)
Theorem parseInt_decimal (n : N) (rest : string) :
  ends_numeral rest = true ->
  parseInt (decimal n ++ rest)%string
  = (if (n =? 0)%N then S754_zero false else Number_of_Z (Z.of_N n))
  /\ parseInt (decimal n ++ rest)%string = parseInt (decimal n)
  /\ year_of (decimal n ++ rest)%string = year_of (decimal n).
Proof.
  intros Hrest.
  assert (H0 : parseInt (decimal n ++ rest)%string = parseInt (decimal n))
    by (now rewrite parseInt_decimal_alone, parseInt_decimal_followed).
  split; [now apply parseInt_decimal_followed | split; [exact H0 |]].
  unfold year_of. now rewrite H0.
Qed.

Lemma parseInt_decimal_witness :
  parseInt (decimal 2019 ++ "-05-17")%string = Number_of_Z (Z.of_N 2019).
Proof.
  apply (proj1 (parseInt_decimal 2019 "-05-17" eq_refl)).
Defined.

Lemma four_digit_years_truthy :
  forallb (fun n => ToBoolean (Number_of_Z (Z.of_N n))) four_digit_years = true.
Proof. vm_compute. reflexivity. Qed.



Example decimal_2019 : decimal 2019 = "2019".
Proof. reflexivity. Qed.

End YearFacts.
